(** * Dota 2 draft analyzer: the knowledge base loader and the query engine

    A shallow embedding of [app/core/draft_analyzer_core.py]:
    the [DataManager] that loads the JSON knowledge base, the fixed
    [COUNTER_ITEMS] catalog and the three queries of [AnalysisCore].

    Python values are the values [json.load] can produce.  Dictionaries keep
    their insertion order, so they are association lists with unique keys.
    Methods run in a small state-and-exception monad over the process state
    (the [DataManager] attributes and the lines printed so far). *)

From Stdlib Require Import ZArith List String Ascii Bool Lia Arith Permutation.
From Stdlib Require Import Sorted.
From Stdlib Require Import Floats.SpecFloat DecimalString.
Import ListNotations.
Open Scope string_scope.
Open Scope list_scope.

(** ** Python strings

    A [string] is a sequence of characters; [++] is concatenation. *)

(** [s.startswith(prefix)] *)
Fixpoint startswith (s prefix : string) {struct prefix} : bool :=
  match prefix, s with
  | EmptyString, _ => true
  | String _ _, EmptyString => false
  | String a p, String b r => Ascii.eqb a b && startswith r p
  end.

(** [needle in hay] on two strings: plain substring containment. *)
Fixpoint str_in (needle hay : string) : bool :=
  startswith hay needle
  || match hay with
     | EmptyString => false
     | String _ r => str_in needle r
     end.

(** [s.endswith(suffix)]: some tail of [s] is [suffix]. *)
Fixpoint endswith (s suffix : string) : bool :=
  String.eqb s suffix
  || match s with
     | EmptyString => false
     | String _ r => endswith r suffix
     end.

(** [s.replace(old, new)]: every non-overlapping occurrence of [old],
    scanning from the left.  [skip] counts the characters of an occurrence
    still to be dropped. *)
Fixpoint replace_from (skip : nat) (s old new : string) : string :=
  match s with
  | EmptyString => EmptyString
  | String c r =>
      match skip with
      | S k => replace_from k r old new
      | O =>
          if startswith s old
          then new ++ replace_from (String.length old - 1) r old new
          else String c (replace_from 0 r old new)
      end
  end.

Fixpoint replace_empty (s new : string) : string :=
  match s with
  | EmptyString => new
  | String c r => new ++ String c (replace_empty r new)
  end.

Definition replace (s old new : string) : string :=
  match old with
  | EmptyString => replace_empty s new
  | _ => replace_from 0 s old new
  end.

(** [sep.join(parts)] *)
Definition join (sep : string) (parts : list string) : string :=
  String.concat sep parts.

(** The characters of a string, each as a one-character string
    (iteration over a [str]). *)
Fixpoint chars (s : string) : list string :=
  match s with
  | EmptyString => []
  | String c r => String c EmptyString :: chars r
  end.

(** [str(n)] for a length. *)
Definition str_of_nat (n : nat) : string :=
  NilZero.string_of_uint (Nat.to_uint n).

(** [str.lower] restricted to the letters A-Z; it is what [str.lower] does on
    ASCII text, and is used for the concrete examples. *)
Definition ascii_lower_char (c : ascii) : ascii :=
  let n := nat_of_ascii c in
  if (65 <=? n)%nat && (n <=? 90)%nat then ascii_of_nat (n + 32) else c.

Fixpoint ascii_lower (s : string) : string :=
  match s with
  | EmptyString => EmptyString
  | String c r => String (ascii_lower_char c) (ascii_lower r)
  end.

(** [os.path.join(a, b)] (posixpath). *)
Definition os_path_join (a b : string) : string :=
  if startswith b "/" then b
  else if String.eqb a "" || endswith a "/" then a ++ b
  else a ++ "/" ++ b.

(** ** Dictionaries

    Insertion-ordered: assigning to an existing key keeps its position,
    a new key goes to the end. *)
Section Dict.
Context {K V : Type} (keq : K -> K -> bool).

Fixpoint dict_get (d : list (K * V)) (k : K) : option V :=
  match d with
  | [] => None
  | (k', v) :: rest => if keq k k' then Some v else dict_get rest k
  end.

Definition dict_mem (d : list (K * V)) (k : K) : bool :=
  match dict_get d k with Some _ => true | None => false end.

Fixpoint dict_set (d : list (K * V)) (k : K) (v : V) : list (K * V) :=
  match d with
  | [] => [(k, v)]
  | (k', v') :: rest =>
      if keq k k' then (k', v) :: rest else (k', v') :: dict_set rest k v
  end.

Definition dict_keys (d : list (K * V)) : list K := map fst d.
End Dict.

(** ** Values decoded from JSON *)
#[warnings="-register-all"]
Inductive pyval : Type :=
| PNone
| PBool (b : bool)
| PInt (z : Z)
| PFloat (f : spec_float)
| PStr (s : string)
| PList (items : list pyval)
| PDict (entries : list (string * pyval)).

(** [bool(v)] *)
Definition truthy (v : pyval) : bool :=
  match v with
  | PNone => false
  | PBool b => b
  | PInt z => negb (z =? 0)%Z
  | PFloat (S754_zero _) => false
  | PFloat _ => true
  | PStr s => negb (String.eqb s "")
  | PList items => match items with [] => false | _ => true end
  | PDict entries => match entries with [] => false | _ => true end
  end.

(** [a or b] *)
Definition py_or (a b : pyval) : pyval := if truthy a then a else b.

(** Lists and dicts cannot be dictionary keys. *)
Definition hashable (v : pyval) : bool :=
  match v with
  | PList _ | PDict _ => false
  | _ => true
  end.

Definition float_eq_int (f : spec_float) (z : Z) : bool :=
  match f with
  | S754_zero _ => (z =? 0)%Z
  | S754_finite s m e =>
      let v := if s then Z.neg m else Z.pos m in
      if (0 <=? e)%Z then (v * 2 ^ e =? z)%Z else (v =? z * 2 ^ (- e))%Z
  | _ => false
  end.

(** [a == b] on hashable values: numbers compare by value across
    [bool], [int] and [float]; a string only equals a string. *)
Definition key_eq (a b : pyval) : bool :=
  let num v :=
    match v with
    | PBool b => Some (inl (Z.b2z b))
    | PInt z => Some (inl z)
    | PFloat f => Some (inr f)
    | _ => None
    end in
  match a, b with
  | PNone, PNone => true
  | PStr s, PStr t => String.eqb s t
  | _, _ =>
      match num a, num b with
      | Some (inl x), Some (inl y) => (x =? y)%Z
      | Some (inr f), Some (inr g) => SFeqb f g
      | Some (inl x), Some (inr f) | Some (inr f), Some (inl x) =>
          float_eq_int f x
      | _, _ => false
      end
  end.

(** ** Exceptions and the method monad *)
Inductive exn : Type :=
| KeyError
| TypeError
| OSError.

Inductive result (A : Type) : Type :=
| Ok (a : A)
| Raise (e : exn).
Arguments Ok {A} a.
Arguments Raise {A} e.

Definition rbind {A B} (r : result A) (k : A -> result B) : result B :=
  match r with
  | Ok a => k a
  | Raise e => Raise e
  end.

(** [key in container] for a string key. *)
Definition py_contains (key : string) (container : pyval) : result bool :=
  match container with
  | PDict entries => Ok (dict_mem String.eqb entries key)
  | PList items => Ok (existsb (key_eq (PStr key)) items)
  | PStr s => Ok (str_in key s)
  | _ => Raise TypeError
  end.

(** [container[key]] for a string key. *)
Definition py_getitem (container : pyval) (key : string) : result pyval :=
  match container with
  | PDict entries =>
      match dict_get String.eqb entries key with
      | Some v => Ok v
      | None => Raise KeyError
      end
  | _ => Raise TypeError
  end.

(** [container.get(key, default)]: only called on the elements of the
    normalized roster, after [container[key]] succeeded on them. *)
Definition py_get_default (container : pyval) (key : string) (default : pyval)
  : result pyval :=
  match container with
  | PDict entries =>
      Ok (match dict_get String.eqb entries key with
          | Some v => v
          | None => default
          end)
  | _ => Raise TypeError
  end.

(** The elements a [for] loop over the value visits. *)
Definition py_iter (v : pyval) : result (list pyval) :=
  match v with
  | PList items => Ok items
  | PDict entries => Ok (map (fun kv => PStr (fst kv)) entries)
  | PStr s => Ok (map PStr (chars s))
  | _ => Raise TypeError
  end.

(** [len(v)].  A [string] stands for the code points of a [str], one
    [ascii] each, so the length of a string is that of the [str] for text
    within Latin-1 only. *)
Definition py_len (v : pyval) : result nat :=
  match v with
  | PList items => Ok (List.length items)
  | PDict entries => Ok (List.length entries)
  | PStr s => Ok (String.length s)
  | _ => Raise TypeError
  end.

(** [' '.join(v)]: every element visited must be a [str]. *)
Fixpoint all_str (vs : list pyval) : result (list string) :=
  match vs with
  | [] => Ok []
  | PStr s :: rest => rbind (all_str rest) (fun ss => Ok (s :: ss))
  | _ :: _ => Raise TypeError
  end.

Definition py_join (sep : string) (v : pyval) : result string :=
  rbind (py_iter v) (fun vs => rbind (all_str vs) (fun ss => Ok (join sep ss))).

Notation "'try' x ':=' e 'in' k" := (rbind e (fun x => k))
  (at level 10, x name, e at level 100, k at level 200, only parsing).

(** The process state a method can see: the attributes of the one
    [DataManager] object and the lines printed so far. *)
Record hero_info : Type := mk_hero_info {
  safe_name : pyval;
  image_path : pyval
}.

Record DataManager : Type := mk_DataManager {
  data_path : string;
  heroes : pyval;
  hero_strategies : list (string * pyval);
  normalized_heroes : pyval;
  hero_name_map : list (pyval * hero_info)
}.

Record process : Type := mk_process {
  data_manager : DataManager;
  stdout : list string
}.

Definition M (A : Type) : Type := process -> result A * process.

Definition ret {A} (a : A) : M A := fun p => (Ok a, p).

Definition bind {A B} (c : M A) (k : A -> M B) : M B :=
  fun p =>
    match c p with
    | (Ok a, p') => k a p'
    | (Raise e, p') => (Raise e, p')
    end.

Notation "x <- c ;; k" := (bind c (fun x => k))
  (at level 61, c at next level, right associativity).
Notation "c ;; k" := (bind c (fun _ => k))
  (at level 61, right associativity).

Definition lift {A} (r : result A) : M A := fun p => (r, p).

Definition get_dm : M DataManager := fun p => (Ok (data_manager p), p).

Definition set_dm (dm : DataManager) : M unit :=
  fun p => (Ok tt, mk_process dm (stdout p)).

Definition print (line : string) : M unit :=
  fun p => (Ok tt, mk_process (data_manager p) (stdout p ++ [line])).

(** [for x in xs: body] *)
Fixpoint for_each {A} (xs : list A) (body : A -> M unit) : M unit :=
  match xs with
  | [] => ret tt
  | x :: rest => body x ;; for_each rest body
  end.

(** A [for] loop that rebinds one local variable. *)
Fixpoint for_fold {A S} (xs : list A) (local : S) (body : S -> A -> M S)
  : M S :=
  match xs with
  | [] => ret local
  | x :: rest => local' <- body local x ;; for_fold rest local' body
  end.

(** Attribute assignments [self.attr = v]. *)
Definition set_heroes (v : pyval) : M unit :=
  dm <- get_dm ;;
  set_dm (mk_DataManager (data_path dm) v (hero_strategies dm)
            (normalized_heroes dm) (hero_name_map dm)).

Definition set_normalized_heroes (v : pyval) : M unit :=
  dm <- get_dm ;;
  set_dm (mk_DataManager (data_path dm) (heroes dm) (hero_strategies dm)
            v (hero_name_map dm)).

Definition set_hero_name_map (m : list (pyval * hero_info)) : M unit :=
  dm <- get_dm ;;
  set_dm (mk_DataManager (data_path dm) (heroes dm) (hero_strategies dm)
            (normalized_heroes dm) m).

(** [self.hero_strategies[key] = v] *)
Definition set_hero_strategy (key : string) (v : pyval) : M unit :=
  dm <- get_dm ;;
  set_dm (mk_DataManager (data_path dm) (heroes dm)
            (dict_set String.eqb (hero_strategies dm) key v)
            (normalized_heroes dm) (hero_name_map dm)).

(** ** The file system, as the loader sees it *)
Inductive opened : Type :=
| Parsed (v : pyval)        (* [json.load] returned [v] *)
| FileNotFoundError         (* raised by [open] *)
| JSONDecodeError           (* raised by [json.load] *)
| OtherError.               (* any exception [_load_json] does not catch *)

Record filesystem : Type := mk_filesystem {
  open_json : string -> opened;
  isdir : string -> bool;
  listdir : string -> result (list string)
}.

(** ** class DataManager *)
Section DataManagerMethods.
Variable fs : filesystem.

Definition _load_json (file_name : string) : M pyval :=
  dm <- get_dm ;;
  let path := os_path_join (data_path dm) file_name in
  match open_json fs path with
  | Parsed v => ret v
  | FileNotFoundError =>
      print ("Error: " ++ path ++ " not found.") ;; ret PNone
  | JSONDecodeError =>
      print ("Error: Could not decode JSON from " ++ path ++ ".") ;;
      ret PNone
  | OtherError => lift (Raise OSError)
  end.

(** The dict comprehension building [hero_name_map]:
    [{hero['name']: {'safe_name': hero['safe_name'],
                     'image_path': hero.get('image_path', '')}
      for hero in normalized_heroes
      if 'name' in hero and 'safe_name' in hero}] *)
Fixpoint name_map_comprehension (todo : list pyval)
    (acc : list (pyval * hero_info)) : result (list (pyval * hero_info)) :=
  match todo with
  | [] => Ok acc
  | hero :: rest =>
      try has_name := py_contains "name" hero in
      try keep :=
        (if has_name then py_contains "safe_name" hero else Ok false) in
      if keep then
        try name := py_getitem hero "name" in
        try safe := py_getitem hero "safe_name" in
        try image := py_get_default hero "image_path" (PStr "") in
        if hashable name
        then name_map_comprehension rest
               (dict_set key_eq acc name (mk_hero_info safe image))
        else Raise TypeError
      else name_map_comprehension rest acc
  end.

Definition load_strategy_file (filename : string) : M unit :=
  if endswith filename ".json" then
    let safe_hero_name := replace filename ".json" "" in
    strategy_data <- _load_json (os_path_join "howdoiplay_json" filename) ;;
    if truthy strategy_data
    then set_hero_strategy safe_hero_name strategy_data
    else ret tt
  else ret tt.

Definition load_strategies : M unit :=
  dm <- get_dm ;;
  let strategy_path := os_path_join (data_path dm) "howdoiplay_json" in
  if isdir fs strategy_path then
    filenames <- lift (listdir fs strategy_path) ;;
    for_each filenames load_strategy_file
  else ret tt.

Definition _load_all_data : M unit :=
  print "Loading game data..." ;;
  h <- _load_json "heroes.json" ;;
  set_heroes (py_or h (PList [])) ;;
  n <- _load_json "normalized_heroes.json" ;;
  set_normalized_heroes (py_or n (PList [])) ;;
  dm <- get_dm ;;
  todo <- lift (py_iter (normalized_heroes dm)) ;;
  name_map <- lift (name_map_comprehension todo []) ;;
  set_hero_name_map name_map ;;
  load_strategies ;;
  dm <- get_dm ;;
  n_heroes <- lift (py_len (heroes dm)) ;;
  print ("Loaded " ++ str_of_nat n_heroes ++ " heroes.") ;;
  n_normalized <- lift (py_len (normalized_heroes dm)) ;;
  print ("Loaded normalized data for " ++ str_of_nat n_normalized
         ++ " heroes.") ;;
  print ("Loaded strategies for "
         ++ str_of_nat (List.length (hero_strategies dm)) ++ " heroes.").

(** [DataManager(data_path)]: the attribute defaults of [__init__], then
    [_load_all_data]. *)
Definition DataManager_init (path : string) : M unit :=
  set_dm (mk_DataManager path (PList []) [] (PList []) []) ;;
  _load_all_data.
End DataManagerMethods.

(** ** The counter-item catalog *)
Definition COUNTER_ITEMS : list string :=
  [ "Black King Bar"; "Linken's Sphere"; "Lotus Orb"; "Manta Style";
    "Aeon Disk"; "Guardian Greaves"; "Satanic";
    "Heaven's Halberd"; "Butterfly"; "Solar Crest";
    "Scythe of Vyse"; "Abyssal Blade"; "Gleipnir"; "Rod of Atos";
    "Orchid Malevolence"; "Bloodthorn"; "Diffusal Blade";
    "Gem of True Sight"; "Sentry Ward"; "Dust of Appearance";
    "Monkey King Bar";
    "Blade Mail"; "Ghost Scepter"; "Eul's Scepter of Divinity";
    "Pipe of Insight"; "Eternal Shroud"; "Assault Cuirass";
    "Crimson Guard"; "Shiva's Guard"; "Eye of Skadi";
    "Silver Edge"; "Khanda"; "Nullifier"; "Spirit Vessel";
    "Force Staff"; "Hurricane Pike"; "Blink Dagger";
    "Dagon"; "Hand of Midas" ].

(** ** class AnalysisCore *)

(** [x in xs] on a list of strings. *)
Definition list_mem (x : string) (xs : list string) : bool :=
  existsb (String.eqb x) xs.

(** [hero_strategies.get(key)]: [None] when the key is absent; the keys of
    [hero_strategies] are file name stems, so only a [str] can be found. *)
Definition strategies_get (d : list (string * pyval)) (key : pyval)
  : result pyval :=
  if hashable key then
    Ok (match key with
        | PStr s =>
            match dict_get String.eqb d s with
            | Some v => v
            | None => PNone
            end
        | _ => PNone
        end)
  else Raise TypeError.

(** The body of [if item.lower() in counter_tips_text:]
    [if item not in item_suggestions: item_suggestions[item] = []]
    [if hero_name not in item_suggestions[item]:
         item_suggestions[item].append(hero_name)] *)
Definition record_counter (hero_name item : string)
    (item_suggestions : list (string * list string))
  : list (string * list string) :=
  let item_suggestions :=
    if dict_mem String.eqb item_suggestions item then item_suggestions
    else dict_set String.eqb item_suggestions item [] in
  match dict_get String.eqb item_suggestions item with
  | Some countered =>
      if list_mem hero_name countered then item_suggestions
      else dict_set String.eqb item_suggestions item (countered ++ [hero_name])
  | None => item_suggestions
  end.

Section AnalysisCoreMethods.
(** [str.lower] *)
Variable lower : string -> string.

(** [for item in COUNTER_ITEMS: ...] *)
Definition scan_catalog (hero_name counter_tips_text : string)
    (item_suggestions : list (string * list string))
  : list (string * list string) :=
  fold_left
    (fun item_suggestions item =>
       if str_in (lower item) counter_tips_text
       then record_counter hero_name item item_suggestions
       else item_suggestions)
    COUNTER_ITEMS item_suggestions.

(** One iteration of [for hero_name in enemy_heroes:] in
    [get_item_suggestions]; [Ok item_suggestions] unchanged is [continue]. *)
Definition item_suggestions_step (dm : DataManager)
    (item_suggestions : list (string * list string)) (hero_name : string)
  : result (list (string * list string)) :=
  match dict_get key_eq (hero_name_map dm) (PStr hero_name) with
  | None => Ok item_suggestions
  | Some hero_info =>
      try strategy :=
        strategies_get (hero_strategies dm) (safe_name hero_info) in
      if negb (truthy strategy) then Ok item_suggestions else
      try strategies := py_getitem strategy "strategies" in
      try has_tips := py_contains "counter_tips" strategies in
      if negb has_tips then Ok item_suggestions else
      try tips := py_getitem strategies "counter_tips" in
      try text := py_join " " tips in
      let counter_tips_text := lower text in
      Ok (scan_catalog hero_name counter_tips_text item_suggestions)
  end.

Definition get_item_suggestions (enemy_heroes : list string)
  : M (list (string * list string)) :=
  for_fold enemy_heroes []
    (fun item_suggestions hero_name =>
       dm <- get_dm ;;
       lift (item_suggestions_step dm item_suggestions hero_name)).

Definition get_strategic_tips (your_hero : string) : M pyval :=
  dm <- get_dm ;;
  match dict_get key_eq (hero_name_map dm) (PStr your_hero) with
  | None => ret (PList [])
  | Some hero_info =>
      strategy <-
        lift (strategies_get (hero_strategies dm) (safe_name hero_info)) ;;
      if truthy strategy then
        strategies <- lift (py_getitem strategy "strategies") ;;
        has_tips <- lift (py_contains "general_tips" strategies) ;;
        if has_tips then lift (py_getitem strategies "general_tips")
        else ret (PList [])
      else ret (PList [])
  end.

(** One iteration of the loop of [get_counter_tips]. *)
Definition counter_tips_step (dm : DataManager)
    (counter_tips : list (string * pyval)) (hero_name : string)
  : result (list (string * pyval)) :=
  match dict_get key_eq (hero_name_map dm) (PStr hero_name) with
  | None => Ok counter_tips
  | Some hero_info =>
      try strategy :=
        strategies_get (hero_strategies dm) (safe_name hero_info) in
      if truthy strategy then
        try strategies := py_getitem strategy "strategies" in
        try has_tips := py_contains "counter_tips" strategies in
        if has_tips then
          try tips := py_getitem strategies "counter_tips" in
          Ok (dict_set String.eqb counter_tips hero_name tips)
        else Ok counter_tips
      else Ok counter_tips
  end.

Definition get_counter_tips (enemy_heroes : list string)
  : M (list (string * pyval)) :=
  for_fold enemy_heroes []
    (fun counter_tips hero_name =>
       dm <- get_dm ;;
       lift (counter_tips_step dm counter_tips hero_name)).
End AnalysisCoreMethods.

(** ** Notions used in the statements *)

(** A loop whose body only reads the data manager: the fold of its body. *)
Fixpoint rfold {A S} (body : S -> A -> result S) (xs : list A) (local : S)
  : result S :=
  match xs with
  | [] => Ok local
  | x :: rest => try local' := body local x in rfold body rest local'
  end.

(** What [get_item_suggestions] computes for one opponent before it scans
    the catalog: [Ok None] when the opponent is skipped, [Ok (Some text)]
    with the lower-cased joined counter tips otherwise. *)
Definition counter_tips_text (lower : string -> string) (dm : DataManager)
    (hero_name : string) : result (option string) :=
  match dict_get key_eq (hero_name_map dm) (PStr hero_name) with
  | None => Ok None
  | Some hero_info =>
      try strategy :=
        strategies_get (hero_strategies dm) (safe_name hero_info) in
      if negb (truthy strategy) then Ok None else
      try strategies := py_getitem strategy "strategies" in
      try has_tips := py_contains "counter_tips" strategies in
      if negb has_tips then Ok None else
      try tips := py_getitem strategies "counter_tips" in
      try text := py_join " " tips in
      Ok (Some (lower text))
  end.

(** [hero_name] is listed under [item]. *)
Definition recorded (item_suggestions : list (string * list string))
    (hero_name item : string) : Prop :=
  exists countered,
    dict_get String.eqb item_suggestions item = Some countered
    /\ list_mem hero_name countered = true.

(** The heroes listed under [item]; none when the key is missing. *)
Definition countered_by (item_suggestions : list (string * list string))
    (item : string) : list string :=
  match dict_get String.eqb item_suggestions item with
  | Some countered => countered
  | None => []
  end.

(** [xs.append(x)] guarded by [if x not in xs]. *)
Definition add_once (x : string) (xs : list string) : list string :=
  if list_mem x xs then xs else xs ++ [x].

(** The catalog scan over an arbitrary list of items. *)
Definition scan_items (lower : string -> string) (items : list string)
    (hero_name counter_tips_text : string)
    (item_suggestions : list (string * list string))
  : list (string * list string) :=
  fold_left
    (fun item_suggestions item =>
       if str_in (lower item) counter_tips_text
       then record_counter hero_name item item_suggestions
       else item_suggestions)
    items item_suggestions.

(** Some item of [items] equal to [item] occurs, lower-cased, in [text]. *)
Definition hits (lower : string -> string) (items : list string)
    (text item : string) : bool :=
  existsb (fun i => String.eqb item i && str_in (lower i) text) items.

(** [item] is suggested against [hero_name]: the opponent is not skipped and
    the lower-cased item name occurs in its counter tips text. *)
Definition matched (lower : string -> string) (dm : DataManager)
    (hero_name item : string) : Prop :=
  exists text,
    counter_tips_text lower dm hero_name = Ok (Some text)
    /\ hits lower COUNTER_ITEMS text item = true.

(** [needle] occurs in [hay]. *)
Definition substring_of (needle hay : string) : Prop :=
  exists pre post : string, hay = (pre ++ needle ++ post)%string.

(** Appending to a list of keys the elements not yet in it, in order:
    the order in which a dict receives its keys. *)
Definition add_all (xs seen : list string) : list string :=
  fold_left (fun seen x => add_once x seen) xs seen.

(** The catalog items found in the counter tips of one opponent, in catalog
    order; none for an opponent that is skipped. *)
Definition matched_items (lower : string -> string) (dm : DataManager)
    (hero_name : string) : list string :=
  match counter_tips_text lower dm hero_name with
  | Ok (Some text) => filter (fun item => str_in (lower item) text) COUNTER_ITEMS
  | _ => []
  end.

(** ** An example knowledge base

    Five heroes: two with full documents, one whose document has no nested
    [strategies] record, one without a document, one whose nested record has
    no tip field. *)
Definition tips_document (general counter : list string) : pyval :=
  PDict [ ("strategies",
           PDict [ ("general_tips", PList (map PStr general));
                   ("counter_tips", PList (map PStr counter)) ]) ].

Definition example_strategies : list (string * pyval) :=
  [ ("hero_a",
     tips_document
       ["Stay with your team"]
       ["Buy a Black King Bar to counter Hero A's magic burst"]);
    ("hero_b",
     tips_document
       ["Farm efficiently"; "Ward the jungle"]
       ["A Lotus Orb reflects the hook"; "Keep the lotus orb ready"]);
    ("hero_c", PDict [("hero", PStr "Hero C")]);
    ("hero_e", PDict [("strategies", PDict [("source", PStr "wiki")])]) ].

Definition example_normalized : list pyval :=
  map (fun ns => PDict [("name", PStr (fst ns)); ("safe_name", PStr (snd ns))])
    [ ("Hero A", "hero_a"); ("Hero B", "hero_b"); ("Hero C", "hero_c");
      ("Hero D", "hero_d"); ("Hero E", "hero_e") ].

Definition example_name_map : list (pyval * hero_info) :=
  map (fun ns => (PStr (fst ns), mk_hero_info (PStr (snd ns)) (PStr "")))
    [ ("Hero A", "hero_a"); ("Hero B", "hero_b"); ("Hero C", "hero_c");
      ("Hero D", "hero_d"); ("Hero E", "hero_e") ].

Definition example_dm : DataManager :=
  mk_DataManager "data"
    (PList [PDict [("name", PStr "Hero A")]; PDict [("name", PStr "Hero B")]])
    example_strategies (PList example_normalized) example_name_map.

Definition example_process : process := mk_process example_dm [].

(** The three collections of the knowledge base. *)
Definition knowledge_base (p : process)
  : pyval * list (pyval * hero_info) * list (string * pyval) :=
  (heroes (data_manager p), hero_name_map (data_manager p),
   hero_strategies (data_manager p)).

(** [hero_name] resolves to a document whose nested record has a
    counter-tips field holding the strings [tips]. *)
Definition has_counter_tips (dm : DataManager) (hero_name : string)
    (tips : list string) : Prop :=
  exists info id entries fields,
    dict_get key_eq (hero_name_map dm) (PStr hero_name) = Some info
    /\ safe_name info = PStr id
    /\ dict_get String.eqb (hero_strategies dm) id = Some (PDict entries)
    /\ dict_get String.eqb entries "strategies" = Some (PDict fields)
    /\ dict_get String.eqb fields "counter_tips" = Some (PList (map PStr tips)).

(** [xs] can be obtained from [ys] by deleting elements: [xs] lists its
    elements in the order [ys] has them. *)
Fixpoint subsequence (xs ys : list string) : bool :=
  match xs, ys with
  | [], _ => true
  | _ :: _, [] => false
  | x :: xs', y :: ys' =>
      if String.eqb x y then subsequence xs' ys' else subsequence xs ys'
  end.

(** The keys of the suggestions follow the catalog order. *)
Definition keys_follow_catalog (lower : string -> string) (p : process)
    (enemy_heroes : list string) : Prop :=
  forall d, fst (get_item_suggestions lower enemy_heroes p) = Ok d ->
            subsequence (dict_keys d) COUNTER_ITEMS = true.

(** Where the lookup of a display name ends, in the words of the
    specification: the name does not resolve, there is no strategy document
    for it (or an empty one), or the document carries the nested
    [strategies] record with the tip fields.  Everything else (a safe name
    that cannot be a key, a document that is not a record or has no nested
    record) is [Malformed]. *)
Inductive lookup_outcome : Type :=
| Unresolvable
| NoDocument
| TipsRecord (fields : list (string * pyval))
| Malformed.

Definition resolve (dm : DataManager) (hero_name : string) : lookup_outcome :=
  match dict_get key_eq (hero_name_map dm) (PStr hero_name) with
  | None => Unresolvable
  | Some info =>
      match safe_name info with
      | PList _ | PDict _ => Malformed
      | PStr id =>
          match dict_get String.eqb (hero_strategies dm) id with
          | None => NoDocument
          | Some document =>
              if truthy document then
                match document with
                | PDict entries =>
                    match dict_get String.eqb entries "strategies" with
                    | Some (PDict fields) => TipsRecord fields
                    | _ => Malformed
                    end
                | _ => Malformed
                end
              else NoDocument
          end
      | _ => NoDocument
      end
  end.


(** The tip field of a hero, empty when it is missing. *)
Definition tips_or_empty (dm : DataManager) (hero_name field : string)
  : pyval :=
  match resolve dm hero_name with
  | TipsRecord fields =>
      match dict_get String.eqb fields field with
      | Some tips => tips
      | None => PList []
      end
  | _ => PList []
  end.


(** ** Notions used in the statements about loading *)

(** The base name of a strategy file minus its five-character extension. *)
Definition stem (filename : string) : string :=
  String.substring 0 (String.length filename - 5) filename.

(** The path [_load_json] opens for a file of the strategy directory. *)
Definition strategy_file (path filename : string) : string :=
  os_path_join path (os_path_join "howdoiplay_json" filename).

(** The read raised one of the two exceptions [_load_json] catches:
    [FileNotFoundError] from [open] (the file is missing) or
    [JSONDecodeError] from [json.load] (its text is not JSON).  No other
    failure of a read is meant. *)
Definition absorbed (o : opened) : Prop :=
  o = FileNotFoundError \/ o = JSONDecodeError.

(** The line [_load_json] prints when it catches [FileNotFoundError] or
    [JSONDecodeError]. *)
Definition load_error_message (path : string) (o : opened) : string :=
  match o with
  | JSONDecodeError => "Error: Could not decode JSON from " ++ path ++ "."
  | _ => "Error: " ++ path ++ " not found."
  end.

(** Every well-formed file of the strategy directory is in the mapping under
    its stem. *)
Definition well_formed_files_inserted (fs : filesystem) (path : string)
    (filenames : list string) (strategies : list (string * pyval)) : Prop :=
  forall filename document,
    In filename filenames -> endswith filename ".json" = true ->
    open_json fs (strategy_file path filename) = Parsed document ->
    dict_get String.eqb strategies (stem filename) = Some document.

(** The data manager after [self.hero_strategies[key] = document]. *)
Definition with_strategy (dm : DataManager) (key : string) (document : pyval)
  : DataManager :=
  mk_DataManager (data_path dm) (heroes dm)
    (dict_set String.eqb (hero_strategies dm) key document)
    (normalized_heroes dm) (hero_name_map dm).

(** The process after one more line was printed. *)
Definition printed (p : process) (line : string) : process :=
  mk_process (data_manager p) (stdout p ++ [line]).

(** ** An example data directory

    The files behind [example_dm], a file that is not JSON, a file holding an
    empty object and a file without the extension. *)
Definition example_files : list (string * opened) :=
  [ ("data/heroes.json",
     Parsed (PList [PDict [("name", PStr "Hero A")];
                    PDict [("name", PStr "Hero B")]]));
    ("data/normalized_heroes.json", Parsed (PList example_normalized));
    ("data/howdoiplay_json/hero_a.json",
     Parsed (tips_document
               ["Stay with your team"]
               ["Buy a Black King Bar to counter Hero A's magic burst"]));
    ("data/howdoiplay_json/hero_b.json",
     Parsed (tips_document
               ["Farm efficiently"; "Ward the jungle"]
               ["A Lotus Orb reflects the hook"; "Keep the lotus orb ready"]));
    ("data/howdoiplay_json/broken.json", JSONDecodeError);
    ("data/howdoiplay_json/hero_c.json",
     Parsed (PDict [("hero", PStr "Hero C")]));
    ("data/howdoiplay_json/empty.json", Parsed (PDict []));
    ("data/howdoiplay_json/hero_e.json",
     Parsed (PDict [("strategies", PDict [("source", PStr "wiki")])]));
    ("data/howdoiplay_json/notes.txt", JSONDecodeError) ].

Definition example_filenames : list string :=
  [ "hero_a.json"; "hero_b.json"; "broken.json"; "hero_c.json";
    "empty.json"; "hero_e.json"; "notes.txt" ].

Definition example_fs : filesystem :=
  mk_filesystem
    (fun path =>
       match dict_get String.eqb example_files path with
       | Some o => o
       | None => FileNotFoundError
       end)
    (fun path => String.eqb path "data/howdoiplay_json")
    (fun path =>
       if String.eqb path "data/howdoiplay_json" then Ok example_filenames
       else Raise OSError).

(** A data directory with nothing in it. *)
Definition empty_fs : filesystem :=
  mk_filesystem (fun _ => FileNotFoundError) (fun _ => false)
    (fun _ => Raise OSError).

(** The process before the constructor runs. *)
Definition fresh_process : process :=
  mk_process (mk_DataManager "" PNone [] PNone []) [].

(** The process right after the attribute defaults of [__init__]. *)
Definition initialized (path : string) (out : list string) : process :=
  mk_process (mk_DataManager path (PList []) [] (PList []) []) out.

(** ** Notions used in the further properties of the queries *)

(** What [get_counter_tips] looks up for one opponent: [Ok None] when the
    opponent is skipped, [Ok (Some tips)] with the counter-tips value
    otherwise. *)
Definition counter_tips_of (dm : DataManager) (hero_name : string)
  : result (option pyval) :=
  match dict_get key_eq (hero_name_map dm) (PStr hero_name) with
  | None => Ok None
  | Some hero_info =>
      try strategy :=
        strategies_get (hero_strategies dm) (safe_name hero_info) in
      if truthy strategy then
        try strategies := py_getitem strategy "strategies" in
        try has_tips := py_contains "counter_tips" strategies in
        if has_tips then
          try tips := py_getitem strategies "counter_tips" in Ok (Some tips)
        else Ok None
      else Ok None
  end.

(** The opponent has a counter-tips value. *)
Definition offers_counter_tips (dm : DataManager) (hero_name : string) : bool :=
  match counter_tips_of dm hero_name with
  | Ok (Some _) => true
  | _ => false
  end.

(** The lower-cased name of the catalog item [item] occurs in the counter
    tips text of the opponent. *)
Definition matches_item (lower : string -> string) (dm : DataManager)
    (item hero_name : string) : bool :=
  match counter_tips_text lower dm hero_name with
  | Ok (Some text) => hits lower COUNTER_ITEMS text item
  | _ => false
  end.

(** [xs] is an initial segment of [ys]. *)
Definition prefix_of {A} (xs ys : list A) : Prop :=
  exists more, ys = xs ++ more.

(** ** Notions used in the further properties of the loader *)

(** The record is kept by the comprehension of [hero_name_map] under the
    display name [name]: it is an object with both keys whose name is that
    string. *)
Definition record_named (name : string) (record : pyval) : bool :=
  match record with
  | PDict entries =>
      match dict_get String.eqb entries "name" with
      | Some (PStr n) =>
          String.eqb name n && dict_mem String.eqb entries "safe_name"
      | _ => false
      end
  | _ => false
  end.

(** [{'safe_name': hero['safe_name'],
      'image_path': hero.get('image_path', '')}] for an object with a safe
    name. *)
Definition record_info (record : pyval) : hero_info :=
  match record with
  | PDict entries =>
      mk_hero_info
        (match dict_get String.eqb entries "safe_name" with
         | Some v => v
         | None => PNone
         end)
        (match dict_get String.eqb entries "image_path" with
         | Some v => v
         | None => PStr ""
         end)
  | _ => mk_hero_info PNone (PStr "")
  end.

(** A record of the normalized roster the comprehension accepts: an object
    whose name, when it has both keys, can be a dictionary key. *)
Definition record_ok (record : pyval) : bool :=
  match record with
  | PDict entries =>
      match dict_get String.eqb entries "name" with
      | Some n => negb (dict_mem String.eqb entries "safe_name") || hashable n
      | None => true
      end
  | _ => false
  end.

(** What the loader keeps of the strategy mapping: no key twice, no empty
    document. *)
Definition strategies_invariant (strategies : list (string * pyval)) : Prop :=
  NoDup (dict_keys strategies)
  /\ forall key document, In (key, document) strategies ->
                          truthy document = true.

(** The computation keeps the property [Q] of the process state, whether it
    returns or raises. *)
Definition preserves {A} (Q : process -> Prop) (c : M A) : Prop :=
  forall p, Q p -> Q (snd (c p)).

(** The three lines that close [_load_all_data]. *)
Definition summary_lines (dm : DataManager) (n_heroes n_normalized : nat)
  : list string :=
  [ "Loaded " ++ str_of_nat n_heroes ++ " heroes.";
    "Loaded normalized data for " ++ str_of_nat n_normalized ++ " heroes.";
    "Loaded strategies for "
      ++ str_of_nat (List.length (hero_strategies dm)) ++ " heroes." ]%string.

(** The strategy mapping of the process satisfies the invariant. *)
Definition strategies_kept (p : process) : Prop :=
  strategies_invariant (hero_strategies (data_manager p)).

(** ** The user interface: what [run_analysis] hands to the queries

    [MainApplication.run_analysis] reads the six entry fields, prepares the
    list of opponents, validates, calls the three queries and draws their
    results.  The definitions below are the computations on strings and
    lists in it; the drawing itself is not modelled. *)

(** [sorted(xs)] on strings: the sorted rearrangement of [xs], built by
    insertion; strings compare character by character. *)
Fixpoint insert_sorted (x : string) (xs : list string) : list string :=
  match xs with
  | [] => [x]
  | y :: rest =>
      if String.leb x y then x :: xs else y :: insert_sorted x rest
  end.

Definition sorted (xs : list string) : list string :=
  fold_right insert_sorted [] xs.

(** [list(set(xs))]: the distinct elements of [xs].  The order in which a
    set is iterated is not fixed; the code sorts the list at once, and
    sorting does not depend on that order ([sorted_permutation]). *)
Definition distinct (xs : list string) : list string :=
  nodup string_dec xs.

(** [sorted(list(set(h for h in enemy_heroes if h)))] *)
Definition selected_enemies (entries : list string) : list string :=
  sorted (distinct (filter (fun h => negb (String.eqb h "")) entries)).

(** The arguments [run_analysis] calls the queries with: none when it shows
    "Please select your hero and at least one enemy hero." instead. *)
Definition run_analysis_queries (your_hero : string) (entries : list string)
  : option (string * list string) :=
  let enemy_heroes := selected_enemies entries in
  if String.eqb your_hero ""
     || match enemy_heroes with [] => true | _ => false end
  then None
  else Some (your_hero, enemy_heroes).

(** [unique_heroes = sorted(list(set(heroes)))], the names drawn after
    "Recommended against". *)
Definition unique_heroes (heroes : list string) : list string :=
  sorted (distinct heroes).

(** Strictly increasing. *)
Definition increasing (xs : list string) : Prop :=
  StronglySorted (fun a b => String.ltb a b = true) xs.

(** ** class AutocompleteCombobox

    The entry widget with its dropdown.  [entry_text] is the text of the
    entry, what [self.get()] returns; [_listbox] holds the items of the
    dropdown while it is shown; [selection_callback] records whether a
    callback is set.  The placement of the dropdown on the screen is not
    modelled. *)
Record AutocompleteCombobox : Type := mk_AutocompleteCombobox {
  entry_text : string;
  _completion_list : list string;
  _hits : list string;
  _hit_index : Z;
  position : Z;
  selection_callback : bool;
  _listbox : option (list string)
}.

(** [AutocompleteCombobox(parent, completion_list)]: an empty entry. *)
Definition AutocompleteCombobox_init (completion_list : list string)
  : AutocompleteCombobox :=
  mk_AutocompleteCombobox "" (sorted completion_list) [] 0 0 false None.

Definition set_position (w : AutocompleteCombobox) (n : Z)
  : AutocompleteCombobox :=
  mk_AutocompleteCombobox (entry_text w) (_completion_list w) (_hits w)
    (_hit_index w) n (selection_callback w) (_listbox w).

Definition set_listbox (w : AutocompleteCombobox) (l : option (list string))
  : AutocompleteCombobox :=
  mk_AutocompleteCombobox (entry_text w) (_completion_list w) (_hits w)
    (_hit_index w) (position w) (selection_callback w) l.

Definition set_hits (w : AutocompleteCombobox) (hits : list string)
  : AutocompleteCombobox :=
  mk_AutocompleteCombobox (entry_text w) (_completion_list w) hits
    (_hit_index w) (position w) (selection_callback w) (_listbox w).

Definition set_entry_text (w : AutocompleteCombobox) (text : string)
  : AutocompleteCombobox :=
  mk_AutocompleteCombobox text (_completion_list w) (_hits w)
    (_hit_index w) (position w) (selection_callback w) (_listbox w).

(** Where a click on the window landed. *)
Inductive click_target : Type :=
| OnListbox
| OnEntry
| Elsewhere.

Section AutocompleteComboboxMethods.
(** [str.lower] *)
Variable lower : string -> string.

Definition _update_autocomplete_list (show_all : bool)
    (w : AutocompleteCombobox) : AutocompleteCombobox :=
  let w := set_listbox w None in
  let text := lower (entry_text w) in
  let w :=
    if show_all then set_hits w (_completion_list w)
    else if negb (String.eqb text "") then
      set_hits w
        (filter (fun item => startswith (lower item) text)
           (_completion_list w))
    else set_hits w [] in
  match _hits w with
  | [] => w
  | _ :: _ => set_listbox w (Some (_hits w))
  end.

Definition handle_focus_in (w : AutocompleteCombobox) : AutocompleteCombobox :=
  if String.eqb (entry_text w) "" then _update_autocomplete_list true w
  else w.

Definition handle_keyrelease (keysym : string) (w : AutocompleteCombobox)
  : AutocompleteCombobox :=
  let w :=
    if String.eqb keysym "BackSpace" then
      if (0 <? position w)%Z then set_position w (position w - 1) else w
    else w in
  let w :=
    if String.eqb keysym "Left" then
      if (0 <? position w)%Z then set_position w (position w - 1) else w
    else w in
  let w :=
    if String.eqb keysym "Right" then set_position w (position w + 1)
    else w in
  if (String.length keysym =? 1)%nat || String.eqb keysym "BackSpace"
  then _update_autocomplete_list false w
  else w.

(** [_on_listbox_select]: [curselection] is the selected index, if any; the
    second component is the argument the callback is called with. *)
Definition _on_listbox_select (curselection : option nat)
    (w : AutocompleteCombobox) : AutocompleteCombobox * option string :=
  match _listbox w, curselection with
  | Some items, Some i =>
      let selection := nth i items "" in
      let w := set_listbox (set_entry_text w selection) None in
      (w, if selection_callback w then Some selection else None)
  | _, _ => (w, None)
  end.

Definition show_all_options (w : AutocompleteCombobox)
  : AutocompleteCombobox :=
  _update_autocomplete_list true w.

Definition _on_parent_click (target : click_target)
    (w : AutocompleteCombobox) : AutocompleteCombobox :=
  match _listbox w, target with
  | Some _, Elsewhere => set_listbox w None
  | _, _ => w
  end.
End AutocompleteComboboxMethods.

(** What happens to the widget: its own handlers, and the entry changing
    its text as the user types. *)
Inductive combobox_event : Type :=
| FocusIn
| KeyRelease (keysym : string)
| Typed (text : string)
| ListboxSelect (curselection : option nat)
| ShowAllOptions
| ParentClick (target : click_target).

Definition combobox_step (lower : string -> string) (e : combobox_event)
    (w : AutocompleteCombobox) : AutocompleteCombobox :=
  match e with
  | FocusIn => handle_focus_in lower w
  | KeyRelease keysym => handle_keyrelease lower keysym w
  | Typed text => set_entry_text w text
  | ListboxSelect curselection => fst (_on_listbox_select curselection w)
  | ShowAllOptions => show_all_options lower w
  | ParentClick target => _on_parent_click target w
  end.

Definition combobox_run (lower : string -> string)
    (events : list combobox_event) (w : AutocompleteCombobox)
  : AutocompleteCombobox :=
  fold_left (fun w e => combobox_step lower e w) events w.

(** What every reachable state of the widget satisfies. *)
Definition combobox_invariant (completion_list : list string)
    (w : AutocompleteCombobox) : Prop :=
  _completion_list w = sorted completion_list
  /\ (0 <= position w)%Z
  /\ (forall h, In h (_hits w) -> In h completion_list)
  /\ StronglySorted (fun a b => String.leb a b = true) (_hits w)
  /\ match _listbox w with
     | Some items => items = _hits w /\ items <> []
     | None => True
     end.




(** ** Notions used in the statements about what the loader prints and keeps *)

(** The lines [_load_json] prints for the outcome of one read: one line for
    each of the two exceptions it catches, none otherwise. *)
Definition error_lines (path : string) (o : opened) : list string :=
  match o with
  | FileNotFoundError | JSONDecodeError => [load_error_message path o]
  | Parsed _ | OtherError => []
  end.

(** What [_load_json] returns for the outcome of a read it does not let
    through: the decoded value, or [None] after a caught exception. *)
Definition loaded_value (o : opened) : pyval :=
  match o with
  | Parsed v => v
  | _ => PNone
  end.

(** The array a roster file holds; empty when the read gave none. *)
Definition loaded_list (o : opened) : list pyval :=
  match o with
  | Parsed (PList items) => items
  | _ => []
  end.

(** The read of a roster file raised one of the two caught exceptions, or
    the file holds a JSON array. *)
Definition absorbed_or_list (o : opened) : Prop :=
  absorbed o \/ exists items, o = Parsed (PList items).

(** The file names the loop of [_load_all_data] visits: the listing of the
    strategy directory, nothing when [os.path.isdir] is false. *)
Definition directory_listing (fs : filesystem) (path : string) : list string :=
  if isdir fs (os_path_join path "howdoiplay_json") then
    match listdir fs (os_path_join path "howdoiplay_json") with
    | Ok filenames => filenames
    | Raise _ => []
    end
  else [].

(** The error lines of the strategy files, in the order of the listing. *)
Definition strategy_error_lines (fs : filesystem) (path : string)
    (filenames : list string) : list string :=
  flat_map
    (fun f =>
       if endswith f ".json"
       then error_lines (strategy_file path f)
              (open_json fs (strategy_file path f))
       else [])
    filenames.

(** The file [g] of the strategy directory makes the loop assign to
    [hero_strategies[key]]: it has the extension, its name without every
    [".json"] is [key], and it holds a truthy document. *)
Definition stores (fs : filesystem) (path key g : string) : bool :=
  endswith g ".json"
  && String.eqb (replace g ".json" "") key
  && match open_json fs (strategy_file path g) with
     | Parsed v => truthy v
     | _ => false
     end.

(** The safe name of the record, when it has one, can be looked up in
    [hero_strategies]: it is not a list or an object. *)
Definition safe_name_ok (record : pyval) : bool :=
  match record with
  | PDict entries =>
      match dict_get String.eqb entries "safe_name" with
      | Some v => hashable v
      | None => true
      end
  | _ => true
  end.

(** Every query answers with its empty result on the data manager. *)
Definition queries_are_empty (dm : DataManager) : Prop :=
  forall (lower : string -> string) (q : process)
         (enemy_heroes : list string) (your_hero : string),
    data_manager q = dm ->
    fst (get_item_suggestions lower enemy_heroes q) = Ok []
    /\ fst (get_strategic_tips your_hero q) = Ok (PList [])
    /\ fst (get_counter_tips enemy_heroes q) = Ok [].

(** ** Further example data directories

    A file system given by its files and its directories; a path that is not
    listed is missing. *)
Definition files_fs (files : list (string * opened))
    (directories : list (string * list string)) : filesystem :=
  mk_filesystem
    (fun path =>
       match dict_get String.eqb files path with
       | Some o => o
       | None => FileNotFoundError
       end)
    (fun path => dict_mem String.eqb directories path)
    (fun path =>
       match dict_get String.eqb directories path with
       | Some filenames => Ok filenames
       | None => Raise OSError
       end).

(** The two roster files of the example, alone. *)
Definition roster_files : list (string * opened) :=
  [ ("data/heroes.json",
     Parsed (PList [PDict [("name", PStr "Hero A")];
                    PDict [("name", PStr "Hero B")]]));
    ("data/normalized_heroes.json", Parsed (PList example_normalized)) ].

(** No strategy directory at all. *)
Definition missing_directory_fs : filesystem := files_fs roster_files [].

(** A strategy directory that is there and holds no file. *)
Definition empty_directory_fs : filesystem :=
  files_fs roster_files [("data/howdoiplay_json", [])].

(** A roster file whose read raises an exception [_load_json] does not
    catch: [UnicodeDecodeError] for bytes that are not UTF-8,
    [PermissionError] or [IsADirectoryError] from [open]. *)
Definition unreadable_roster_fs : filesystem :=
  files_fs
    [ ("data/heroes.json", OtherError);
      ("data/normalized_heroes.json", Parsed (PList example_normalized)) ]
    [].

(** The example data directory without its roster file. *)
Definition missing_roster_fs : filesystem :=
  files_fs
    (filter (fun file => negb (String.eqb (fst file) "data/heroes.json"))
       example_files)
    [("data/howdoiplay_json", example_filenames)].

(** A strategy directory in which two files lose their extension to the
    same key. *)
Definition twin_files_fs : filesystem :=
  files_fs
    [ ("data/howdoiplay_json/a.json", Parsed (PDict [("hero", PStr "A")]));
      ("data/howdoiplay_json/a.json.json",
       Parsed (PDict [("hero", PStr "B")])) ]
    [("data/howdoiplay_json", ["a.json"; "a.json.json"])].

(** A roster file that holds a number. *)
Definition number_roster_fs : filesystem :=
  files_fs
    [ ("data/heroes.json", Parsed (PInt 5));
      ("data/normalized_heroes.json", Parsed (PList example_normalized));
      ("data/howdoiplay_json/hero_a.json",
       Parsed (PDict [("hero", PStr "Hero A")]));
      ("data/howdoiplay_json/broken.json", JSONDecodeError) ]
    [("data/howdoiplay_json", ["hero_a.json"; "broken.json"])].

(** ** Basic facts *)

(** The catalog is only unfolded on concrete inputs. *)
Arguments COUNTER_ITEMS : simpl never.
Arguments scan_catalog : simpl never.
Arguments hits : simpl never.
Arguments matched_items : simpl never.
Arguments matches_item : simpl never.

Lemma for_fold_reads_only {A S} (step : DataManager -> S -> A -> result S)
    (xs : list A) (local : S) (p : process) :
  for_fold xs local (fun a x => dm <- get_dm ;; lift (step dm a x)) p
  = (rfold (step (data_manager p)) xs local, p).
Proof.
  revert local. induction xs as [|x rest IH]; intros local; simpl.
  - reflexivity.
  - unfold bind at 1. unfold bind at 1. unfold get_dm, lift.
    destruct (step (data_manager p) local x) as [local'|e]; simpl.
    + apply IH.
    + reflexivity.
Qed.

Lemma rfold_app {A S} (body : S -> A -> result S) (xs ys : list A) (s : S) :
  rfold body (xs ++ ys) s = try s' := rfold body xs s in rfold body ys s'.
Proof.
  revert s. induction xs as [|x rest IH]; intros s; simpl.
  - reflexivity.
  - destruct (body s x) as [s'|e]; simpl; [apply IH | reflexivity].
Qed.

Lemma dict_get_set {V} (d : list (string * V)) (k k2 : string) (v : V) :
  dict_get String.eqb (dict_set String.eqb d k v) k2
  = if String.eqb k2 k then Some v else dict_get String.eqb d k2.
Proof.
  induction d as [|[k' v'] rest IH]; simpl.
  - reflexivity.
  - destruct (String.eqb_spec k k') as [->|Hkk'].
    + simpl. destruct (String.eqb k2 k'); reflexivity.
    + simpl. rewrite IH.
      destruct (String.eqb_spec k2 k') as [->|Hk2].
      * destruct (String.eqb_spec k' k) as [->|_]; [congruence | reflexivity].
      * reflexivity.
Qed.

Lemma dict_keys_set {V} (d : list (string * V)) (k : string) (v : V) :
  dict_keys (dict_set String.eqb d k v)
  = if dict_mem String.eqb d k then dict_keys d else dict_keys d ++ [k].
Proof.
  unfold dict_mem, dict_keys.
  induction d as [|[k' v'] rest IH]; simpl.
  - reflexivity.
  - destruct (String.eqb_spec k k') as [->|Hkk']; simpl.
    + reflexivity.
    + rewrite IH.
      destruct (dict_get String.eqb rest k); reflexivity.
Qed.

Lemma item_suggestions_step_text lower dm sug hero_name :
  item_suggestions_step lower dm sug hero_name
  = match counter_tips_text lower dm hero_name with
    | Ok None => Ok sug
    | Ok (Some text) => Ok (scan_catalog lower hero_name text sug)
    | Raise e => Raise e
    end.
Proof.
  unfold item_suggestions_step, counter_tips_text.
  destruct (dict_get key_eq (hero_name_map dm) (PStr hero_name)) as [info|];
    [|reflexivity].
  destruct (strategies_get (hero_strategies dm) (safe_name info)) as [st|e];
    simpl; [|reflexivity].
  destruct (truthy st); simpl; [|reflexivity].
  destruct (py_getitem st "strategies") as [ss|e]; simpl; [|reflexivity].
  destruct (py_contains "counter_tips" ss) as [[|]|e]; simpl;
    try reflexivity.
  destruct (py_getitem ss "counter_tips") as [tips|e]; simpl; [|reflexivity].
  destruct (py_join " " tips) as [text|e]; reflexivity.
Qed.

Lemma list_mem_In x xs : list_mem x xs = true <-> In x xs.
Proof.
  unfold list_mem. rewrite existsb_exists. split.
  - intros [y [Hy Heq]]. apply String.eqb_eq in Heq. now subst.
  - intros H. exists x. split; [assumption | apply String.eqb_refl].
Qed.

Lemma add_once_idem x xs : add_once x (add_once x xs) = add_once x xs.
Proof.
  unfold add_once. destruct (list_mem x xs) eqn:E.
  - now rewrite E.
  - replace (list_mem x (xs ++ [x])) with true; [reflexivity|].
    symmetry. apply list_mem_In, in_or_app. right. now left.
Qed.

Lemma add_once_In x y xs : In y (add_once x xs) <-> In y xs \/ y = x.
Proof.
  unfold add_once. destruct (list_mem x xs) eqn:E.
  - apply list_mem_In in E. split; [tauto|]. intros [H| ->]; assumption.
  - rewrite in_app_iff. simpl. split; intros [H|H]; auto.
    + destruct H as [H|[]]; auto.
Qed.

Lemma add_once_NoDup x xs : NoDup xs -> NoDup (add_once x xs).
Proof.
  intros H. unfold add_once. destruct (list_mem x xs) eqn:E; [assumption|].
  apply NoDup_app; [assumption | repeat constructor; auto | ].
  intros y Hy [<-|[]]. apply list_mem_In in Hy. congruence.
Qed.

Lemma add_once_nonempty x xs : add_once x xs <> [].
Proof.
  unfold add_once. destruct (list_mem x xs) eqn:E.
  - intros ->. discriminate.
  - destruct xs; discriminate.
Qed.

Lemma dict_mem_set {V} (d : list (string * V)) k k2 v :
  dict_mem String.eqb (dict_set String.eqb d k v) k2
  = String.eqb k2 k || dict_mem String.eqb d k2.
Proof.
  unfold dict_mem. rewrite dict_get_set.
  destruct (String.eqb k2 k); reflexivity.
Qed.

Lemma dict_mem_keys {V} (d : list (string * V)) k :
  dict_mem String.eqb d k = list_mem k (dict_keys d).
Proof.
  unfold dict_mem, dict_keys, list_mem.
  induction d as [|[k' v'] rest IH]; simpl; [reflexivity|].
  destruct (String.eqb k k'); simpl; [reflexivity | apply IH].
Qed.

Lemma countered_by_record hero_name item sug item' :
  countered_by (record_counter hero_name item sug) item'
  = if String.eqb item' item
    then add_once hero_name (countered_by sug item)
    else countered_by sug item'.
Proof.
  unfold record_counter, countered_by, add_once, dict_mem.
  destruct (dict_get String.eqb sug item) as [l|] eqn:E.
  - rewrite E. destruct (list_mem hero_name l) eqn:El.
    + destruct (String.eqb_spec item' item) as [->|Hne];
        [now rewrite E | reflexivity].
    + rewrite dict_get_set. destruct (String.eqb item' item); reflexivity.
  - rewrite dict_get_set, String.eqb_refl. simpl.
    rewrite !dict_get_set.
    destruct (String.eqb item' item); reflexivity.
Qed.

Lemma dict_mem_record hero_name item sug item' :
  dict_mem String.eqb (record_counter hero_name item sug) item'
  = String.eqb item' item || dict_mem String.eqb sug item'.
Proof.
  unfold record_counter.
  destruct (dict_mem String.eqb sug item) eqn:Em.
  - unfold dict_mem in Em.
    destruct (dict_get String.eqb sug item) as [l|] eqn:E; [|discriminate].
    destruct (list_mem hero_name l).
    + destruct (String.eqb_spec item' item) as [->|Hne]; [|reflexivity].
      unfold dict_mem. now rewrite E.
    + rewrite dict_mem_set.
      destruct (String.eqb_spec item' item) as [->|Hne]; reflexivity.
  - rewrite dict_get_set, String.eqb_refl. simpl.
    rewrite !dict_mem_set.
    destruct (String.eqb item' item); reflexivity.
Qed.

Lemma dict_keys_record hero_name item sug :
  dict_keys (record_counter hero_name item sug)
  = add_once item (dict_keys sug).
Proof.
  unfold record_counter, add_once. rewrite <- dict_mem_keys.
  destruct (dict_mem String.eqb sug item) eqn:Em.
  - unfold dict_mem in Em.
    destruct (dict_get String.eqb sug item) as [l|] eqn:E; [|discriminate].
    destruct (list_mem hero_name l); [reflexivity|].
    rewrite dict_keys_set. unfold dict_mem. now rewrite E.
  - rewrite dict_get_set, String.eqb_refl. simpl.
    rewrite !dict_keys_set, dict_mem_set, String.eqb_refl, Em. reflexivity.
Qed.

Lemma record_counter_recorded hero_name item sug :
  recorded sug hero_name item -> record_counter hero_name item sug = sug.
Proof.
  intros [l [Hget Hmem]]. unfold record_counter, dict_mem.
  now rewrite Hget, Hget, Hmem.
Qed.

Lemma recorded_countered_by sug hero_name item :
  recorded sug hero_name item <-> In hero_name (countered_by sug item).
Proof.
  unfold recorded, countered_by. split.
  - intros [l [-> Hmem]]. now apply list_mem_In.
  - destruct (dict_get String.eqb sug item) as [l|]; [|intros []].
    intros H. exists l. split; [reflexivity | now apply list_mem_In].
Qed.

Lemma scan_catalog_items lower hero_name text sug :
  scan_catalog lower hero_name text sug
  = scan_items lower COUNTER_ITEMS hero_name text sug.
Proof. unfold scan_catalog, scan_items. reflexivity. Qed.

Lemma countered_by_scan lower items hero_name text sug item :
  countered_by (scan_items lower items hero_name text sug) item
  = if hits lower items text item
    then add_once hero_name (countered_by sug item)
    else countered_by sug item.
Proof.
  unfold scan_items, hits. revert sug.
  induction items as [|i rest IH]; intros sug; simpl; [reflexivity|].
  rewrite IH. clear IH.
  destruct (str_in (lower i) text); simpl.
  - rewrite countered_by_record.
    destruct (String.eqb_spec item i) as [->|Hne]; simpl.
    + rewrite add_once_idem. now destruct (existsb _ rest).
    + reflexivity.
  - now rewrite andb_false_r.
Qed.

Lemma dict_mem_scan lower items hero_name text sug item :
  dict_mem String.eqb (scan_items lower items hero_name text sug) item
  = dict_mem String.eqb sug item || hits lower items text item.
Proof.
  unfold scan_items, hits. revert sug.
  induction items as [|i rest IH]; intros sug; simpl.
  - now rewrite orb_false_r.
  - rewrite IH. clear IH.
    destruct (str_in (lower i) text); simpl.
    + rewrite dict_mem_record.
      destruct (String.eqb item i), (dict_mem String.eqb sug item);
        reflexivity.
    + now rewrite andb_false_r.
Qed.

Lemma dict_keys_scan lower items hero_name text sug :
  dict_keys (scan_items lower items hero_name text sug)
  = add_all (filter (fun i => str_in (lower i) text) items) (dict_keys sug).
Proof.
  unfold scan_items, add_all. revert sug.
  induction items as [|i rest IH]; intros sug; simpl; [reflexivity|].
  rewrite IH. clear IH.
  destruct (str_in (lower i) text); simpl; [|reflexivity].
  now rewrite dict_keys_record.
Qed.

Lemma scan_items_recorded lower items hero_name text sug :
  (forall item, hits lower items text item = true ->
                recorded sug hero_name item) ->
  scan_items lower items hero_name text sug = sug.
Proof.
  unfold scan_items, hits.
  induction items as [|i rest IH]; intros Hrec; simpl; [reflexivity|].
  assert (Hstep :
    (if str_in (lower i) text then record_counter hero_name i sug else sug)
    = sug).
  { destruct (str_in (lower i) text) eqn:E; [|reflexivity].
    apply record_counter_recorded, Hrec. simpl.
    now rewrite String.eqb_refl, E. }
  rewrite Hstep. apply IH. intros item H. apply Hrec. simpl.
  rewrite H. apply orb_true_r.
Qed.

Lemma add_all_app xs ys seen :
  add_all (xs ++ ys) seen = add_all ys (add_all xs seen).
Proof. unfold add_all. apply fold_left_app. Qed.

(** *** The loop of [get_item_suggestions] *)
Section ItemSuggestionsLoop.
Variable lower : string -> string.
Variable dm : DataManager.

Let step := item_suggestions_step lower dm.

Lemma rfold_suggestions_text enemies acc d hero_name :
  rfold step enemies acc = Ok d -> In hero_name enemies ->
  exists o, counter_tips_text lower dm hero_name = Ok o.
Proof.
  revert acc. induction enemies as [|h rest IH]; intros acc Hrun Hin.
  - destruct Hin.
  - simpl in Hrun. unfold step in Hrun at 1.
    rewrite item_suggestions_step_text in Hrun.
    destruct (counter_tips_text lower dm h) as [o|e] eqn:Eh;
      [|discriminate].
    destruct Hin as [<-|Hin]; [now exists o|].
    destruct o as [text|]; simpl in Hrun; eapply IH; eauto.
Qed.

Lemma rfold_suggestions_countered enemies acc d item hero_name :
  rfold step enemies acc = Ok d ->
  (In hero_name (countered_by d item)
   <-> In hero_name (countered_by acc item)
       \/ (In hero_name enemies /\ matched lower dm hero_name item)).
Proof.
  revert acc. induction enemies as [|h rest IH]; intros acc Hrun.
  - simpl in Hrun. injection Hrun as <-. simpl. tauto.
  - simpl in Hrun. unfold step in Hrun at 1.
    rewrite item_suggestions_step_text in Hrun.
    destruct (counter_tips_text lower dm h) as [[text|]|e] eqn:Eh;
      simpl in Hrun; [| |discriminate].
    + rewrite (IH _ Hrun). rewrite scan_catalog_items, countered_by_scan.
      destruct (hits lower COUNTER_ITEMS text item) eqn:Ehit.
      * rewrite add_once_In. simpl. split.
        -- intros [[H| ->]|[H1 H2]]; auto.
           right. split; [now left|]. now exists text.
        -- intros [H|[[<-|H1] H2]]; auto.
      * simpl. split.
        -- intros [H|[H1 H2]]; auto.
        -- intros [H|[[<-|H1] H2]]; auto.
           destruct H2 as [t [Ht Hhit]]. rewrite Eh in Ht.
           injection Ht as <-. congruence.
    + rewrite (IH _ Hrun). simpl. split.
      * intros [H|[H1 H2]]; auto.
      * intros [H|[[<-|H1] H2]]; auto.
        destruct H2 as [t [Ht _]]. rewrite Eh in Ht. discriminate.
Qed.

Lemma rfold_suggestions_NoDup enemies acc d item :
  rfold step enemies acc = Ok d ->
  NoDup (countered_by acc item) -> NoDup (countered_by d item).
Proof.
  revert acc. induction enemies as [|h rest IH]; intros acc Hrun Hnd.
  - simpl in Hrun. now injection Hrun as <-.
  - simpl in Hrun. unfold step in Hrun at 1.
    rewrite item_suggestions_step_text in Hrun.
    destruct (counter_tips_text lower dm h) as [[text|]|e];
      simpl in Hrun; [| |discriminate].
    + apply (IH _ Hrun). rewrite scan_catalog_items, countered_by_scan.
      destruct (hits lower COUNTER_ITEMS text item); [|assumption].
      now apply add_once_NoDup.
    + now apply (IH _ Hrun).
Qed.

Lemma rfold_suggestions_mem enemies acc d item :
  rfold step enemies acc = Ok d ->
  (dict_mem String.eqb d item = true
   <-> dict_mem String.eqb acc item = true
       \/ exists hero_name,
            In hero_name enemies /\ matched lower dm hero_name item).
Proof.
  revert acc. induction enemies as [|h rest IH]; intros acc Hrun.
  - simpl in Hrun. injection Hrun as <-. split; [tauto|].
    intros [H|[x [[] _]]]. assumption.
  - simpl in Hrun. unfold step in Hrun at 1.
    rewrite item_suggestions_step_text in Hrun.
    destruct (counter_tips_text lower dm h) as [[text|]|e] eqn:Eh;
      simpl in Hrun; [| |discriminate].
    + rewrite (IH _ Hrun). rewrite scan_catalog_items, dict_mem_scan.
      rewrite orb_true_iff. split.
      * intros [[H|H]|[x [H1 H2]]]; auto.
        -- right. exists h. split; [now left|]. now exists text.
        -- right. exists x. split; [now right | assumption].
      * intros [H|[x [[<-|H1] H2]]]; auto.
        -- destruct H2 as [t [Ht Hhit]]. rewrite Eh in Ht.
           injection Ht as <-. auto.
        -- right. now exists x.
    + rewrite (IH _ Hrun). split.
      * intros [H|[x [H1 H2]]]; auto.
        right. exists x. split; [now right | assumption].
      * intros [H|[x [[<-|H1] H2]]]; auto.
        -- destruct H2 as [t [Ht _]]. rewrite Eh in Ht. discriminate.
        -- right. now exists x.
Qed.

Lemma rfold_suggestions_keys enemies acc d :
  rfold step enemies acc = Ok d ->
  dict_keys d
  = add_all (flat_map (matched_items lower dm) enemies) (dict_keys acc).
Proof.
  revert acc. induction enemies as [|h rest IH]; intros acc Hrun.
  - simpl in Hrun. now injection Hrun as <-.
  - simpl in Hrun. unfold step in Hrun at 1.
    rewrite item_suggestions_step_text in Hrun.
    simpl. rewrite add_all_app. unfold matched_items at 2.
    destruct (counter_tips_text lower dm h) as [[text|]|e];
      simpl in Hrun; [| |discriminate].
    + rewrite (IH _ Hrun).
      now rewrite scan_catalog_items, dict_keys_scan.
    + now rewrite (IH _ Hrun).
Qed.
End ItemSuggestionsLoop.

(** *** Strings *)

Lemma startswith_spec s prefix :
  startswith s prefix = true <-> exists rest, s = (prefix ++ rest)%string.
Proof.
  revert s. induction prefix as [|a p IH]; intros s; simpl.
  - split; [intros _; now exists s | reflexivity].
  - destruct s as [|b r].
    + split; [discriminate | intros [rest H]; discriminate].
    + rewrite andb_true_iff, IH. split.
      * intros [Hab [rest ->]]. apply Ascii.eqb_eq in Hab. subst.
        now exists rest.
      * intros [rest H]. injection H as -> ->. split.
        -- apply Ascii.eqb_refl.
        -- now exists rest.
Qed.

Lemma str_in_spec needle hay :
  str_in needle hay = true <-> substring_of needle hay.
Proof.
  unfold substring_of. induction hay as [|c r IH]; simpl.
  - rewrite orb_false_r, startswith_spec. split.
    + intros [rest H]. exists "", rest. exact H.
    + intros [pre [post H]]. destruct pre; [now exists post | discriminate].
  - rewrite orb_true_iff, IH, startswith_spec. split.
    + intros [[rest H]|[pre [post ->]]].
      * exists "", rest. exact H.
      * now exists (String c pre), post.
    + intros [pre [post H]]. destruct pre as [|c' pre'].
      * left. now exists post.
      * right. simpl in H. injection H as -> ->. now exists pre', post.
Qed.

Lemma hits_spec lower items text item :
  hits lower items text item = true
  <-> In item items /\ str_in (lower item) text = true.
Proof.
  unfold hits. rewrite existsb_exists. split.
  - intros [i [Hi H]]. apply andb_true_iff in H as [Heq Hin].
    apply String.eqb_eq in Heq. subst. auto.
  - intros [Hi H]. exists item. now rewrite String.eqb_refl, H.
Qed.

Lemma all_str_map_PStr tips : all_str (map PStr tips) = Ok tips.
Proof.
  induction tips as [|t rest IH]; simpl; [reflexivity|]. now rewrite IH.
Qed.

Lemma has_counter_tips_text lower dm hero_name tips :
  has_counter_tips dm hero_name tips ->
  counter_tips_text lower dm hero_name = Ok (Some (lower (join " " tips))).
Proof.
  intros (info & id & entries & fields & Hinfo & Hid & Hdoc & Hrec & Htips).
  unfold counter_tips_text, strategies_get. rewrite Hinfo, Hid. simpl.
  rewrite Hdoc. simpl.
  destruct entries as [|e es]; [discriminate|]. simpl truthy. simpl negb.
  cbv iota. unfold py_getitem at 1. rewrite Hrec. simpl.
  unfold dict_mem. rewrite Htips. simpl.
  unfold py_join. simpl. now rewrite all_str_map_PStr.
Qed.

Lemma subsequence_tail x xs ys :
  subsequence (x :: xs) ys = true -> subsequence xs ys = true.
Proof.
  revert x xs. induction ys as [|y ys' IH]; intros x xs H; simpl in H.
  - discriminate.
  - destruct xs as [|x' xs']; [reflexivity|]. simpl.
    destruct (String.eqb x y).
    + destruct (String.eqb x' y); [now apply IH in H | assumption].
    + apply IH in H. destruct (String.eqb x' y); [now apply IH in H | assumption].
Qed.

Lemma subsequence_filter (f : string -> bool) ys :
  subsequence (filter f ys) ys = true.
Proof.
  induction ys as [|y ys' IH]; simpl; [reflexivity|].
  destruct (f y); simpl.
  - now rewrite String.eqb_refl.
  - destruct (filter f ys') as [|x xs] eqn:E; [reflexivity|].
    destruct (String.eqb x y); [now apply subsequence_tail in IH | assumption].
Qed.

Lemma add_all_NoDup xs seen : NoDup seen -> NoDup (add_all xs seen).
Proof.
  unfold add_all. revert seen.
  induction xs as [|x rest IH]; intros seen H; simpl; [assumption|].
  apply IH. now apply add_once_NoDup.
Qed.

Lemma add_all_fresh xs seen :
  NoDup xs -> (forall x, In x xs -> ~ In x seen) ->
  add_all xs seen = seen ++ xs.
Proof.
  unfold add_all. revert seen.
  induction xs as [|x rest IH]; intros seen Hnd Hfresh; simpl.
  - now rewrite app_nil_r.
  - inversion Hnd as [|? ? Hx Hrest]; subst.
    unfold add_once at 2.
    destruct (list_mem x seen) eqn:E.
    + apply list_mem_In in E. exfalso. apply (Hfresh x); [now left | assumption].
    + rewrite IH; [now rewrite <- app_assoc | assumption |].
      intros y Hy Hin. apply in_app_or in Hin as [Hin|[<-|[]]].
      * apply (Hfresh y); [now right | assumption].
      * contradiction.
Qed.

Lemma COUNTER_ITEMS_NoDup : NoDup COUNTER_ITEMS.
Proof.
  apply (proj2 (NoDup_count_occ' string_dec COUNTER_ITEMS)).
  intros x Hx. unfold COUNTER_ITEMS in *. simpl in Hx.
  repeat (destruct Hx as [<-|Hx]; [vm_compute; reflexivity|]).
  destruct Hx.
Qed.

Lemma dict_get_In {V} (d : list (string * V)) k v :
  NoDup (dict_keys d) -> In (k, v) d -> dict_get String.eqb d k = Some v.
Proof.
  unfold dict_keys.
  induction d as [|[k' v'] rest IH]; intros Hnd Hin; simpl in *.
  - destruct Hin.
  - inversion Hnd as [|? ? Hk' Hrest]; subst.
    destruct Hin as [Heq|Hin].
    + injection Heq as -> ->. now rewrite String.eqb_refl.
    + destruct (String.eqb_spec k k') as [->|Hne].
      * exfalso. apply Hk'. apply in_map_iff. now exists (k', v).
      * now apply IH.
Qed.

(** *** The queries as functions of the data manager *)

Lemma get_item_suggestions_run lower enemy_heroes p :
  get_item_suggestions lower enemy_heroes p
  = (rfold (item_suggestions_step lower (data_manager p)) enemy_heroes [], p).
Proof.
  unfold get_item_suggestions.
  exact (for_fold_reads_only (item_suggestions_step lower) enemy_heroes [] p).
Qed.

Lemma get_counter_tips_run enemy_heroes p :
  get_counter_tips enemy_heroes p
  = (rfold (counter_tips_step (data_manager p)) enemy_heroes [], p).
Proof.
  unfold get_counter_tips.
  exact (for_fold_reads_only counter_tips_step enemy_heroes [] p).
Qed.

Lemma get_strategic_tips_run your_hero p :
  snd (get_strategic_tips your_hero p) = p
  /\ forall q, data_manager q = data_manager p ->
               fst (get_strategic_tips your_hero q)
               = fst (get_strategic_tips your_hero p).
Proof.
  assert (Hrun : forall q,
    get_strategic_tips your_hero q
    = (fst (get_strategic_tips your_hero
              (mk_process (data_manager q) [])), q)).
  { intros q. unfold get_strategic_tips, bind, get_dm, lift, ret. simpl.
    destruct (dict_get key_eq (hero_name_map (data_manager q))
                (PStr your_hero)) as [info|]; [|reflexivity].
    destruct (strategies_get (hero_strategies (data_manager q))
                (safe_name info)) as [st|e]; [|reflexivity].
    destruct (truthy st); [|reflexivity].
    destruct (py_getitem st "strategies") as [ss|e]; [|reflexivity].
    destruct (py_contains "general_tips" ss) as [[|]|e]; reflexivity. }
  split.
  - now rewrite Hrun.
  - intros q Hq. rewrite (Hrun q), (Hrun p). simpl. now rewrite Hq.
Qed.

Lemma rfold_remove {S} (body : S -> string -> result S) name enemies acc :
  (forall s, body s name = Ok s) ->
  rfold body (remove string_dec name enemies) acc = rfold body enemies acc.
Proof.
  intros Hskip. revert acc.
  induction enemies as [|h rest IH]; intros acc; simpl; [reflexivity|].
  destruct (string_dec name h) as [<-|Hne].
  - rewrite Hskip. simpl. apply IH.
  - simpl. destruct (body acc h); simpl; [apply IH | reflexivity].
Qed.

Lemma rfold_counter_tips_keys dm enemies acc d hero_name :
  rfold (counter_tips_step dm) enemies acc = Ok d ->
  In hero_name (dict_keys d) ->
  In hero_name (dict_keys acc)
  \/ (In hero_name enemies
      /\ dict_get key_eq (hero_name_map dm) (PStr hero_name) <> None).
Proof.
  revert acc. induction enemies as [|h rest IH]; intros acc Hrun Hin.
  - simpl in Hrun. injection Hrun as <-. now left.
  - simpl in Hrun.
    destruct (counter_tips_step dm acc h) as [acc'|e] eqn:Estep;
      [|discriminate].
    simpl in Hrun. destruct (IH _ Hrun Hin) as [Hacc'|[Hrest Hres]].
    + unfold counter_tips_step in Estep.
      destruct (dict_get key_eq (hero_name_map dm) (PStr h)) as [info|] eqn:Eh.
      * assert (Hcases : acc' = acc \/ exists tips,
                  acc' = dict_set String.eqb acc h tips).
        { destruct (strategies_get _ _) as [st|]; [|discriminate].
          simpl in Estep. destruct (truthy st); [|injection Estep; auto].
          destruct (py_getitem st "strategies") as [ss|]; [|discriminate].
          simpl in Estep.
          destruct (py_contains "counter_tips" ss) as [[|]|];
            [| injection Estep; auto | discriminate].
          simpl in Estep.
          destruct (py_getitem ss "counter_tips") as [tips|]; [|discriminate].
          injection Estep as <-. right. now exists tips. }
        destruct Hcases as [->|[tips ->]]; [now left|].
        rewrite dict_keys_set in Hacc'.
        destruct (dict_mem String.eqb acc h); [now left|].
        apply in_app_or in Hacc' as [H|[<-|[]]]; [now left|].
        right. split; [now left | congruence].
      * injection Estep as <-. now left.
    + right. split; [now right | assumption].
Qed.

(** ** The claims *)

(** C9. No query mutates the knowledge base: after [get_item_suggestions],
    [get_strategic_tips] or [get_counter_tips] (whether it returns or
    raises) the process state is the one before the call, so the hero list,
    the name-to-id lookup and the id-to-strategy mapping are unchanged. *)
Theorem queries_leave_knowledge_base_unchanged
    (lower : string -> string) (p : process)
    (enemy_heroes : list string) (your_hero : string) :
  (snd (get_item_suggestions lower enemy_heroes p) = p
   /\ snd (get_strategic_tips your_hero p) = p
   /\ snd (get_counter_tips enemy_heroes p) = p)
  /\ knowledge_base (snd (get_item_suggestions lower enemy_heroes p))
     = knowledge_base p
  /\ knowledge_base (snd (get_strategic_tips your_hero p)) = knowledge_base p
  /\ knowledge_base (snd (get_counter_tips enemy_heroes p))
     = knowledge_base p.
Proof.
  rewrite get_item_suggestions_run, get_counter_tips_run.
  rewrite (proj1 (get_strategic_tips_run your_hero p)).
  simpl. repeat split.
Qed.

(** C8. Each query is deterministic: calling it again with the same input in
    the state the first call left returns the same output, and the output
    depends on the process state through the data manager only. *)
Theorem queries_are_deterministic
    (lower : string -> string) (p : process)
    (enemy_heroes : list string) (your_hero : string) :
  (fst (get_item_suggestions lower enemy_heroes
          (snd (get_item_suggestions lower enemy_heroes p)))
   = fst (get_item_suggestions lower enemy_heroes p)
   /\ fst (get_strategic_tips your_hero (snd (get_strategic_tips your_hero p)))
      = fst (get_strategic_tips your_hero p)
   /\ fst (get_counter_tips enemy_heroes
             (snd (get_counter_tips enemy_heroes p)))
      = fst (get_counter_tips enemy_heroes p))
  /\ forall q, data_manager q = data_manager p ->
       fst (get_item_suggestions lower enemy_heroes q)
       = fst (get_item_suggestions lower enemy_heroes p)
       /\ fst (get_strategic_tips your_hero q)
          = fst (get_strategic_tips your_hero p)
       /\ fst (get_counter_tips enemy_heroes q)
          = fst (get_counter_tips enemy_heroes p).
Proof.
  split.
  - rewrite (proj1 (get_strategic_tips_run your_hero p)).
    rewrite !get_item_suggestions_run, !get_counter_tips_run. simpl.
    repeat split.
  - intros q Hq. rewrite !get_item_suggestions_run, !get_counter_tips_run.
    simpl. rewrite Hq. repeat split.
    now apply (proj2 (get_strategic_tips_run your_hero p)).
Qed.

(** C10. [get_item_suggestions] ignores a repeated opponent: appending a name
    that already occurs in the list changes neither the result (keys, value
    lists, order, or the exception raised) nor the state. *)
Theorem repeated_opponent_changes_nothing
    (lower : string -> string) (p : process)
    (enemy_heroes : list string) (hero_name : string) :
  In hero_name enemy_heroes ->
  get_item_suggestions lower (enemy_heroes ++ [hero_name]) p
  = get_item_suggestions lower enemy_heroes p.
Proof.
  intros Hin. rewrite !get_item_suggestions_run. f_equal.
  rewrite rfold_app.
  destruct (rfold (item_suggestions_step lower (data_manager p))
              enemy_heroes []) as [d|e] eqn:Erun; [|reflexivity].
  simpl. rewrite item_suggestions_step_text.
  destruct (rfold_suggestions_text _ _ _ _ _ _ Erun Hin) as [[text|] Ho];
    rewrite Ho; [|reflexivity].
  simpl. rewrite scan_catalog_items, scan_items_recorded; [reflexivity|].
  intros item Hhit. apply recorded_countered_by.
  apply (rfold_suggestions_countered _ _ _ _ _ item hero_name Erun).
  right. split; [assumption|]. now exists text.
Qed.

Lemma repeated_opponent_changes_nothing_witness :
  In "Hero B" ["Hero B"; "Hero A"]
  /\ get_item_suggestions ascii_lower (["Hero B"; "Hero A"] ++ ["Hero B"])
       example_process
     = get_item_suggestions ascii_lower ["Hero B"; "Hero A"] example_process.
Proof.
  split.
  - simpl. auto.
  - apply (repeated_opponent_changes_nothing ascii_lower example_process
             ["Hero B"; "Hero A"] "Hero B").
    simpl. auto.
Defined.

Lemma suggestions_keys_NoDup lower dm enemies d :
  rfold (item_suggestions_step lower dm) enemies [] = Ok d ->
  NoDup (dict_keys d).
Proof.
  intros Hrun. rewrite (rfold_suggestions_keys _ _ _ _ _ Hrun).
  apply add_all_NoDup. constructor.
Qed.

Lemma unknown_not_matched lower dm name item :
  dict_get key_eq (hero_name_map dm) (PStr name) = None ->
  ~ matched lower dm name item.
Proof.
  intros Hnone [text [Htext _]]. unfold counter_tips_text in Htext.
  rewrite Hnone in Htext. discriminate.
Qed.

(** C4. A name that is not a key of the name-to-id lookup is excluded by
    [get_item_suggestions] and [get_counter_tips]: removing it from the
    input changes neither result, so it causes no error; it occurs in no
    value list of the suggestions and is no key of the counter tips; and on
    the name alone both calls return an empty mapping. *)
Theorem unknown_opponent_is_excluded
    (lower : string -> string) (p : process)
    (name : string) (enemy_heroes : list string) :
  dict_get key_eq (hero_name_map (data_manager p)) (PStr name) = None ->
  (get_item_suggestions lower enemy_heroes p
   = get_item_suggestions lower (remove string_dec name enemy_heroes) p
   /\ get_counter_tips enemy_heroes p
      = get_counter_tips (remove string_dec name enemy_heroes) p)
  /\ (forall d, fst (get_item_suggestions lower enemy_heroes p) = Ok d ->
      forall item countered, In (item, countered) d -> ~ In name countered)
  /\ (forall d, fst (get_counter_tips enemy_heroes p) = Ok d ->
      ~ In name (dict_keys d))
  /\ fst (get_item_suggestions lower [name] p) = Ok []
  /\ fst (get_counter_tips [name] p) = Ok [].
Proof.
  intros Hnone.
  assert (Hs : forall s,
            item_suggestions_step lower (data_manager p) s name = Ok s).
  { intros s. unfold item_suggestions_step. now rewrite Hnone. }
  assert (Hc : forall s, counter_tips_step (data_manager p) s name = Ok s).
  { intros s. unfold counter_tips_step. now rewrite Hnone. }
  rewrite !get_item_suggestions_run, !get_counter_tips_run. simpl.
  rewrite Hs, Hc. simpl.
  repeat split.
  - f_equal. symmetry. now apply rfold_remove.
  - f_equal. symmetry. now apply rfold_remove.
  - intros d Hrun item countered Hentry Hin.
    pose proof (dict_get_In d item countered
                  (suggestions_keys_NoDup _ _ _ _ Hrun) Hentry) as Hget.
    assert (Hcb : In name (countered_by d item)).
    { unfold countered_by. now rewrite Hget. }
    apply (rfold_suggestions_countered _ _ _ _ _ item name Hrun) in Hcb.
    destruct Hcb as [[]|[_ Hm]].
    now apply (unknown_not_matched lower (data_manager p) name item).
  - intros d Hrun Hin.
    destruct (rfold_counter_tips_keys _ _ _ _ _ Hrun Hin) as [[]|[_ Hres]].
    contradiction.
Qed.

Lemma unknown_opponent_is_excluded_witness :
  dict_get key_eq (hero_name_map (data_manager example_process))
    (PStr "Unknown Hero") = None
  /\ fst (get_counter_tips ["Hero A"; "Unknown Hero"] example_process)
     = fst (get_counter_tips ["Hero A"] example_process).
Proof.
  split.
  - reflexivity.
  - destruct (unknown_opponent_is_excluded ascii_lower example_process
                "Unknown Hero" ["Hero A"; "Unknown Hero"] eq_refl)
      as [[_ Hsame] _].
    rewrite Hsame. reflexivity.
Defined.

(** C3. In the output of [get_item_suggestions], an opponent that resolves
    to a document with a counter-tips field is listed under a catalog item
    exactly once if and only if the lower-cased item name is a substring of
    the opponent's counter tips joined with single spaces and lower-cased,
    and never more than once; an item is a key exactly when some opponent
    matches it, and no key holds an empty list. *)
Theorem listed_once_iff_item_in_counter_tips
    (lower : string -> string) (p : process)
    (enemy_heroes : list string) (d : list (string * list string)) :
  fst (get_item_suggestions lower enemy_heroes p) = Ok d ->
  (forall item hero_name tips,
      In item COUNTER_ITEMS -> In hero_name enemy_heroes ->
      has_counter_tips (data_manager p) hero_name tips ->
      (count_occ string_dec (countered_by d item) hero_name = 1
       <-> substring_of (lower item) (lower (join " " tips)))
      /\ count_occ string_dec (countered_by d item) hero_name <= 1)
  /\ (forall item,
        In item (dict_keys d)
        <-> exists hero_name,
              In hero_name enemy_heroes
              /\ matched lower (data_manager p) hero_name item)
  /\ (forall item countered, In (item, countered) d -> countered <> []).
Proof.
  rewrite get_item_suggestions_run. simpl. intros Hrun.
  assert (Hkeys : forall item,
     In item (dict_keys d)
     <-> exists hero_name,
           In hero_name enemy_heroes
           /\ matched lower (data_manager p) hero_name item).
  { intros item. rewrite <- list_mem_In, <- dict_mem_keys.
    rewrite (rfold_suggestions_mem _ _ _ _ _ item Hrun).
    split; [intros [H|H]; [discriminate | assumption] | auto]. }
  split; [|split; [exact Hkeys|]].
  - intros item hero_name tips Hitem Hhero Htips.
    pose proof (rfold_suggestions_NoDup _ _ _ _ _ item Hrun (NoDup_nil _))
      as Hnd.
    rewrite (NoDup_count_occ string_dec) in Hnd. specialize (Hnd hero_name).
    split; [|exact Hnd].
    pose proof (count_occ_In string_dec (countered_by d item) hero_name)
      as Hcount.
    pose proof (rfold_suggestions_countered _ _ _ _ _ item hero_name Hrun)
      as Hin.
    pose proof (has_counter_tips_text lower _ _ _ Htips) as Htext.
    rewrite <- str_in_spec. split.
    + intros H1.
      assert (Hi : In hero_name (countered_by d item)) by (apply Hcount; lia).
      apply Hin in Hi. destruct Hi as [[]|[_ [text [Ht Hhit]]]].
      rewrite Htext in Ht. injection Ht as <-.
      now apply hits_spec in Hhit.
    + intros Hsub.
      assert (Hi : In hero_name (countered_by d item)).
      { apply Hin. right. split; [assumption|].
        exists (lower (join " " tips)). split; [assumption|].
        now apply hits_spec. }
      apply Hcount in Hi. lia.
  - intros item countered Hentry Hempty. subst countered.
    pose proof (dict_get_In d item []
                  (suggestions_keys_NoDup _ _ _ _ Hrun) Hentry) as Hget.
    assert (Hk : In item (dict_keys d)).
    { apply in_map_iff. now exists (item, []). }
    apply Hkeys in Hk. destruct Hk as [hero_name [Hhero Hm]].
    assert (Hi : In hero_name (countered_by d item)).
    { apply (rfold_suggestions_countered _ _ _ _ _ item hero_name Hrun).
      now right. }
    unfold countered_by in Hi. rewrite Hget in Hi. destruct Hi.
Qed.

Lemma listed_once_iff_item_in_counter_tips_witness :
  fst (get_item_suggestions ascii_lower ["Hero B"; "Hero A"; "Hero B"]
         example_process)
  = Ok [("Lotus Orb", ["Hero B"]); ("Black King Bar", ["Hero A"])]
  /\ forall item countered,
       In (item, countered)
          [("Lotus Orb", ["Hero B"]); ("Black King Bar", ["Hero A"])] ->
       countered <> [].
Proof.
  split.
  - vm_compute. reflexivity.
  - apply (listed_once_iff_item_in_counter_tips ascii_lower example_process
             ["Hero B"; "Hero A"; "Hero B"]).
    vm_compute. reflexivity.
Defined.

Lemma matched_items_subsequence lower dm hero_name :
  subsequence (matched_items lower dm hero_name) COUNTER_ITEMS = true.
Proof.
  unfold matched_items.
  destruct (counter_tips_text lower dm hero_name) as [[text|]|e];
    [apply subsequence_filter | reflexivity | reflexivity].
Qed.

Lemma matched_items_NoDup lower dm hero_name :
  NoDup (matched_items lower dm hero_name).
Proof.
  unfold matched_items.
  destruct (counter_tips_text lower dm hero_name) as [[text|]|e];
    [apply NoDup_filter, COUNTER_ITEMS_NoDup | apply NoDup_nil ..].
Qed.

(** C2, as stated, fails: against Hero B and then Hero A the keys come out
    as Lotus Orb, Black King Bar, while the catalog lists Black King Bar
    first. *)
Lemma keys_do_not_follow_catalog :
  ~ keys_follow_catalog ascii_lower example_process ["Hero B"; "Hero A"].
Proof.
  intros H.
  specialize (H [("Lotus Orb", ["Hero B"]); ("Black King Bar", ["Hero A"])]).
  assert (Hrun :
    fst (get_item_suggestions ascii_lower ["Hero B"; "Hero A"]
           example_process)
    = Ok [("Lotus Orb", ["Hero B"]); ("Black King Bar", ["Hero A"])])
    by (vm_compute; reflexivity).
  apply H in Hrun. vm_compute in Hrun. discriminate.
Qed.

(** C2, amended. The keys of the mapping returned by [get_item_suggestions]
    are in first-match order: the items found for the first opponent in
    catalog order, then the items not yet present found for the second
    opponent in catalog order, and so on.  The items found for one opponent
    follow the catalog order, so for a single opponent the keys do. *)
Theorem keys_follow_first_match_order
    (lower : string -> string) (p : process)
    (enemy_heroes : list string) (d : list (string * list string)) :
  fst (get_item_suggestions lower enemy_heroes p) = Ok d ->
  dict_keys d
  = add_all (flat_map (matched_items lower (data_manager p)) enemy_heroes) []
  /\ (forall hero_name,
        subsequence (matched_items lower (data_manager p) hero_name)
          COUNTER_ITEMS = true)
  /\ (forall hero_name,
        enemy_heroes = [hero_name] ->
        dict_keys d = matched_items lower (data_manager p) hero_name
        /\ subsequence (dict_keys d) COUNTER_ITEMS = true).
Proof.
  intros Hrun. rewrite get_item_suggestions_run in Hrun.
  change (rfold (item_suggestions_step lower (data_manager p))
            enemy_heroes [] = Ok d) in Hrun.
  pose proof (rfold_suggestions_keys _ _ _ _ _ Hrun) as Hkeys.
  change (dict_keys (@nil (string * list string))) with (@nil string)
    in Hkeys.
  split; [exact Hkeys|]. split; [intros h; apply matched_items_subsequence|].
  intros h ->.
  change (flat_map (matched_items lower (data_manager p)) [h])
    with (matched_items lower (data_manager p) h ++ []) in Hkeys.
  rewrite app_nil_r in Hkeys.
  rewrite add_all_fresh in Hkeys;
    [| apply matched_items_NoDup | intros x _ []].
  rewrite app_nil_l in Hkeys. rewrite Hkeys.
  split; [reflexivity | apply matched_items_subsequence].
Qed.

Lemma keys_follow_first_match_order_witness :
  fst (get_item_suggestions ascii_lower ["Hero B"; "Hero A"] example_process)
  = Ok [("Lotus Orb", ["Hero B"]); ("Black King Bar", ["Hero A"])]
  /\ dict_keys [("Lotus Orb", ["Hero B"]); ("Black King Bar", ["Hero A"])]
     = add_all
         (flat_map (matched_items ascii_lower (data_manager example_process))
            ["Hero B"; "Hero A"]) [].
Proof.
  split.
  - vm_compute. reflexivity.
  - assert (Hrun :
      fst (get_item_suggestions ascii_lower ["Hero B"; "Hero A"]
             example_process)
      = Ok [("Lotus Orb", ["Hero B"]); ("Black King Bar", ["Hero A"])])
      by (vm_compute; reflexivity).
    exact (proj1 (keys_follow_first_match_order ascii_lower example_process
                    ["Hero B"; "Hero A"] _ Hrun)).
Defined.


(** *** The lookup chain of the queries against [resolve] *)



Lemma get_strategic_tips_resolve your_hero p :
  resolve (data_manager p) your_hero <> Malformed ->
  fst (get_strategic_tips your_hero p)
  = Ok (tips_or_empty (data_manager p) your_hero "general_tips").
Proof.
  unfold tips_or_empty, resolve, get_strategic_tips, strategies_get,
    bind, get_dm, lift, ret.
  simpl.
  destruct (dict_get key_eq (hero_name_map (data_manager p))
              (PStr your_hero)) as [info|]; [|reflexivity].
  destruct (safe_name info) as [| | | |id| |]; try reflexivity;
    try (intros H; now elim H).
  simpl.
  destruct (dict_get String.eqb (hero_strategies (data_manager p)) id)
    as [document|]; [|reflexivity].
  destruct (truthy document) eqn:Etruthy; simpl; [|reflexivity].
  destruct document as [| | | | | |entries];
    try (intros H; now elim H).
  simpl.
  destruct (dict_get String.eqb entries "strategies") as [[| | | | | |fields]|];
    try (intros H; now elim H).
  simpl. unfold dict_mem.
  destruct (dict_get String.eqb fields "general_tips"); reflexivity.
Qed.








(** C5, as stated, fails: Hero C resolves, its document is present and has
    no general-tips field, and [get_strategic_tips] raises [KeyError]
    because the document has no nested [strategies] record either. *)
Lemma strategic_tips_raise_without_nested_record :
  dict_get key_eq (hero_name_map (data_manager example_process))
    (PStr "Hero C") = Some (mk_hero_info (PStr "hero_c") (PStr ""))
  /\ dict_get String.eqb (hero_strategies (data_manager example_process))
       "hero_c" = Some (PDict [("hero", PStr "Hero C")])
  /\ fst (get_strategic_tips "Hero C" example_process) = Raise KeyError.
Proof. repeat split; vm_compute; reflexivity. Qed.

(** C5, amended. For a hero whose lookup is not malformed,
    [get_strategic_tips] returns the empty list when the name is
    unresolvable, the strategy document is absent, or the nested
    [strategies] record of the document has no general-tips field; otherwise
    it returns the value of that field as it is, whole and in source
    order. *)
Theorem strategic_tips_verbatim_or_empty (p : process) (your_hero : string) :
  resolve (data_manager p) your_hero <> Malformed ->
  fst (get_strategic_tips your_hero p)
  = Ok (match resolve (data_manager p) your_hero with
        | Unresolvable | NoDocument => PList []
        | TipsRecord fields =>
            match dict_get String.eqb fields "general_tips" with
            | Some tips => tips
            | None => PList []
            end
        | Malformed => PList []
        end).
Proof.
  intros Hshape. rewrite (get_strategic_tips_resolve _ _ Hshape).
  unfold tips_or_empty.
  destruct (resolve (data_manager p) your_hero); reflexivity.
Qed.

Lemma strategic_tips_verbatim_or_empty_witness :
  resolve (data_manager example_process) "Hero B" <> Malformed
  /\ fst (get_strategic_tips "Hero B" example_process)
     = Ok (PList [PStr "Farm efficiently"; PStr "Ward the jungle"]).
Proof.
  assert (Hshape : resolve (data_manager example_process) "Hero B"
                   <> Malformed) by (vm_compute; discriminate).
  split; [exact Hshape|].
  rewrite (strategic_tips_verbatim_or_empty example_process "Hero B" Hshape).
  vm_compute. reflexivity.
Defined.

(** *** File names *)

Lemma append_length (s t : string) :
  String.length (s ++ t) = String.length s + String.length t.
Proof. induction s as [|c r IH]; simpl; [reflexivity | now rewrite IH]. Qed.

Lemma substring_prefix (s t : string) :
  String.substring 0 (String.length s) (s ++ t) = s.
Proof.
  induction s as [|c r IH]; simpl.
  - now destruct t.
  - now rewrite IH.
Qed.

Lemma stem_append (pre : string) : stem (pre ++ ".json") = pre.
Proof.
  unfold stem. rewrite append_length. simpl String.length.
  replace (String.length pre + 5 - 5) with (String.length pre) by lia.
  apply substring_prefix.
Qed.

Lemma endswith_spec (s suffix : string) :
  endswith s suffix = true <-> exists pre, s = (pre ++ suffix)%string.
Proof.
  induction s as [|c r IH]; cbn [endswith].
  - rewrite orb_false_r, String.eqb_eq. split.
    + intros <-. now exists "".
    + intros [pre H]. destruct pre; [exact H | discriminate].
  - rewrite orb_true_iff, String.eqb_eq, IH. split.
    + intros [H|[pre ->]]; [now exists "" | now exists (String c pre)].
    + intros [pre H]. destruct pre as [|c' pre'].
      * now left.
      * right. injection H as -> ->. now exists pre'.
Qed.

Lemma endswith_stem (filename : string) :
  endswith filename ".json" = true -> filename = (stem filename ++ ".json")%string.
Proof.
  intros H. apply endswith_spec in H as [pre ->]. now rewrite stem_append.
Qed.

Lemma startswith_app_json (s : string) :
  s <> "" -> startswith (s ++ ".json") ".json" = startswith s ".json".
Proof.
  intros Hne.
  destruct s as [|c0 [|c1 [|c2 [|c3 [|c4 r]]]]]; [now elim Hne | ..];
    cbn [startswith append];
    repeat match goal with
           | |- context [Ascii.eqb ?a ?b] =>
               let E := fresh "E" in
               destruct (Ascii.eqb a b) eqn:E;
               [apply Ascii.eqb_eq in E; try discriminate E; subst |]
           end;
    try reflexivity.
Qed.

Lemma replace_from_stem (pre : string) :
  str_in ".json" pre = false ->
  replace_from 0 (pre ++ ".json") ".json" "" = pre.
Proof.
  induction pre as [|c r IH]; intros Hno.
  - reflexivity.
  - change (str_in ".json" (String c r))
      with (startswith (String c r) ".json" || str_in ".json" r) in Hno.
    apply orb_false_iff in Hno as [Hstart Hrest].
    change ((String c r ++ ".json")%string)
      with (String c (r ++ ".json")%string).
    cbn [replace_from].
    change (String c (r ++ ".json")%string)
      with ((String c r ++ ".json")%string) at 1.
    rewrite startswith_app_json by discriminate.
    rewrite Hstart. now rewrite IH.
Qed.

Lemma replace_stem (filename : string) :
  endswith filename ".json" = true ->
  str_in ".json" (stem filename) = false ->
  replace filename ".json" "" = stem filename.
Proof.
  intros Hend Hno. rewrite (endswith_stem _ Hend) at 1.
  unfold replace. now apply replace_from_stem.
Qed.

(** *** The loader, step by step *)

Lemma load_json_run fs file_name p :
  _load_json fs file_name p
  = let path := os_path_join (data_path (data_manager p)) file_name in
    match open_json fs path with
    | Parsed v => (Ok v, p)
    | OtherError => (Raise OSError, p)
    | o => (Ok PNone, printed p (load_error_message path o))
    end.
Proof.
  unfold _load_json, bind, get_dm, print, ret, lift, printed. cbv zeta.
  destruct (open_json fs (os_path_join (data_path (data_manager p)) file_name));
    reflexivity.
Qed.

Lemma load_strategy_file_run fs filename p :
  load_strategy_file fs filename p
  = if endswith filename ".json" then
      let path := strategy_file (data_path (data_manager p)) filename in
      match open_json fs path with
      | Parsed v =>
          if truthy v
          then (Ok tt,
                mk_process
                  (with_strategy (data_manager p)
                     (replace filename ".json" "") v)
                  (stdout p))
          else (Ok tt, p)
      | OtherError => (Raise OSError, p)
      | o => (Ok tt, printed p (load_error_message path o))
      end
    else (Ok tt, p).
Proof.
  unfold load_strategy_file.
  destruct (endswith filename ".json"); [|reflexivity].
  unfold bind. rewrite load_json_run. unfold strategy_file. cbv zeta.
  destruct (open_json fs
              (os_path_join (data_path (data_manager p))
                 (os_path_join "howdoiplay_json" filename))) as [v| | |];
    try reflexivity.
  destruct (truthy v); reflexivity.
Qed.

Lemma stem_injective f g :
  endswith f ".json" = true -> endswith g ".json" = true ->
  stem f = stem g -> f = g.
Proof.
  intros Hf Hg Heq.
  rewrite (endswith_stem _ Hf), (endswith_stem _ Hg). now rewrite Heq.
Qed.

(** *** Queries on an empty name lookup *)

Lemma rfold_skip_all {A S} (body : S -> A -> result S) xs acc :
  (forall s x, body s x = Ok s) -> rfold body xs acc = Ok acc.
Proof.
  intros Hskip. induction xs as [|x rest IH]; simpl; [reflexivity|].
  rewrite Hskip. simpl. exact IH.
Qed.

Lemma queries_on_empty_lookup lower q enemy_heroes your_hero :
  hero_name_map (data_manager q) = [] ->
  fst (get_item_suggestions lower enemy_heroes q) = Ok []
  /\ fst (get_strategic_tips your_hero q) = Ok (PList [])
  /\ fst (get_counter_tips enemy_heroes q) = Ok [].
Proof.
  intros Hempty.
  rewrite get_item_suggestions_run, get_counter_tips_run. cbn [fst].
  split; [|split].
  - apply rfold_skip_all. intros s x. unfold item_suggestions_step.
    now rewrite Hempty.
  - unfold get_strategic_tips, bind, get_dm, ret. cbn [fst].
    now rewrite Hempty.
  - apply rfold_skip_all. intros s x. unfold counter_tips_step.
    now rewrite Hempty.
Qed.

(** *** The examples, checked against the loader *)

(** Loading the example data directory builds [example_dm]; the malformed
    [broken.json] costs one error line, and [empty.json] and [notes.txt]
    leave no trace. *)
Lemma example_fs_loads_example_dm :
  DataManager_init example_fs "data" fresh_process
  = (Ok tt,
     mk_process example_dm
       [ "Loading game data...";
         "Error: Could not decode JSON from data/howdoiplay_json/broken.json.";
         "Loaded 2 heroes."; "Loaded normalized data for 5 heroes.";
         "Loaded strategies for 4 heroes." ]).
Proof. vm_compute. reflexivity. Qed.

(** A data directory with nothing in it: an error line for each roster
    file, no line for the strategy directory, and three counts of zero. *)
Lemma empty_fs_loads_nothing :
  DataManager_init empty_fs "data" fresh_process
  = (Ok tt,
     initialized "data"
       [ "Loading game data..."; "Error: data/heroes.json not found.";
         "Error: data/normalized_heroes.json not found.";
         "Loaded 0 heroes."; "Loaded normalized data for 0 heroes.";
         "Loaded strategies for 0 heroes." ]).
Proof. vm_compute. reflexivity. Qed.

(** [filename.replace('.json', '')] removes every occurrence of the
    extension, so it differs from the stem when the name contains it twice. *)
Lemma replace_removes_every_occurrence :
  replace "a.json.json" ".json" "" = "a" /\ stem "a.json.json" = "a.json".
Proof. split; reflexivity. Qed.


(** ** Further properties of the queries *)

Lemma counter_tips_text_of lower dm hero_name :
  counter_tips_text lower dm hero_name
  = match counter_tips_of dm hero_name with
    | Ok None => Ok None
    | Ok (Some tips) => try text := py_join " " tips in Ok (Some (lower text))
    | Raise e => Raise e
    end.
Proof.
  unfold counter_tips_text, counter_tips_of.
  destruct (dict_get key_eq (hero_name_map dm) (PStr hero_name)) as [info|];
    [|reflexivity].
  destruct (strategies_get (hero_strategies dm) (safe_name info)) as [st|e];
    simpl; [|reflexivity].
  destruct (truthy st); simpl; [|reflexivity].
  destruct (py_getitem st "strategies") as [ss|e]; simpl; [|reflexivity].
  destruct (py_contains "counter_tips" ss) as [[|]|e]; simpl;
    try reflexivity.
  destruct (py_getitem ss "counter_tips") as [tips|e]; reflexivity.
Qed.

Lemma counter_tips_step_of dm acc hero_name :
  counter_tips_step dm acc hero_name
  = match counter_tips_of dm hero_name with
    | Ok None => Ok acc
    | Ok (Some tips) => Ok (dict_set String.eqb acc hero_name tips)
    | Raise e => Raise e
    end.
Proof.
  unfold counter_tips_step, counter_tips_of.
  destruct (dict_get key_eq (hero_name_map dm) (PStr hero_name)) as [info|];
    [|reflexivity].
  destruct (strategies_get (hero_strategies dm) (safe_name info)) as [st|e];
    simpl; [|reflexivity].
  destruct (truthy st); simpl; [|reflexivity].
  destruct (py_getitem st "strategies") as [ss|e]; simpl; [|reflexivity].
  destruct (py_contains "counter_tips" ss) as [[|]|e]; simpl;
    try reflexivity.
  destruct (py_getitem ss "counter_tips") as [tips|e]; reflexivity.
Qed.

Lemma counter_tips_of_Some dm hero_name tips :
  counter_tips_of dm hero_name = Ok (Some tips)
  <-> exists fields,
        resolve dm hero_name = TipsRecord fields
        /\ dict_get String.eqb fields "counter_tips" = Some tips.
Proof.
  unfold counter_tips_of, resolve, strategies_get.
  destruct (dict_get key_eq (hero_name_map dm) (PStr hero_name)) as [info|].
  2: { split; [discriminate | intros [flds [H _]]; discriminate]. }
  destruct (safe_name info) as [| | | |id| |]; simpl;
    try (split; [discriminate | intros [flds [H _]]; discriminate]).
  destruct (dict_get String.eqb (hero_strategies dm) id) as [document|];
    simpl; [|split; [discriminate | intros [flds [H _]]; discriminate]].
  destruct (truthy document) eqn:Etruthy; simpl;
    [|split; [discriminate | intros [flds [H _]]; discriminate]].
  destruct document as [| | | | | |entries]; simpl;
    try (split; [discriminate | intros [flds [H _]]; discriminate]).
  destruct (dict_get String.eqb entries "strategies") as [ss|]; simpl;
    [|split; [discriminate | intros [flds [H _]]; discriminate]].
  destruct ss as [| | | |s|items|fields]; simpl;
    try (split; [discriminate | intros [flds [H _]]; discriminate]).
  - destruct (str_in "counter_tips" s); simpl;
      (split; [discriminate | intros [flds [H _]]; discriminate]).
  - destruct (existsb (key_eq (PStr "counter_tips")) items); simpl;
      (split; [discriminate | intros [flds [H _]]; discriminate]).
  - unfold dict_mem.
    destruct (dict_get String.eqb fields "counter_tips") as [v|] eqn:Ev; simpl.
    + split.
      * intros H. injection H as <-. now exists fields.
      * intros [flds [Hf Hv]]. injection Hf as <-. congruence.
    + split; [discriminate|]. intros [flds [Hf Hv]]. injection Hf as <-.
      congruence.
Qed.

Lemma add_all_In x xs seen : In x (add_all xs seen) <-> In x seen \/ In x xs.
Proof.
  unfold add_all. revert seen.
  induction xs as [|y rest IH]; intros seen; simpl; [tauto|].
  rewrite IH, add_once_In. split.
  - intros [[H| ->]|H]; auto.
  - intros [H|[<-|H]]; auto.
Qed.

Lemma add_once_prefix x xs : prefix_of xs (add_once x xs).
Proof.
  unfold add_once, prefix_of. destruct (list_mem x xs).
  - exists []. now rewrite app_nil_r.
  - now exists [x].
Qed.

Lemma add_all_prefix xs seen : prefix_of seen (add_all xs seen).
Proof.
  unfold add_all. revert seen.
  induction xs as [|y rest IH]; intros seen; simpl.
  - exists []. now rewrite app_nil_r.
  - destruct (IH (add_once y seen)) as [more Hmore].
    destruct (add_once_prefix y seen) as [one Hone].
    exists (one ++ more). rewrite Hmore, Hone. now rewrite app_assoc.
Qed.

Lemma add_all_NoDup_input xs : NoDup xs -> add_all xs [] = xs.
Proof.
  intros H. rewrite add_all_fresh; [reflexivity | assumption | intros x _ []].
Qed.

Lemma rfold_suggestions_values lower dm enemies acc d item :
  rfold (item_suggestions_step lower dm) enemies acc = Ok d ->
  countered_by d item
  = add_all (filter (matches_item lower dm item) enemies)
      (countered_by acc item).
Proof.
  revert acc. induction enemies as [|h rest IH]; intros acc Hrun.
  - cbn in Hrun. now injection Hrun as <-.
  - cbn [rfold] in Hrun. rewrite item_suggestions_step_text in Hrun.
    cbn [filter]. unfold matches_item at 1.
    destruct (counter_tips_text lower dm h) as [[text|]|e];
      cbn [rbind] in Hrun; [| |discriminate].
    + rewrite (IH _ Hrun), scan_catalog_items, countered_by_scan.
      now destruct (hits lower COUNTER_ITEMS text item).
    + now rewrite (IH _ Hrun).
Qed.

Lemma rfold_suggestions_returns_iff lower dm enemies acc :
  (exists d, rfold (item_suggestions_step lower dm) enemies acc = Ok d)
  <-> forall h, In h enemies -> exists o, counter_tips_text lower dm h = Ok o.
Proof.
  split.
  - intros [d Hrun] h Hh. eapply rfold_suggestions_text; eauto.
  - revert acc. induction enemies as [|h rest IH]; intros acc Hall.
    + now exists acc.
    + cbn [rfold]. rewrite item_suggestions_step_text.
      destruct (Hall h (or_introl eq_refl)) as [o Ho]. rewrite Ho.
      destruct o as [text|]; cbn [rbind]; apply IH;
        intros h' Hh'; apply Hall; now right.
Qed.

Lemma rfold_counter_tips_text dm enemies acc d hero_name :
  rfold (counter_tips_step dm) enemies acc = Ok d -> In hero_name enemies ->
  exists o, counter_tips_of dm hero_name = Ok o.
Proof.
  revert acc. induction enemies as [|h rest IH]; intros acc Hrun Hin.
  - destruct Hin.
  - cbn [rfold] in Hrun. rewrite counter_tips_step_of in Hrun.
    destruct (counter_tips_of dm h) as [o|e] eqn:Eh; [|discriminate].
    destruct Hin as [<-|Hin]; [now exists o|].
    destruct o as [tips|]; cbn [rbind] in Hrun; eapply IH; eauto.
Qed.

Lemma rfold_counter_tips_returns_if dm enemies acc :
  (forall h, In h enemies -> exists o, counter_tips_of dm h = Ok o) ->
  exists d, rfold (counter_tips_step dm) enemies acc = Ok d.
Proof.
  revert acc. induction enemies as [|h rest IH]; intros acc Hall.
  - now exists acc.
  - cbn [rfold]. rewrite counter_tips_step_of.
    destruct (Hall h (or_introl eq_refl)) as [o Ho]. rewrite Ho.
    destruct o as [tips|]; cbn [rbind]; apply IH;
      intros h' Hh'; apply Hall; now right.
Qed.

Lemma rfold_counter_tips_key_order dm enemies acc d :
  rfold (counter_tips_step dm) enemies acc = Ok d ->
  dict_keys d
  = add_all (filter (offers_counter_tips dm) enemies) (dict_keys acc).
Proof.
  revert acc. induction enemies as [|h rest IH]; intros acc Hrun.
  - cbn in Hrun. now injection Hrun as <-.
  - cbn [rfold] in Hrun. rewrite counter_tips_step_of in Hrun.
    cbn [filter]. unfold offers_counter_tips at 1.
    destruct (counter_tips_of dm h) as [[tips|]|e];
      cbn [rbind] in Hrun; [| |discriminate].
    + rewrite (IH _ Hrun), dict_keys_set, dict_mem_keys.
      unfold add_all at 2. cbn [fold_left]. unfold add_once at 2.
      reflexivity.
    + now rewrite (IH _ Hrun).
Qed.

Lemma rfold_counter_tips_value dm enemies acc d hero_name :
  rfold (counter_tips_step dm) enemies acc = Ok d ->
  dict_get String.eqb d hero_name
  = match (if list_mem hero_name enemies
           then counter_tips_of dm hero_name else Ok None) with
    | Ok (Some tips) => Some tips
    | _ => dict_get String.eqb acc hero_name
    end.
Proof.
  revert acc. induction enemies as [|h rest IH]; intros acc Hrun.
  - cbn in Hrun. now injection Hrun as <-.
  - cbn [rfold] in Hrun. rewrite counter_tips_step_of in Hrun.
    change (list_mem hero_name (h :: rest))
      with (String.eqb hero_name h || list_mem hero_name rest).
    destruct (counter_tips_of dm h) as [[tips|]|e] eqn:Eh;
      cbn [rbind] in Hrun; [| |discriminate]; rewrite (IH _ Hrun).
    + rewrite dict_get_set.
      destruct (String.eqb_spec hero_name h) as [->|Hne]; cbn [orb].
      * rewrite Eh. now destruct (list_mem h rest).
      * reflexivity.
    + destruct (String.eqb_spec hero_name h) as [->|Hne]; cbn [orb].
      * rewrite Eh. now destruct (list_mem h rest).
      * reflexivity.
Qed.

(** X1. Under every item of the mapping returned by [get_item_suggestions]
    the opponents stand in the order of their first occurrence in the input:
    the list is the input restricted to the opponents whose counter tips
    contain the item, each kept once; for an input without repetitions it is
    that restriction itself. *)
Theorem suggestions_list_opponents_in_input_order
    (lower : string -> string) (p : process)
    (enemy_heroes : list string) (d : list (string * list string)) :
  fst (get_item_suggestions lower enemy_heroes p) = Ok d ->
  forall item,
    countered_by d item
    = add_all (filter (matches_item lower (data_manager p) item) enemy_heroes)
        []
    /\ (NoDup enemy_heroes ->
        countered_by d item
        = filter (matches_item lower (data_manager p) item) enemy_heroes).
Proof.
  intros Hrun item. rewrite get_item_suggestions_run in Hrun.
  cbn [fst] in Hrun.
  pose proof (rfold_suggestions_values _ _ _ _ _ item Hrun) as Hvalues.
  change (countered_by [] item) with (@nil string) in Hvalues.
  split; [exact Hvalues|].
  intros Hnd. rewrite Hvalues. apply add_all_NoDup_input.
  now apply NoDup_filter.
Qed.

Lemma suggestions_list_opponents_in_input_order_witness :
  countered_by [("Lotus Orb", ["Hero B"]); ("Black King Bar", ["Hero A"])]
    "Lotus Orb"
  = add_all
      (filter (matches_item ascii_lower (data_manager example_process)
                 "Lotus Orb") ["Hero B"; "Hero A"; "Hero B"]) [].
Proof.
  assert (Hrun :
    fst (get_item_suggestions ascii_lower ["Hero B"; "Hero A"; "Hero B"]
           example_process)
    = Ok [("Lotus Orb", ["Hero B"]); ("Black King Bar", ["Hero A"])])
    by (vm_compute; reflexivity).
  exact (proj1 (suggestions_list_opponents_in_input_order ascii_lower
                  example_process _ _ Hrun "Lotus Orb")).
Defined.

(** X2. Appending opponents to the input of [get_item_suggestions] only
    appends to the result: when the call on the longer list returns, the
    call on the shorter list returns too, its keys are an initial segment of
    the keys of the longer result, and so is every value list. *)
Theorem more_opponents_only_append
    (lower : string -> string) (p : process)
    (enemy_heroes more : list string) (d2 : list (string * list string)) :
  fst (get_item_suggestions lower (enemy_heroes ++ more) p) = Ok d2 ->
  exists d1,
    fst (get_item_suggestions lower enemy_heroes p) = Ok d1
    /\ prefix_of (dict_keys d1) (dict_keys d2)
    /\ forall item, prefix_of (countered_by d1 item) (countered_by d2 item).
Proof.
  rewrite !get_item_suggestions_run. cbn [fst]. rewrite rfold_app.
  destruct (rfold (item_suggestions_step lower (data_manager p))
              enemy_heroes []) as [d1|e] eqn:Erun; [|discriminate].
  cbn [rbind]. intros Hmore. exists d1. split; [reflexivity|]. split.
  - rewrite (rfold_suggestions_keys _ _ _ _ _ Hmore). apply add_all_prefix.
  - intros item. rewrite (rfold_suggestions_values _ _ _ _ _ item Hmore).
    apply add_all_prefix.
Qed.

Lemma more_opponents_only_append_witness :
  exists d1,
    fst (get_item_suggestions ascii_lower ["Hero B"] example_process) = Ok d1
    /\ prefix_of (dict_keys d1) ["Lotus Orb"; "Black King Bar"].
Proof.
  assert (Hrun :
    fst (get_item_suggestions ascii_lower (["Hero B"] ++ ["Hero A"])
           example_process)
    = Ok [("Lotus Orb", ["Hero B"]); ("Black King Bar", ["Hero A"])])
    by (vm_compute; reflexivity).
  destruct (more_opponents_only_append ascii_lower example_process
              ["Hero B"] ["Hero A"] _ Hrun) as [d1 [H1 [H2 _]]].
  exists d1. split; [exact H1 | exact H2].
Defined.

(** X3. The order of the opponents changes the order of the result of
    [get_item_suggestions] only, not its content: for a permutation of the
    input the call returns as well, with the same keys and, under each item,
    the same opponents. *)
Theorem opponent_order_does_not_change_content
    (lower : string -> string) (p : process)
    (enemy_heroes permuted : list string) (d : list (string * list string)) :
  Permutation enemy_heroes permuted ->
  fst (get_item_suggestions lower enemy_heroes p) = Ok d ->
  exists d',
    fst (get_item_suggestions lower permuted p) = Ok d'
    /\ (forall item, In item (dict_keys d) <-> In item (dict_keys d'))
    /\ (forall item hero_name,
          In hero_name (countered_by d item)
          <-> In hero_name (countered_by d' item)).
Proof.
  intros Hperm. rewrite !get_item_suggestions_run. cbn [fst]. intros Hrun.
  assert (Hret : exists d',
            rfold (item_suggestions_step lower (data_manager p)) permuted []
            = Ok d').
  { apply rfold_suggestions_returns_iff. intros h Hh.
    apply (rfold_suggestions_text _ _ _ _ _ _ Hrun).
    apply (Permutation_in h (Permutation_sym Hperm) Hh). }
  destruct Hret as [d' Hrun']. exists d'. split; [exact Hrun'|]. split.
  - intros item. rewrite <- !list_mem_In, <- !dict_mem_keys.
    rewrite (rfold_suggestions_mem _ _ _ _ _ item Hrun).
    rewrite (rfold_suggestions_mem _ _ _ _ _ item Hrun').
    split; (intros [H|[h [Hh Hm]]]; [now left|]; right; exists h;
            split; [|exact Hm]).
    + now apply (Permutation_in h Hperm).
    + now apply (Permutation_in h (Permutation_sym Hperm)).
  - intros item h.
    rewrite (rfold_suggestions_countered _ _ _ _ _ item h Hrun).
    rewrite (rfold_suggestions_countered _ _ _ _ _ item h Hrun').
    split; (intros [H|[Hh Hm]]; [now left|]; right; split; [|exact Hm]).
    + now apply (Permutation_in h Hperm).
    + now apply (Permutation_in h (Permutation_sym Hperm)).
Qed.

Lemma opponent_order_does_not_change_content_witness :
  exists d',
    fst (get_item_suggestions ascii_lower ["Hero A"; "Hero B"]
           example_process) = Ok d'
    /\ (In "Hero B" (countered_by
                       [("Lotus Orb", ["Hero B"]);
                        ("Black King Bar", ["Hero A"])] "Lotus Orb")
        <-> In "Hero B" (countered_by d' "Lotus Orb")).
Proof.
  assert (Hrun :
    fst (get_item_suggestions ascii_lower ["Hero B"; "Hero A"]
           example_process)
    = Ok [("Lotus Orb", ["Hero B"]); ("Black King Bar", ["Hero A"])])
    by (vm_compute; reflexivity).
  destruct (opponent_order_does_not_change_content ascii_lower
              example_process ["Hero B"; "Hero A"] ["Hero A"; "Hero B"] _
              (perm_swap "Hero A" "Hero B" []) Hrun) as [d' [H1 [_ H3]]].
  exists d'. split; [exact H1 | exact (H3 "Lotus Orb" "Hero B")].
Defined.

(** X4. The mapping returned by [get_counter_tips] has one entry per
    opponent that has a counter-tips value, in the order of first occurrence
    in the input, and the entry of an opponent is the counter-tips value of
    its document as it is. *)
Theorem counter_tips_verbatim_in_input_order
    (p : process) (enemy_heroes : list string) (d : list (string * pyval)) :
  fst (get_counter_tips enemy_heroes p) = Ok d ->
  dict_keys d
  = add_all (filter (offers_counter_tips (data_manager p)) enemy_heroes) []
  /\ (forall hero_name fields tips,
        In hero_name enemy_heroes ->
        resolve (data_manager p) hero_name = TipsRecord fields ->
        dict_get String.eqb fields "counter_tips" = Some tips ->
        dict_get String.eqb d hero_name = Some tips)
  /\ (forall hero_name,
        In hero_name (dict_keys d) ->
        In hero_name enemy_heroes
        /\ exists fields tips,
             resolve (data_manager p) hero_name = TipsRecord fields
             /\ dict_get String.eqb fields "counter_tips" = Some tips
             /\ dict_get String.eqb d hero_name = Some tips).
Proof.
  rewrite get_counter_tips_run. cbn [fst]. intros Hrun.
  pose proof (rfold_counter_tips_key_order _ _ _ _ Hrun) as Hkeys.
  change (dict_keys (@nil (string * pyval))) with (@nil string) in Hkeys.
  assert (Hvalue : forall h tips,
            In h enemy_heroes ->
            counter_tips_of (data_manager p) h = Ok (Some tips) ->
            dict_get String.eqb d h = Some tips).
  { intros h tips Hh Htips.
    rewrite (rfold_counter_tips_value _ _ _ _ h Hrun).
    apply list_mem_In in Hh. now rewrite Hh, Htips. }
  split; [exact Hkeys|]. split.
  - intros h fields tips Hh Hres Hget. apply Hvalue; [assumption|].
    apply counter_tips_of_Some. now exists fields.
  - intros h Hh. rewrite Hkeys in Hh. apply add_all_In in Hh.
    destruct Hh as [[]|Hh]. apply filter_In in Hh as [Hin Hoffers].
    split; [assumption|]. unfold offers_counter_tips in Hoffers.
    destruct (counter_tips_of (data_manager p) h) as [[tips|]|e] eqn:Etips;
      try discriminate.
    destruct (proj1 (counter_tips_of_Some _ _ _) Etips) as [fields [Hres Hget]].
    exists fields, tips. repeat split; try assumption. now apply Hvalue.
Qed.

Lemma counter_tips_verbatim_in_input_order_witness :
  dict_keys
    [("Hero B",
      PList [PStr "A Lotus Orb reflects the hook";
             PStr "Keep the lotus orb ready"]);
     ("Hero A",
      PList [PStr "Buy a Black King Bar to counter Hero A's magic burst"])]
  = add_all
      (filter (offers_counter_tips (data_manager example_process))
         ["Hero B"; "Hero E"; "Hero A"; "Hero B"]) [].
Proof.
  assert (Hrun :
    fst (get_counter_tips ["Hero B"; "Hero E"; "Hero A"; "Hero B"]
           example_process)
    = Ok [("Hero B",
           PList [PStr "A Lotus Orb reflects the hook";
                  PStr "Keep the lotus orb ready"]);
          ("Hero A",
           PList [PStr
                    "Buy a Black King Bar to counter Hero A's magic burst"])])
    by (vm_compute; reflexivity).
  exact (proj1 (counter_tips_verbatim_in_input_order example_process _ _
                  Hrun)).
Defined.

(** X5. [get_counter_tips] returns whenever [get_item_suggestions] does on
    the same input, and every opponent listed under an item of the
    suggestions is a key of the counter tips. *)
Theorem suggested_opponents_have_counter_tips
    (lower : string -> string) (p : process)
    (enemy_heroes : list string) (d : list (string * list string)) :
  fst (get_item_suggestions lower enemy_heroes p) = Ok d ->
  exists tips_by_hero,
    fst (get_counter_tips enemy_heroes p) = Ok tips_by_hero
    /\ forall item hero_name,
         In hero_name (countered_by d item) ->
         In hero_name (dict_keys tips_by_hero).
Proof.
  rewrite get_item_suggestions_run, get_counter_tips_run. cbn [fst].
  intros Hrun.
  assert (Hall : forall h, In h enemy_heroes ->
            exists o, counter_tips_of (data_manager p) h = Ok o).
  { intros h Hh.
    destruct (rfold_suggestions_text _ _ _ _ _ _ Hrun Hh) as [o Ho].
    rewrite counter_tips_text_of in Ho.
    destruct (counter_tips_of (data_manager p) h) as [o'|e];
      [now exists o' | discriminate]. }
  destruct (rfold_counter_tips_returns_if _ _ [] Hall) as [t Ht].
  exists t. split; [exact Ht|]. intros item h Hin.
  apply (rfold_suggestions_countered _ _ _ _ _ item h Hrun) in Hin.
  destruct Hin as [[]|[Hh [text [Htext _]]]].
  rewrite (rfold_counter_tips_key_order _ _ _ _ Ht). apply add_all_In. right.
  apply filter_In. split; [assumption|]. unfold offers_counter_tips.
  rewrite counter_tips_text_of in Htext.
  destruct (counter_tips_of (data_manager p) h) as [[tips|]|e];
    [reflexivity | discriminate | discriminate].
Qed.

Lemma suggested_opponents_have_counter_tips_witness :
  exists tips_by_hero,
    fst (get_counter_tips ["Hero B"; "Hero A"] example_process)
    = Ok tips_by_hero.
Proof.
  assert (Hrun :
    fst (get_item_suggestions ascii_lower ["Hero B"; "Hero A"]
           example_process)
    = Ok [("Lotus Orb", ["Hero B"]); ("Black King Bar", ["Hero A"])])
    by (vm_compute; reflexivity).
  destruct (suggested_opponents_have_counter_tips ascii_lower example_process
              _ _ Hrun) as [t [Ht _]].
  now exists t.
Defined.

Lemma COUNTER_ITEMS_length : List.length COUNTER_ITEMS = 39.
Proof. reflexivity. Qed.

(** X6. The mapping returned by [get_item_suggestions] is bounded by the
    catalog and the input: it has at most 39 keys, all of them catalog items
    and no two equal, and no value list is longer than the input. *)
Theorem suggestions_are_bounded
    (lower : string -> string) (p : process)
    (enemy_heroes : list string) (d : list (string * list string)) :
  fst (get_item_suggestions lower enemy_heroes p) = Ok d ->
  List.length d <= 39
  /\ NoDup (dict_keys d)
  /\ (forall item, In item (dict_keys d) -> In item COUNTER_ITEMS)
  /\ forall item,
       List.length (countered_by d item) <= List.length enemy_heroes.
Proof.
  rewrite get_item_suggestions_run. cbn [fst]. intros Hrun.
  pose proof (suggestions_keys_NoDup _ _ _ _ Hrun) as Hnd.
  assert (Hincl : forall item, In item (dict_keys d) -> In item COUNTER_ITEMS).
  { intros item Hitem. rewrite <- list_mem_In, <- dict_mem_keys in Hitem.
    apply (rfold_suggestions_mem _ _ _ _ _ item Hrun) in Hitem.
    destruct Hitem as [H|[h [_ [text [_ Hhit]]]]]; [discriminate|].
    now apply hits_spec in Hhit. }
  split; [|split; [exact Hnd|split; [exact Hincl|]]].
  - rewrite <- COUNTER_ITEMS_length.
    replace (List.length d) with (List.length (dict_keys d))
      by apply length_map.
    apply NoDup_incl_length; [exact Hnd | exact Hincl].
  - intros item. apply NoDup_incl_length.
    + apply (rfold_suggestions_NoDup _ _ _ _ _ item Hrun). constructor.
    + intros h Hh.
      apply (rfold_suggestions_countered _ _ _ _ _ item h Hrun) in Hh.
      now destruct Hh as [[]|[Hh _]].
Qed.

Lemma suggestions_are_bounded_witness :
  List.length [("Lotus Orb", ["Hero B"]); ("Black King Bar", ["Hero A"])]
  <= 39.
Proof.
  assert (Hrun :
    fst (get_item_suggestions ascii_lower ["Hero B"; "Hero A"]
           example_process)
    = Ok [("Lotus Orb", ["Hero B"]); ("Black King Bar", ["Hero A"])])
    by (vm_compute; reflexivity).
  exact (proj1 (suggestions_are_bounded ascii_lower example_process _ _
                  Hrun)).
Defined.


(** ** Further properties of the loader *)

Lemma key_eq_PStr name k :
  key_eq (PStr name) k = true <-> k = PStr name.
Proof.
  destruct k; cbn; try (split; [discriminate | intros H; discriminate H]).
  rewrite String.eqb_eq. split; [now intros -> | intros H; now injection H].
Qed.

Lemma key_eq_PStr_right name k :
  key_eq k (PStr name) = true <-> k = PStr name.
Proof.
  destruct k; cbn; try (split; [discriminate | intros H; discriminate H]).
  rewrite String.eqb_eq. split; [now intros -> | intros H; now injection H].
Qed.

Lemma name_map_get_set {V} (d : list (pyval * V)) k v name :
  dict_get key_eq (dict_set key_eq d k v) (PStr name)
  = if key_eq (PStr name) k then Some v else dict_get key_eq d (PStr name).
Proof.
  induction d as [|[k' v'] rest IH]; cbn [dict_set dict_get].
  - reflexivity.
  - destruct (key_eq k k') eqn:Ekk'; cbn [dict_get].
    + destruct (key_eq (PStr name) k') eqn:Ek'.
      * apply key_eq_PStr in Ek'. subst k'.
        apply key_eq_PStr_right in Ekk'. subst k.
        now rewrite (proj2 (key_eq_PStr name (PStr name)) eq_refl).
      * destruct (key_eq (PStr name) k) eqn:Ek; [|reflexivity].
        apply key_eq_PStr in Ek. subst k.
        rewrite Ekk' in Ek'. discriminate.
    + rewrite IH. destruct (key_eq (PStr name) k') eqn:Ek'; [|reflexivity].
      destruct (key_eq (PStr name) k) eqn:Ek; [|reflexivity].
      apply key_eq_PStr in Ek', Ek. subst.
      rewrite (proj2 (key_eq_PStr name (PStr name)) eq_refl) in Ekk'.
      discriminate.
Qed.

Lemma find_app {A} (f : A -> bool) xs ys :
  find f (xs ++ ys)
  = match find f xs with Some x => Some x | None => find f ys end.
Proof.
  induction xs as [|x rest IH]; cbn; [reflexivity|].
  destruct (f x); [reflexivity | exact IH].
Qed.

Lemma name_map_comprehension_lookup todo acc m name :
  name_map_comprehension todo acc = Ok m ->
  dict_get key_eq m (PStr name)
  = match find (record_named name) (rev todo) with
    | Some record => Some (record_info record)
    | None => dict_get key_eq acc (PStr name)
    end.
Proof.
  revert acc. induction todo as [|r rest IH]; intros acc Hrun.
  - cbn in Hrun. now injection Hrun as <-.
  - cbn [rev]. rewrite find_app. cbn [find].
    cbn [name_map_comprehension] in Hrun.
    destruct r as [|b|z|f|s|items|entries]; cbn in Hrun;
      try discriminate.
    + (* a string *)
      destruct (str_in "name" s); cbn in Hrun.
      * destruct (str_in "safe_name" s); cbn in Hrun; [discriminate|].
        rewrite (IH _ Hrun).
        now destruct (find (record_named name) (rev rest)).
      * rewrite (IH _ Hrun).
        now destruct (find (record_named name) (rev rest)).
    + (* a list *)
      destruct (existsb (key_eq (PStr "name")) items); cbn in Hrun.
      * destruct (existsb (key_eq (PStr "safe_name")) items); cbn in Hrun;
          [discriminate|].
        rewrite (IH _ Hrun).
        now destruct (find (record_named name) (rev rest)).
      * rewrite (IH _ Hrun).
        now destruct (find (record_named name) (rev rest)).
    + (* an object *)
      unfold dict_mem in Hrun. cbn [record_named record_info].
      unfold dict_mem.
      destruct (dict_get String.eqb entries "name") as [n|] eqn:En;
        cbn in Hrun.
      * destruct (dict_get String.eqb entries "safe_name") as [sn|] eqn:Esn;
          cbn in Hrun.
        -- destruct (hashable n) eqn:Ehash; [|discriminate].
           rewrite (IH _ Hrun), name_map_get_set.
           destruct (find (record_named name) (rev rest)); [reflexivity|].
           destruct n as [|b|z|f|s|items|es]; cbn; try reflexivity.
           rewrite andb_true_r. destruct (String.eqb name s); [|reflexivity].
           cbn [record_info]. now rewrite Esn.
        -- rewrite (IH _ Hrun).
           destruct (find (record_named name) (rev rest)); [reflexivity|].
           destruct n as [|b|z|f|s|items|es]; try reflexivity.
           now rewrite andb_false_r.
      * rewrite (IH _ Hrun).
        now destruct (find (record_named name) (rev rest)).
Qed.

Lemma name_map_comprehension_returns todo acc :
  forallb record_ok todo = true ->
  exists m, name_map_comprehension todo acc = Ok m.
Proof.
  revert acc. induction todo as [|r rest IH]; intros acc Hok.
  - now exists acc.
  - cbn [forallb] in Hok. apply andb_true_iff in Hok as [Hr Hrest].
    cbn [name_map_comprehension].
    destruct r as [|b|z|f|s|items|entries]; try discriminate.
    cbn. unfold dict_mem. cbn [record_ok] in Hr. unfold dict_mem in Hr.
    destruct (dict_get String.eqb entries "name") as [n|]; cbn;
      [|now apply IH].
    destruct (dict_get String.eqb entries "safe_name") as [sn|]; cbn;
      [|now apply IH].
    cbn in Hr. rewrite Hr. now apply IH.
Qed.

Lemma py_or_list items : py_or (PList items) (PList []) = PList items.
Proof. now destruct items. Qed.

Lemma strategy_loop_returns fs filenames :
  forall p,
    (forall f, In f filenames -> endswith f ".json" = true ->
               open_json fs (strategy_file (data_path (data_manager p)) f)
               <> OtherError) ->
    exists strategies out,
      for_each filenames (load_strategy_file fs) p
      = (Ok tt,
         mk_process
           (mk_DataManager (data_path (data_manager p))
              (heroes (data_manager p)) strategies
              (normalized_heroes (data_manager p))
              (hero_name_map (data_manager p)))
           (stdout p ++ out)).
Proof.
  induction filenames as [|f rest IH]; intros p Hfiles.
  - exists (hero_strategies (data_manager p)), []. cbn.
    rewrite app_nil_r. now destruct p as [[? ? ? ? ?] ?].
  - cbn [for_each]. unfold bind. rewrite load_strategy_file_run. cbv zeta.
    assert (Hrest : forall q,
              data_path (data_manager q) = data_path (data_manager p) ->
              forall g, In g rest -> endswith g ".json" = true ->
                open_json fs (strategy_file (data_path (data_manager q)) g)
                <> OtherError).
    { intros q -> g Hg. apply Hfiles. now right. }
    destruct (endswith f ".json") eqn:Ejson.
    + pose proof (Hfiles f (or_introl eq_refl) Ejson) as Hother.
      destruct (open_json fs (strategy_file (data_path (data_manager p)) f))
        as [v| | |] eqn:Eopen; [| | |now elim Hother].
      * destruct (truthy v).
        -- destruct (IH (mk_process
                           (with_strategy (data_manager p)
                              (replace f ".json" "") v) (stdout p))
                        (Hrest _ eq_refl)) as [strategies [out Hrun]].
           exists strategies, out. rewrite Hrun. reflexivity.
        -- destruct (IH p (Hrest _ eq_refl)) as [strategies [out Hrun]].
           exists strategies, out. exact Hrun.
      * destruct (IH (printed p
                        (load_error_message
                           (strategy_file (data_path (data_manager p)) f)
                           FileNotFoundError)) (Hrest _ eq_refl))
          as [strategies [out Hrun]].
        eexists strategies, (_ :: out). rewrite Hrun. cbn.
        rewrite <- app_assoc. reflexivity.
      * destruct (IH (printed p
                        (load_error_message
                           (strategy_file (data_path (data_manager p)) f)
                           JSONDecodeError)) (Hrest _ eq_refl))
          as [strategies [out Hrun]].
        eexists strategies, (_ :: out). rewrite Hrun. cbn.
        rewrite <- app_assoc. reflexivity.
    + destruct (IH p (Hrest _ eq_refl)) as [strategies [out Hrun]].
      exists strategies, out. exact Hrun.
Qed.

Lemma load_strategies_returns fs p :
  (isdir fs (os_path_join (data_path (data_manager p)) "howdoiplay_json")
   = false
   \/ exists filenames,
        listdir fs (os_path_join (data_path (data_manager p))
                      "howdoiplay_json") = Ok filenames
        /\ forall f, In f filenames -> endswith f ".json" = true ->
             open_json fs (strategy_file (data_path (data_manager p)) f)
             <> OtherError) ->
  exists strategies out,
    load_strategies fs p
    = (Ok tt,
       mk_process
         (mk_DataManager (data_path (data_manager p))
            (heroes (data_manager p)) strategies
            (normalized_heroes (data_manager p))
            (hero_name_map (data_manager p)))
         (stdout p ++ out)).
Proof.
  intros Hd. unfold load_strategies, bind, get_dm, lift, ret.
  destruct (isdir fs (os_path_join (data_path (data_manager p))
                        "howdoiplay_json")) eqn:Edir.
  - destruct Hd as [Hd|[filenames [Hlist Hfiles]]]; [discriminate|].
    rewrite Hlist. now apply strategy_loop_returns.
  - exists (hero_strategies (data_manager p)), [].
    rewrite app_nil_r. now destruct p as [[? ? ? ? ?] ?].
Qed.

(** X9. On a data directory whose roster is a JSON array, whose normalized
    roster is an array of objects with names that can be keys, and whose
    strategy files can all be opened, the constructor returns: it stores the
    two arrays as they are, builds the name lookup from the normalized one,
    and closes its output with the three summary lines giving the number of
    roster entries, of normalized entries and of stored strategies. *)
Theorem loading_well_shaped_directory
    (fs : filesystem) (path : string) (p : process)
    (hs records : list pyval) :
  open_json fs (os_path_join path "heroes.json") = Parsed (PList hs) ->
  open_json fs (os_path_join path "normalized_heroes.json")
  = Parsed (PList records) ->
  forallb record_ok records = true ->
  (isdir fs (os_path_join path "howdoiplay_json") = false
   \/ exists filenames,
        listdir fs (os_path_join path "howdoiplay_json") = Ok filenames
        /\ forall f, In f filenames -> endswith f ".json" = true ->
                     open_json fs (strategy_file path f) <> OtherError) ->
  exists dm printed_lines,
    DataManager_init fs path p
    = (Ok tt,
       mk_process dm
         (stdout p
          ++ "Loading game data..."
             :: printed_lines
                ++ summary_lines dm (List.length hs) (List.length records)))
    /\ data_path dm = path
    /\ heroes dm = PList hs
    /\ normalized_heroes dm = PList records
    /\ name_map_comprehension records [] = Ok (hero_name_map dm).
Proof.
  intros Hr Hn Hok Hd.
  destruct (name_map_comprehension_returns records [] Hok) as [m Hm].
  pose (p2 := mk_process (mk_DataManager path (PList hs) [] (PList records) m)
                (stdout p ++ ["Loading game data..."])).
  destruct (load_strategies_returns fs p2 Hd) as [strategies [out Hrun]].
  exists (mk_DataManager path (PList hs) strategies (PList records) m), out.
  split; [|repeat split; assumption].
  unfold DataManager_init, _load_all_data, initialized.
  unfold bind, print, set_heroes, set_normalized_heroes, set_hero_name_map,
    get_dm, set_dm, lift, ret.
  rewrite load_json_run.
  cbn -[os_path_join String.append load_error_message _load_json
        load_strategies py_or name_map_comprehension].
  rewrite Hr.
  cbn -[os_path_join String.append load_error_message _load_json
        load_strategies py_or name_map_comprehension].
  rewrite load_json_run.
  cbn -[os_path_join String.append load_error_message _load_json
        load_strategies py_or name_map_comprehension].
  rewrite Hn.
  cbn -[os_path_join String.append load_error_message _load_json
        load_strategies py_or name_map_comprehension].
  rewrite !py_or_list.
  cbn -[os_path_join String.append load_error_message _load_json
        load_strategies py_or name_map_comprehension].
  rewrite Hm.
  cbn -[os_path_join String.append load_error_message _load_json
        load_strategies py_or name_map_comprehension].
  fold p2. rewrite Hrun. subst p2.
  cbn -[os_path_join String.append str_of_nat].
  unfold summary_lines. cbn [hero_strategies].
  repeat rewrite <- app_assoc. reflexivity.
Qed.

(** X7. The name lookup built from the normalized roster maps a display
    name to the record that names it last in the file: the safe name of that
    record and its image path, or the empty string when the record has no
    image path; records without a name or without a safe name are passed
    over, and a name no record carries is not a key. *)
Theorem name_lookup_is_last_record
    (records : list pyval) (m : list (pyval * hero_info)) (name : string) :
  name_map_comprehension records [] = Ok m ->
  dict_get key_eq m (PStr name)
  = match find (record_named name) (rev records) with
    | Some record => Some (record_info record)
    | None => None
    end.
Proof.
  intros Hrun. now rewrite (name_map_comprehension_lookup _ _ _ name Hrun).
Qed.

Lemma name_lookup_is_last_record_witness :
  exists m,
    name_map_comprehension
      [ PDict [("name", PStr "Axe"); ("safe_name", PStr "axe_old")];
        PDict [("name", PStr "Bane")];
        PDict [("name", PStr "Axe"); ("safe_name", PStr "axe");
               ("image_path", PStr "images/axe.png")] ] [] = Ok m
    /\ dict_get key_eq m (PStr "Axe")
       = Some (mk_hero_info (PStr "axe") (PStr "images/axe.png"))
    /\ dict_get key_eq m (PStr "Bane") = None.
Proof.
  eexists. split; [reflexivity|]. split.
  - rewrite (name_lookup_is_last_record
               [ PDict [("name", PStr "Axe"); ("safe_name", PStr "axe_old")];
                 PDict [("name", PStr "Bane")];
                 PDict [("name", PStr "Axe"); ("safe_name", PStr "axe");
                        ("image_path", PStr "images/axe.png")] ]
               _ "Axe" eq_refl).
    reflexivity.
  - reflexivity.
Defined.

Lemma In_dict_set {V} (d : list (string * V)) k v k' v' :
  In (k', v') (dict_set String.eqb d k v) -> In (k', v') d \/ v' = v.
Proof.
  induction d as [|[k0 v0] rest IH]; cbn [dict_set].
  - intros [H|[]]. right. now injection H.
  - destruct (String.eqb k k0).
    + intros [H|H]; [right; now injection H | left; now right].
    + intros [H|H]; [left; now left|].
      destruct (IH H) as [Hin|Hv]; [left; now right | now right].
Qed.

Lemma strategies_invariant_set d k v :
  strategies_invariant d -> truthy v = true ->
  strategies_invariant (dict_set String.eqb d k v).
Proof.
  intros [Hnd Htruthy] Hv. split.
  - rewrite dict_keys_set, dict_mem_keys.
    destruct (list_mem k (dict_keys d)) eqn:Emem; [assumption|].
    apply NoDup_app; [assumption | repeat constructor; auto |].
    intros x Hx [<-|[]]. apply list_mem_In in Hx. congruence.
  - intros k' v' Hin. destruct (In_dict_set _ _ _ _ _ Hin) as [H| ->];
      [now apply (Htruthy k') | assumption].
Qed.

Lemma preserves_bind {A B} Q (c : M A) (k : A -> M B) :
  preserves Q c -> (forall a, preserves Q (k a)) -> preserves Q (bind c k).
Proof.
  intros Hc Hk p Hp. unfold bind. specialize (Hc p Hp).
  destruct (c p) as [[a|e] p']; cbn [snd] in *;
    [now apply Hk | exact Hc].
Qed.

Lemma preserves_same {A} Q (c : M A) :
  (forall p, snd (c p) = p) -> preserves Q c.
Proof. intros H p Hp. now rewrite H. Qed.

Lemma preserves_print line : preserves strategies_kept (print line).
Proof. intros p Hp. exact Hp. Qed.

Lemma preserves_load_json fs file_name :
  preserves strategies_kept (_load_json fs file_name).
Proof.
  intros p Hp. rewrite load_json_run. cbv zeta.
  destruct (open_json fs _); exact Hp.
Qed.

Lemma preserves_load_strategy_file fs filename :
  preserves strategies_kept (load_strategy_file fs filename).
Proof.
  intros p Hp. rewrite load_strategy_file_run. cbv zeta.
  destruct (endswith filename ".json"); [|exact Hp].
  destruct (open_json fs _) as [v| | |]; try exact Hp.
  destruct (truthy v) eqn:Ev; [|exact Hp].
  now apply strategies_invariant_set.
Qed.

Lemma preserves_for_each {A} Q (xs : list A) (body : A -> M unit) :
  (forall x, preserves Q (body x)) -> preserves Q (for_each xs body).
Proof.
  intros Hbody. induction xs as [|x rest IH]; cbn [for_each].
  - now apply preserves_same.
  - apply preserves_bind; [apply Hbody | intros _; exact IH].
Qed.

Lemma preserves_setters v m :
  preserves strategies_kept (set_heroes v)
  /\ preserves strategies_kept (set_normalized_heroes v)
  /\ preserves strategies_kept (set_hero_name_map m).
Proof. split; [|split]; intros p Hp; exact Hp. Qed.

Lemma preserves_load_strategies fs :
  preserves strategies_kept (load_strategies fs).
Proof.
  unfold load_strategies.
  apply preserves_bind; [apply preserves_same; intros; reflexivity|].
  intros dm. destruct (isdir fs _).
  - apply preserves_bind; [apply preserves_same; intros; reflexivity|].
    intros filenames. apply preserves_for_each.
    intros f. apply preserves_load_strategy_file.
  - apply preserves_same. intros. reflexivity.
Qed.

Ltac preserves_step fs :=
  first
    [ apply preserves_print
    | apply preserves_load_json
    | apply preserves_load_strategies
    | apply (proj1 (preserves_setters _ []))
    | apply (proj1 (proj2 (preserves_setters _ [])))
    | apply (proj2 (proj2 (preserves_setters PNone _)))
    | apply preserves_same; intros; reflexivity ].

Lemma preserves_load_all_data fs :
  preserves strategies_kept (_load_all_data fs).
Proof.
  unfold _load_all_data.
  repeat (apply preserves_bind; [preserves_step fs | intros ?]).
  preserves_step fs.
Qed.

(** X8. Whatever the data directory holds and whether the constructor
    returns or raises, the strategy mapping it leaves has no key twice and
    no empty document: every stored document is truthy, so a query finds a
    falsy strategy only when there is none. *)
Theorem loaded_strategies_are_never_empty
    (fs : filesystem) (path : string) (p : process) :
  let strategies :=
    hero_strategies (data_manager (snd (DataManager_init fs path p))) in
  NoDup (dict_keys strategies)
  /\ (forall key document,
        dict_get String.eqb strategies key = Some document ->
        truthy document = true)
  /\ forall key,
       strategies_get strategies (PStr key) = Ok PNone
       \/ exists document,
            strategies_get strategies (PStr key) = Ok document
            /\ truthy document = true.
Proof.
  cbv zeta.
  assert (Hinv : strategies_kept (snd (DataManager_init fs path p))).
  { unfold DataManager_init, bind, set_dm.
    apply preserves_load_all_data. split; [constructor | intros k v []]. }
  destruct Hinv as [Hnd Htruthy].
  assert (Hget : forall key document,
            dict_get String.eqb
              (hero_strategies
                 (data_manager (snd (DataManager_init fs path p)))) key
            = Some document -> truthy document = true).
  { intros key document Hget. 
    generalize dependent (hero_strategies
                 (data_manager (snd (DataManager_init fs path p)))).
    intros d _ Htruthy. induction d as [|[k v] rest IH]; [discriminate|].
    cbn [dict_get]. destruct (String.eqb key k).
    - intros H. injection H as <-. apply (Htruthy k). now left.
    - apply IH. intros k' v' H. apply (Htruthy k'). now right. }
  split; [exact Hnd|]. split; [exact Hget|].
  intros key. unfold strategies_get. cbn [hashable].
  destruct (dict_get String.eqb _ key) as [document|] eqn:E.
  - right. exists document. split; [reflexivity | now apply (Hget key)].
  - now left.
Qed.

Lemma loading_well_shaped_directory_witness :
  exists dm printed_lines,
    DataManager_init example_fs "data" fresh_process
    = (Ok tt,
       mk_process dm
         (stdout fresh_process
          ++ "Loading game data..."
             :: printed_lines ++ summary_lines dm 2 5))
    /\ data_path dm = "data".
Proof.
  destruct (loading_well_shaped_directory example_fs "data" fresh_process
              [PDict [("name", PStr "Hero A")];
               PDict [("name", PStr "Hero B")]] example_normalized)
    as [dm [lines [Hrun [Hpath _]]]].
  - reflexivity.
  - reflexivity.
  - reflexivity.
  - right. exists example_filenames. split; [reflexivity|].
    intros f Hf _. unfold example_filenames in Hf. simpl in Hf.
    repeat (destruct Hf as [<-|Hf]; [vm_compute; discriminate|]).
    destruct Hf.
  - exists dm, lines. split; [exact Hrun | exact Hpath].
Defined.


(** ** What the loader prints and keeps *)

(** *** What the loop over the strategy directory prints and stores *)

Lemma load_json_outcome fs file_name p :
  open_json fs (os_path_join (data_path (data_manager p)) file_name)
  <> OtherError ->
  _load_json fs file_name p
  = (Ok (loaded_value
           (open_json fs
              (os_path_join (data_path (data_manager p)) file_name))),
     mk_process (data_manager p)
       (stdout p
        ++ error_lines (os_path_join (data_path (data_manager p)) file_name)
             (open_json fs
                (os_path_join (data_path (data_manager p)) file_name)))).
Proof.
  intros Hother. rewrite load_json_run. cbv zeta.
  destruct (open_json fs (os_path_join (data_path (data_manager p)) file_name))
    as [v| | |]; [| reflexivity | reflexivity | now elim Hother].
  cbn [loaded_value error_lines]. rewrite app_nil_r. now destruct p.
Qed.

(** The loop assigns in the order of the listing, so a key ends with the
    document of the last file that stores under it. *)
Lemma strategy_loop_run fs filenames :
  forall p,
    (forall f, In f filenames -> endswith f ".json" = true ->
               open_json fs (strategy_file (data_path (data_manager p)) f)
               <> OtherError) ->
    exists strategies,
      for_each filenames (load_strategy_file fs) p
      = (Ok tt,
         mk_process
           (mk_DataManager (data_path (data_manager p))
              (heroes (data_manager p)) strategies
              (normalized_heroes (data_manager p))
              (hero_name_map (data_manager p)))
           (stdout p
            ++ strategy_error_lines fs (data_path (data_manager p)) filenames))
      /\ forall key,
           dict_get String.eqb strategies key
           = match find (stores fs (data_path (data_manager p)) key)
                     (rev filenames) with
             | Some g =>
                 Some (loaded_value
                         (open_json fs
                            (strategy_file (data_path (data_manager p)) g)))
             | None => dict_get String.eqb (hero_strategies (data_manager p)) key
             end.
Proof.
  induction filenames as [|f rest IH]; intros p Hfiles.
  - exists (hero_strategies (data_manager p)). split; [|reflexivity].
    cbn. rewrite app_nil_r. now destruct p as [[? ? ? ? ?] ?].
  - cbn [for_each]. unfold bind. rewrite load_strategy_file_run. cbv zeta.
    assert (Hrest : forall q,
              data_path (data_manager q) = data_path (data_manager p) ->
              forall g, In g rest -> endswith g ".json" = true ->
                open_json fs (strategy_file (data_path (data_manager q)) g)
                <> OtherError).
    { intros q -> g Hg. apply Hfiles. now right. }
    assert (Hskip : forall key,
              stores fs (data_path (data_manager p)) key f = false ->
              find (stores fs (data_path (data_manager p)) key) (rev (f :: rest))
              = find (stores fs (data_path (data_manager p)) key) (rev rest)).
    { intros key Hno. cbn [rev]. rewrite find_app. cbn [find]. rewrite Hno.
      now destruct (find _ (rev rest)). }
    cbn [strategy_error_lines flat_map].
    fold (strategy_error_lines fs (data_path (data_manager p)) rest).
    destruct (endswith f ".json") eqn:Ejson.
    + pose proof (Hfiles f (or_introl eq_refl) Ejson) as Hother.
      destruct (open_json fs (strategy_file (data_path (data_manager p)) f))
        as [v| | |] eqn:Eopen; [| | |now elim Hother].
      * destruct (truthy v) eqn:Etruthy.
        -- destruct (IH (mk_process
                           (with_strategy (data_manager p)
                              (replace f ".json" "") v) (stdout p))
                        (Hrest _ eq_refl)) as [strategies [Hrun Hlook]].
           exists strategies. split; [rewrite Hrun; reflexivity|].
           intros key. rewrite Hlook.
           cbn [data_manager data_path with_strategy hero_strategies].
           cbn [rev]. rewrite find_app.
           destruct (find (stores fs (data_path (data_manager p)) key)
                       (rev rest)); [reflexivity|].
           cbn [find]. unfold stores at 1.
           rewrite Ejson, Eopen, Etruthy, dict_get_set, andb_true_r.
           cbn [andb]. rewrite (String.eqb_sym key).
           destruct (String.eqb (replace f ".json" "") key); [|reflexivity].
           now rewrite Eopen.
        -- destruct (IH p (Hrest _ eq_refl)) as [strategies [Hrun Hlook]].
           exists strategies. split; [exact Hrun|].
           intros key. rewrite Hlook, Hskip; [reflexivity|].
           unfold stores. rewrite Eopen, Etruthy. apply andb_false_r.
      * destruct (IH (printed p
                        (load_error_message
                           (strategy_file (data_path (data_manager p)) f)
                           FileNotFoundError)) (Hrest _ eq_refl))
          as [strategies [Hrun Hlook]].
        exists strategies. split.
        -- rewrite Hrun. cbn. rewrite <- app_assoc. reflexivity.
        -- intros key. rewrite Hlook, Hskip; [reflexivity|].
           unfold stores. rewrite Eopen. apply andb_false_r.
      * destruct (IH (printed p
                        (load_error_message
                           (strategy_file (data_path (data_manager p)) f)
                           JSONDecodeError)) (Hrest _ eq_refl))
          as [strategies [Hrun Hlook]].
        exists strategies. split.
        -- rewrite Hrun. cbn. rewrite <- app_assoc. reflexivity.
        -- intros key. rewrite Hlook, Hskip; [reflexivity|].
           unfold stores. rewrite Eopen. apply andb_false_r.
    + destruct (IH p (Hrest _ eq_refl)) as [strategies [Hrun Hlook]].
      exists strategies. split; [exact Hrun|].
      intros key. rewrite Hlook, Hskip; [reflexivity|].
      unfold stores. now rewrite Ejson.
Qed.

Lemma directory_listing_of fs path :
  (isdir fs (os_path_join path "howdoiplay_json") = false
   -> directory_listing fs path = [])
  /\ forall filenames,
       isdir fs (os_path_join path "howdoiplay_json") = true ->
       listdir fs (os_path_join path "howdoiplay_json") = Ok filenames ->
       directory_listing fs path = filenames.
Proof.
  unfold directory_listing. split.
  - now intros ->.
  - now intros filenames -> ->.
Qed.

Lemma load_strategies_run fs p :
  (isdir fs (os_path_join (data_path (data_manager p)) "howdoiplay_json")
   = false
   \/ exists filenames,
        listdir fs (os_path_join (data_path (data_manager p))
                      "howdoiplay_json") = Ok filenames
        /\ forall f, In f filenames -> endswith f ".json" = true ->
             open_json fs (strategy_file (data_path (data_manager p)) f)
             <> OtherError) ->
  exists strategies,
    load_strategies fs p
    = (Ok tt,
       mk_process
         (mk_DataManager (data_path (data_manager p))
            (heroes (data_manager p)) strategies
            (normalized_heroes (data_manager p))
            (hero_name_map (data_manager p)))
         (stdout p
          ++ strategy_error_lines fs (data_path (data_manager p))
               (directory_listing fs (data_path (data_manager p)))))
    /\ (forall key,
          dict_get String.eqb strategies key
          = match find (stores fs (data_path (data_manager p)) key)
                    (rev (directory_listing fs (data_path (data_manager p))))
            with
            | Some g =>
                Some (loaded_value
                        (open_json fs
                           (strategy_file (data_path (data_manager p)) g)))
            | None => dict_get String.eqb (hero_strategies (data_manager p)) key
            end)
    /\ (isdir fs (os_path_join (data_path (data_manager p)) "howdoiplay_json")
        = false -> strategies = hero_strategies (data_manager p)).
Proof.
  intros Hd. unfold load_strategies, bind, get_dm, lift, ret, directory_listing.
  destruct (isdir fs (os_path_join (data_path (data_manager p))
                        "howdoiplay_json")) eqn:Edir.
  - destruct Hd as [Hd|[filenames [Hlist Hfiles]]]; [discriminate|].
    rewrite Hlist.
    destruct (strategy_loop_run fs filenames p Hfiles)
      as [strategies [Hrun Hlook]].
    exists strategies. split; [exact Hrun|]. split; [exact Hlook|discriminate].
  - exists (hero_strategies (data_manager p)).
    split; [|split; [reflexivity|reflexivity]].
    cbn. rewrite app_nil_r. now destruct p as [[? ? ? ? ?] ?].
Qed.

Lemma find_stores_In fs path key filenames g :
  find (stores fs path key) filenames = Some g ->
  In g filenames
  /\ endswith g ".json" = true
  /\ replace g ".json" "" = key
  /\ exists document,
       open_json fs (strategy_file path g) = Parsed document
       /\ truthy document = true.
Proof.
  intros Hfind. apply find_some in Hfind as [Hin Hstores].
  unfold stores in Hstores.
  apply andb_true_iff in Hstores as [Hstores Hdoc].
  apply andb_true_iff in Hstores as [Hjson Hkey].
  apply String.eqb_eq in Hkey.
  repeat split; try assumption.
  destruct (open_json fs (strategy_file path g)) as [v| | |];
    try discriminate.
  now exists v.
Qed.

Lemma strategy_error_lines_In fs path filenames line :
  In line (strategy_error_lines fs path filenames) <->
  exists f, In f filenames /\ endswith f ".json" = true
            /\ absorbed (open_json fs (strategy_file path f))
            /\ line = load_error_message (strategy_file path f)
                        (open_json fs (strategy_file path f)).
Proof.
  unfold strategy_error_lines. rewrite in_flat_map. split.
  - intros [f [Hf Hline]]. exists f. split; [exact Hf|].
    destruct (endswith f ".json"); [|destruct Hline].
    split; [reflexivity|].
    destruct (open_json fs (strategy_file path f)) as [v| | |];
      cbn in Hline; try (destruct Hline as [<-|[]]); try destruct Hline.
    + split; [now left | reflexivity].
    + split; [now right | reflexivity].
  - intros [f (Hf & Hjson & Habs & ->)]. exists f. split; [exact Hf|].
    rewrite Hjson.
    destruct Habs as [H|H]; rewrite H; now left.
Qed.

(** *** The constructor, for inputs whose reads raise nothing uncaught *)

Lemma constructor_run fs path p records :
  open_json fs (os_path_join path "heroes.json") <> OtherError ->
  open_json fs (os_path_join path "normalized_heroes.json") <> OtherError ->
  py_or (loaded_value
           (open_json fs (os_path_join path "normalized_heroes.json")))
    (PList []) = PList records ->
  forallb record_ok records = true ->
  (isdir fs (os_path_join path "howdoiplay_json") = false
   \/ exists filenames,
        listdir fs (os_path_join path "howdoiplay_json") = Ok filenames
        /\ forall f, In f filenames -> endswith f ".json" = true ->
                     open_json fs (strategy_file path f) <> OtherError) ->
  exists m strategies,
    name_map_comprehension records [] = Ok m
    /\ (forall key,
          dict_get String.eqb strategies key
          = match find (stores fs path key) (rev (directory_listing fs path))
            with
            | Some g =>
                Some (loaded_value (open_json fs (strategy_file path g)))
            | None => None
            end)
    /\ (isdir fs (os_path_join path "howdoiplay_json") = false ->
        strategies = [])
    /\ DataManager_init fs path p
       = let dm :=
           mk_DataManager path
             (py_or (loaded_value
                       (open_json fs (os_path_join path "heroes.json")))
                (PList []))
             strategies (PList records) m in
         let out :=
           stdout p
           ++ "Loading game data..."
              :: error_lines (os_path_join path "heroes.json")
                   (open_json fs (os_path_join path "heroes.json"))
                 ++ error_lines (os_path_join path "normalized_heroes.json")
                      (open_json fs
                         (os_path_join path "normalized_heroes.json"))
                    ++ strategy_error_lines fs path
                         (directory_listing fs path) in
         match py_len (heroes dm) with
         | Ok n_heroes =>
             (Ok tt,
              mk_process dm
                (out ++ summary_lines dm n_heroes (List.length records)))
         | Raise e => (Raise e, mk_process dm out)
         end.
Proof.
  intros Hr Hn Hrecords Hok Hd.
  destruct (name_map_comprehension_returns records [] Hok) as [m Hm].
  pose (p2 := mk_process
                (mk_DataManager path
                   (py_or (loaded_value
                             (open_json fs (os_path_join path "heroes.json")))
                      (PList []))
                   [] (PList records) m)
                (((stdout p ++ ["Loading game data..."])
                  ++ error_lines (os_path_join path "heroes.json")
                       (open_json fs (os_path_join path "heroes.json")))
                 ++ error_lines (os_path_join path "normalized_heroes.json")
                      (open_json fs
                         (os_path_join path "normalized_heroes.json")))).
  destruct (load_strategies_run fs p2 Hd)
    as [strategies (Hrun & Hlook & Hmissing)].
  exists m, strategies.
  split; [exact Hm|]. split; [exact Hlook|]. split; [exact Hmissing|].
  unfold DataManager_init, _load_all_data, initialized.
  unfold bind, print, set_heroes, set_normalized_heroes, set_hero_name_map,
    get_dm, set_dm, lift, ret.
  rewrite load_json_outcome by exact Hr.
  cbn -[os_path_join String.append load_error_message _load_json
        load_strategies py_or name_map_comprehension py_len error_lines
        loaded_value].
  rewrite load_json_outcome by exact Hn.
  cbn -[os_path_join String.append load_error_message _load_json
        load_strategies py_or name_map_comprehension py_len error_lines
        loaded_value].
  rewrite Hrecords.
  cbn -[os_path_join String.append load_error_message _load_json
        load_strategies py_or name_map_comprehension py_len error_lines
        loaded_value].
  rewrite Hm.
  cbn -[os_path_join String.append load_error_message _load_json
        load_strategies py_or name_map_comprehension py_len error_lines
        loaded_value].
  fold p2. rewrite Hrun. subst p2.
  cbn -[os_path_join String.append str_of_nat py_len error_lines loaded_value
        py_or strategy_error_lines directory_listing].
  destruct (py_len _) as [n_heroes|e].
  - cbn -[os_path_join String.append str_of_nat error_lines loaded_value
          py_or strategy_error_lines directory_listing].
    unfold summary_lines. cbn [hero_strategies].
    repeat rewrite <- app_assoc. cbn [app]. repeat rewrite <- app_assoc.
    reflexivity.
  - repeat rewrite <- app_assoc. cbn [app]. repeat rewrite <- app_assoc.
    reflexivity.
Qed.

Lemma queries_on_empty_strategies dm :
  hero_strategies dm = [] ->
  (forall name info,
     dict_get key_eq (hero_name_map dm) (PStr name) = Some info ->
     hashable (safe_name info) = true) ->
  queries_are_empty dm.
Proof.
  intros Hempty Hsafe lower q enemy_heroes your_hero <-.
  rewrite get_item_suggestions_run, get_counter_tips_run. cbn [fst].
  split; [|split].
  - apply rfold_skip_all. intros s x. unfold item_suggestions_step.
    destruct (dict_get key_eq (hero_name_map (data_manager q)) (PStr x))
      as [info|] eqn:Einfo; [|reflexivity].
    unfold strategies_get. rewrite (Hsafe x info Einfo), Hempty.
    now destruct (safe_name info).
  - unfold get_strategic_tips, bind, get_dm, ret, lift. cbn [fst].
    destruct (dict_get key_eq (hero_name_map (data_manager q))
                (PStr your_hero)) as [info|] eqn:Einfo; [|reflexivity].
    unfold strategies_get. rewrite (Hsafe your_hero info Einfo), Hempty.
    now destruct (safe_name info).
  - apply rfold_skip_all. intros s x. unfold counter_tips_step.
    destruct (dict_get key_eq (hero_name_map (data_manager q)) (PStr x))
      as [info|] eqn:Einfo; [|reflexivity].
    unfold strategies_get. rewrite (Hsafe x info Einfo), Hempty.
    now destruct (safe_name info).
Qed.

Lemma queries_on_empty_name_map dm :
  hero_name_map dm = [] -> queries_are_empty dm.
Proof.
  intros Hempty lower q enemy_heroes your_hero Hq.
  apply queries_on_empty_lookup. now rewrite Hq.
Qed.

Lemma safe_names_of_records records m name info :
  name_map_comprehension records [] = Ok m ->
  forallb safe_name_ok records = true ->
  dict_get key_eq m (PStr name) = Some info ->
  hashable (safe_name info) = true.
Proof.
  intros Hm Hsafe Hget.
  rewrite (name_map_comprehension_lookup _ _ _ name Hm) in Hget.
  destruct (find (record_named name) (rev records)) as [record|] eqn:Efind;
    [|discriminate].
  injection Hget as <-.
  apply find_some in Efind as [Hin Hnamed].
  apply in_rev in Hin.
  rewrite forallb_forall in Hsafe. specialize (Hsafe record Hin).
  destruct record as [|b|z|f|s|items|entries]; try discriminate.
  cbn [safe_name_ok] in Hsafe. cbn [record_info safe_name].
  cbn [record_named] in Hnamed. unfold dict_mem in Hnamed.
  destruct (dict_get String.eqb entries "safe_name") as [v|];
    [exact Hsafe|].
  destruct (dict_get String.eqb entries "name") as [[| | | |n| |]|];
    try discriminate.
  now rewrite andb_false_r in Hnamed.
Qed.

Lemma py_or_loaded_list o :
  absorbed_or_list o ->
  o <> OtherError
  /\ py_or (loaded_value o) (PList []) = PList (loaded_list o)
  /\ py_len (PList (loaded_list o)) = Ok (List.length (loaded_list o)).
Proof.
  intros [[->| ->]|[items ->]]; (split; [discriminate|]);
    (split; [|reflexivity]); try reflexivity.
  apply py_or_list.
Qed.

(** *** The strategy directory *)

(** C7, as stated, fails: [empty.json] is a well-formed file of the
    strategy directory (it holds an empty object) and the loader does not
    insert it. *)
Lemma empty_document_is_not_inserted :
  ~ well_formed_files_inserted example_fs "data" example_filenames
      (hero_strategies
         (data_manager (snd (DataManager_init example_fs "data"
                               fresh_process)))).
Proof.
  intros H.
  specialize (H "empty.json" (PDict [])).
  assert (Hin : In "empty.json" example_filenames)
    by (unfold example_filenames; simpl; auto 10).
  specialize (H Hin eq_refl eq_refl).
  vm_compute in H. discriminate.
Qed.

(** C7, amended. When no read of a [.json] file of the strategy directory
    raises an exception other than the two [_load_json] catches, the loop
    returns, and for every file [f] of the directory whose name ends with
    [".json"] and contains [".json"] nowhere else, unless a file with
    [".json"] also inside its base name is reduced to the same key by
    [replace]: a well-formed file whose content is not empty is stored under
    the base name minus the extension; a well-formed file whose content is
    empty (falsy) is skipped silently and not stored; a missing or malformed
    file is skipped after its error line is printed and not stored.  The
    lines printed are the error lines of the [.json] files, and every
    document stored is the non-empty content of a [.json] file of the
    directory. *)
Theorem strategy_file_stored_under_its_stem
    (fs : filesystem) (p : process) (filenames : list string) :
  let path := data_path (data_manager p) in
  isdir fs (os_path_join path "howdoiplay_json") = true ->
  listdir fs (os_path_join path "howdoiplay_json") = Ok filenames ->
  hero_strategies (data_manager p) = [] ->
  (forall g, In g filenames -> endswith g ".json" = true ->
             open_json fs (strategy_file path g) <> OtherError) ->
  exists p',
    load_strategies fs p = (Ok tt, p')
    /\ stdout p' = stdout p ++ strategy_error_lines fs path filenames
    /\ (forall f,
          In f filenames -> endswith f ".json" = true ->
          str_in ".json" (stem f) = false ->
          (forall g, In g filenames -> endswith g ".json" = true ->
                     str_in ".json" (stem g) = true ->
                     replace g ".json" "" <> stem f) ->
          match open_json fs (strategy_file path f) with
          | Parsed v =>
              dict_get String.eqb (hero_strategies (data_manager p')) (stem f)
              = if truthy v then Some v else None
          | OtherError => False
          | o =>
              dict_get String.eqb (hero_strategies (data_manager p')) (stem f)
              = None
              /\ In (load_error_message (strategy_file path f) o) (stdout p')
          end)
    /\ (forall key document,
          dict_get String.eqb (hero_strategies (data_manager p')) key
          = Some document ->
          exists g,
            In g filenames /\ endswith g ".json" = true
            /\ replace g ".json" "" = key
            /\ open_json fs (strategy_file path g) = Parsed document
            /\ truthy document = true).
Proof.
  intros path Hdir Hlist Hempty Hfiles.
  destruct (load_strategies_run fs p
              (or_intror (ex_intro _ filenames (conj Hlist Hfiles))))
    as [strategies (Hrun & Hlook & _)].
  fold path in Hrun, Hlook.
  rewrite (proj2 (directory_listing_of fs path) filenames Hdir Hlist)
    in Hrun, Hlook.
  rewrite Hempty in Hlook. cbn [dict_get] in Hlook.
  eexists. split; [exact Hrun|]. cbn [stdout data_manager hero_strategies].
  split; [reflexivity|]. split.
  - intros f Hf Hjson Hslip Halone.
    assert (Hfound : forall g,
              find (stores fs path (stem f)) (rev filenames) = Some g ->
              g = f).
    { intros g Hfind. apply find_stores_In in Hfind as (Hg & Hgjson & Hkey & _).
      apply in_rev in Hg.
      destruct (str_in ".json" (stem g)) eqn:Eslip.
      - now elim (Halone g Hg Hgjson Eslip).
      - rewrite (replace_stem _ Hgjson Eslip) in Hkey.
        now apply stem_injective. }
    assert (Hstores : stores fs path (stem f) f
                      = match open_json fs (strategy_file path f) with
                        | Parsed v => truthy v
                        | _ => false
                        end).
    { unfold stores.
      now rewrite Hjson, (replace_stem _ Hjson Hslip), String.eqb_refl. }
    assert (Hnone : stores fs path (stem f) f = false ->
                    dict_get String.eqb strategies (stem f) = None).
    { intros Hno. rewrite Hlook.
      destruct (find (stores fs path (stem f)) (rev filenames)) as [g|] eqn:E;
        [|reflexivity].
      pose proof (Hfound g eq_refl) as ->.
      apply find_some in E as [_ E]. congruence. }
    pose proof (Hfiles f Hf Hjson) as Hother.
    destruct (open_json fs (strategy_file path f)) as [v| | |] eqn:Eopen.
    + destruct (truthy v) eqn:Etruthy; [|now apply Hnone].
      rewrite Hlook.
      destruct (find (stores fs path (stem f)) (rev filenames)) as [g|] eqn:E.
      * pose proof (Hfound g eq_refl) as ->. now rewrite Eopen.
      * pose proof (find_none _ _ E f (proj1 (in_rev _ _) Hf)) as Hno.
        congruence.
    + split; [now apply Hnone|].
      apply in_or_app. right. apply strategy_error_lines_In.
      exists f. rewrite Eopen. repeat split; try assumption. now left.
    + split; [now apply Hnone|].
      apply in_or_app. right. apply strategy_error_lines_In.
      exists f. rewrite Eopen. repeat split; try assumption. now right.
    + now elim Hother.
  - intros key document Hget. rewrite Hlook in Hget.
    destruct (find (stores fs path key) (rev filenames)) as [g|] eqn:E;
      [|discriminate].
    apply find_stores_In in E as (Hg & Hgjson & Hkey & v & Hopen & Hv).
    apply in_rev in Hg. rewrite Hopen in Hget. injection Hget as <-.
    now exists g.
Qed.

Lemma strategy_file_stored_under_its_stem_witness :
  exists p',
    load_strategies example_fs (initialized "data" []) = (Ok tt, p')
    /\ dict_get String.eqb (hero_strategies (data_manager p'))
         (stem "hero_c.json") = Some (PDict [("hero", PStr "Hero C")])
    /\ dict_get String.eqb (hero_strategies (data_manager p'))
         (stem "empty.json") = None.
Proof.
  destruct (strategy_file_stored_under_its_stem example_fs
              (initialized "data" []) example_filenames)
    as (p' & Hrun & _ & Hfiles & _).
  - reflexivity.
  - reflexivity.
  - reflexivity.
  - intros g Hg _. unfold example_filenames in Hg. simpl in Hg.
    repeat (destruct Hg as [<-|Hg]; [vm_compute; discriminate|]).
    destruct Hg.
  - assert (Halone : forall f g,
              In g example_filenames -> endswith g ".json" = true ->
              str_in ".json" (stem g) = true ->
              replace g ".json" "" <> stem f).
    { intros f g Hg _. unfold example_filenames in Hg. simpl in Hg.
      repeat (destruct Hg as [<-|Hg]; [vm_compute; discriminate|]).
      destruct Hg. }
    assert (Hc : In "hero_c.json" example_filenames)
      by (unfold example_filenames; simpl; auto 10).
    assert (He : In "empty.json" example_filenames)
      by (unfold example_filenames; simpl; auto 10).
    exists p'. split; [exact Hrun|]. split.
    + exact (Hfiles "hero_c.json" Hc eq_refl eq_refl
               (Halone "hero_c.json")).
    + exact (Hfiles "empty.json" He eq_refl eq_refl
               (Halone "empty.json")).
Defined.

(** *** Missing and malformed inputs *)

(** C6, as stated, fails.  A missing strategy directory gets no diagnostic:
    the constructor prints the opening line and the three counts, exactly
    what it prints for a directory that is there and empty.  A roster file
    whose read raises anything but the two caught exceptions makes the
    constructor raise.  And with the roster file alone missing, the hero
    list is empty while the queries still answer from the other files. *)
Lemma missing_directory_prints_no_diagnostic :
  (isdir missing_directory_fs "data/howdoiplay_json" = false
   /\ DataManager_init missing_directory_fs "data" fresh_process
      = (Ok tt,
         mk_process
           (mk_DataManager "data" (heroes example_dm) []
              (PList example_normalized) example_name_map)
           [ "Loading game data..."; "Loaded 2 heroes.";
             "Loaded normalized data for 5 heroes.";
             "Loaded strategies for 0 heroes." ])
   /\ isdir empty_directory_fs "data/howdoiplay_json" = true
   /\ DataManager_init empty_directory_fs "data" fresh_process
      = DataManager_init missing_directory_fs "data" fresh_process)
  /\ (open_json unreadable_roster_fs "data/heroes.json" = OtherError
      /\ DataManager_init unreadable_roster_fs "data" fresh_process
         = (Raise OSError, initialized "data" ["Loading game data..."]))
  /\ (open_json missing_roster_fs "data/heroes.json" = FileNotFoundError
      /\ heroes (data_manager
                   (snd (DataManager_init missing_roster_fs "data"
                           fresh_process))) = PList []
      /\ fst (get_counter_tips ["Hero A"]
                (snd (DataManager_init missing_roster_fs "data"
                        fresh_process)))
         = Ok [("Hero A",
                PList [PStr "Buy a Black King Bar to counter Hero A's magic burst"])]).
Proof. repeat split; vm_compute; reflexivity. Qed.

(** C6, amended. Each of the two roster files may be missing
    ([FileNotFoundError]) or malformed ([JSONDecodeError]) whatever the
    other inputs are, among: such a file or a JSON array (of objects with
    hashable names, for the normalized roster), and a strategy directory
    that is missing or whose files raise nothing but those two exceptions.
    The constructor then returns after its three summary lines.  A missing
    or malformed roster file costs one error line and leaves the hero list
    empty; a missing or malformed normalized roster costs one error line
    and leaves the normalized list and the name lookup empty, so every
    query answers empty; a missing strategy directory costs no line at all
    and leaves the strategy mapping empty, so every query answers empty
    when the safe names are hashable. *)
Theorem loading_absorbs_each_missing_or_malformed_input
    (fs : filesystem) (path : string) (p : process) :
  let roster := os_path_join path "heroes.json" in
  let normalized := os_path_join path "normalized_heroes.json" in
  let directory := os_path_join path "howdoiplay_json" in
  let hs := loaded_list (open_json fs roster) in
  let records := loaded_list (open_json fs normalized) in
  absorbed_or_list (open_json fs roster) ->
  absorbed_or_list (open_json fs normalized) ->
  forallb record_ok records = true ->
  (isdir fs directory = false
   \/ exists filenames,
        listdir fs directory = Ok filenames
        /\ forall f, In f filenames -> endswith f ".json" = true ->
                     open_json fs (strategy_file path f) <> OtherError) ->
  exists dm,
    DataManager_init fs path p
    = (Ok tt,
       mk_process dm
         (stdout p
          ++ "Loading game data..."
             :: error_lines roster (open_json fs roster)
                ++ error_lines normalized (open_json fs normalized)
                   ++ strategy_error_lines fs path (directory_listing fs path)
                      ++ summary_lines dm (List.length hs)
                           (List.length records)))
    /\ data_path dm = path
    /\ heroes dm = PList hs
    /\ normalized_heroes dm = PList records
    /\ name_map_comprehension records [] = Ok (hero_name_map dm)
    /\ (forall key,
          dict_get String.eqb (hero_strategies dm) key
          = match find (stores fs path key) (rev (directory_listing fs path))
            with
            | Some g =>
                Some (loaded_value (open_json fs (strategy_file path g)))
            | None => None
            end)
    /\ (absorbed (open_json fs roster) ->
        heroes dm = PList []
        /\ error_lines roster (open_json fs roster)
           = [load_error_message roster (open_json fs roster)])
    /\ (absorbed (open_json fs normalized) ->
        normalized_heroes dm = PList []
        /\ hero_name_map dm = []
        /\ error_lines normalized (open_json fs normalized)
           = [load_error_message normalized (open_json fs normalized)]
        /\ queries_are_empty dm)
    /\ (isdir fs directory = false ->
        hero_strategies dm = []
        /\ strategy_error_lines fs path (directory_listing fs path) = []
        /\ (forallb safe_name_ok records = true -> queries_are_empty dm)).
Proof.
  intros roster normalized directory hs records Hr Hn Hok Hd.
  destruct (py_or_loaded_list _ Hr) as (Hr1 & Hr2 & Hr3).
  destruct (py_or_loaded_list _ Hn) as (Hn1 & Hn2 & _).
  destruct (constructor_run fs path p records Hr1 Hn1 Hn2 Hok Hd)
    as (m & strategies & Hm & Hlook & Hmissing & Hrun).
  cbv zeta in Hrun. cbn [heroes] in Hrun.
  fold roster normalized in Hrun. rewrite Hr2, Hr3 in Hrun. fold hs in Hrun.
  exists (mk_DataManager path (PList hs) strategies (PList records) m).
  split; [|split; [|split; [|split; [|split; [|split; [|split; [|split]]]]]]];
    cbn [data_path heroes normalized_heroes hero_name_map hero_strategies];
    try reflexivity; try assumption.
  - rewrite Hrun. repeat rewrite <- app_assoc. cbn [app].
    repeat rewrite <- app_assoc. reflexivity.
  - intros [H|H]; subst hs; rewrite H; split; reflexivity.
  - assert (Hnone : absorbed (open_json fs normalized) -> records = []).
    { intros [H|H]; subst records; now rewrite H. }
    intros Habs. specialize (Hnone Habs).
    assert (Hmap : m = []).
    { rewrite Hnone in Hm. cbn in Hm. now injection Hm. }
    split; [now rewrite Hnone|]. split; [exact Hmap|]. split.
    + destruct Habs as [H|H]; rewrite H; reflexivity.
    + apply queries_on_empty_name_map. exact Hmap.
  - intros Hdir. specialize (Hmissing Hdir). split; [exact Hmissing|]. split.
    + now rewrite (proj1 (directory_listing_of fs path) Hdir).
    + intros Hsafe. apply queries_on_empty_strategies; [exact Hmissing|].
      cbn [hero_name_map]. intros name info.
      now apply (safe_names_of_records records m).
Qed.

Lemma loading_absorbs_each_missing_or_malformed_input_witness :
  exists dm,
    fst (DataManager_init missing_roster_fs "data" fresh_process) = Ok tt
    /\ data_manager (snd (DataManager_init missing_roster_fs "data"
                            fresh_process)) = dm
    /\ heroes dm = PList []
    /\ normalized_heroes dm = PList example_normalized.
Proof.
  destruct (loading_absorbs_each_missing_or_malformed_input
              missing_roster_fs "data" fresh_process)
    as (dm & Hrun & _ & _ & Hnormalized & _ & _ & Hroster & _).
  - left. left. reflexivity.
  - right. exists example_normalized. reflexivity.
  - reflexivity.
  - right. exists example_filenames. split; [reflexivity|].
    intros f Hf _. unfold example_filenames in Hf. simpl in Hf.
    repeat (destruct Hf as [<-|Hf]; [vm_compute; discriminate|]).
    destruct Hf.
  - exists dm. rewrite Hrun. cbn [fst snd data_manager].
    split; [reflexivity|]. split; [reflexivity|]. split.
    + apply Hroster. left. reflexivity.
    + exact Hnormalized.
Defined.

(** Two files that lose their extension to the same key: the later one of
    the listing is the one the mapping keeps. *)
Lemma twin_files_share_a_key :
  hero_strategies
    (data_manager (snd (DataManager_init twin_files_fs "data" fresh_process)))
  = [("a", PDict [("hero", PStr "B")])].
Proof. vm_compute. reflexivity. Qed.

(** *** A roster that is not a list *)

Lemma summary_line_prefix dm n_heroes n_normalized line :
  In line (summary_lines dm n_heroes n_normalized) ->
  startswith line "Loade" = true.
Proof.
  unfold summary_lines.
  intros [<-|[<-|[<-|[]]]]; reflexivity.
Qed.

Lemma error_line_is_no_summary_line path o :
  startswith (load_error_message path o) "Loade" = false.
Proof. destruct o; reflexivity. Qed.

(** X10. A roster file that is well-formed JSON but holds a truthy value
    without a length (a non-zero number or [true]) is not absorbed: the
    constructor stores it, loads the normalized roster, builds the name
    lookup, runs the loop over the strategy directory, which stores its
    documents and prints its error lines, and then raises [TypeError] at
    [len(self.heroes)]: the opening line and the error lines of the strategy
    files are all it printed, and none of the three summary lines is among
    them. *)
Theorem roster_without_length_raises
    (fs : filesystem) (path : string) (p : process)
    (roster : pyval) (records : list pyval) :
  open_json fs (os_path_join path "heroes.json") = Parsed roster ->
  truthy roster = true ->
  py_len roster = Raise TypeError ->
  open_json fs (os_path_join path "normalized_heroes.json")
  = Parsed (PList records) ->
  forallb record_ok records = true ->
  (isdir fs (os_path_join path "howdoiplay_json") = false
   \/ exists filenames,
        listdir fs (os_path_join path "howdoiplay_json") = Ok filenames
        /\ forall f, In f filenames -> endswith f ".json" = true ->
                     open_json fs (strategy_file path f) <> OtherError) ->
  exists dm,
    DataManager_init fs path p
    = (Raise TypeError,
       mk_process dm
         (stdout p
          ++ "Loading game data..."
             :: strategy_error_lines fs path (directory_listing fs path)))
    /\ data_path dm = path
    /\ heroes dm = roster
    /\ normalized_heroes dm = PList records
    /\ name_map_comprehension records [] = Ok (hero_name_map dm)
    /\ (forall key,
          dict_get String.eqb (hero_strategies dm) key
          = match find (stores fs path key) (rev (directory_listing fs path))
            with
            | Some g =>
                Some (loaded_value (open_json fs (strategy_file path g)))
            | None => None
            end)
    /\ (forall n_heroes n_normalized line,
          In line (summary_lines dm n_heroes n_normalized) ->
          ~ In line
              ("Loading game data..."
               :: strategy_error_lines fs path (directory_listing fs path))).
Proof.
  intros Hr Htruthy Hlen Hn Hok Hd.
  assert (Hr1 : open_json fs (os_path_join path "heroes.json") <> OtherError)
    by (rewrite Hr; discriminate).
  assert (Hn1 : open_json fs (os_path_join path "normalized_heroes.json")
                <> OtherError) by (rewrite Hn; discriminate).
  assert (Hn2 : py_or
                  (loaded_value
                     (open_json fs
                        (os_path_join path "normalized_heroes.json")))
                  (PList []) = PList records)
    by (rewrite Hn; apply py_or_list).
  destruct (constructor_run fs path p records Hr1 Hn1 Hn2 Hok Hd)
    as (m & strategies & Hm & Hlook & _ & Hrun).
  cbv zeta in Hrun. cbn [heroes] in Hrun.
  rewrite Hr, Hn in Hrun. cbn [loaded_value error_lines app] in Hrun.
  unfold py_or in Hrun. rewrite Htruthy, Hlen in Hrun.
  exists (mk_DataManager path roster strategies (PList records) m).
  split; [exact Hrun|].
  split; [reflexivity|]. split; [reflexivity|]. split; [reflexivity|].
  split; [exact Hm|]. split; [exact Hlook|].
  intros n_heroes n_normalized line Hsummary Hprinted.
  apply summary_line_prefix in Hsummary.
  destruct Hprinted as [<-|Hprinted]; [discriminate|].
  apply strategy_error_lines_In in Hprinted as (f & _ & _ & _ & ->).
  rewrite error_line_is_no_summary_line in Hsummary. discriminate.
Qed.

Lemma roster_without_length_raises_witness :
  exists dm,
    DataManager_init number_roster_fs "data" fresh_process
    = (Raise TypeError,
       mk_process dm
         [ "Loading game data...";
           "Error: Could not decode JSON from data/howdoiplay_json/broken.json." ])
    /\ heroes dm = PInt 5
    /\ dict_get String.eqb (hero_strategies dm) "hero_a"
       = Some (PDict [("hero", PStr "Hero A")]).
Proof.
  destruct (roster_without_length_raises number_roster_fs "data" fresh_process
              (PInt 5) example_normalized)
    as (dm & Hrun & _ & Hheroes & _ & _ & Hlook & _).
  - reflexivity.
  - reflexivity.
  - reflexivity.
  - reflexivity.
  - reflexivity.
  - right. exists ["hero_a.json"; "broken.json"]. split; [reflexivity|].
    intros f [<-|[<-|[]]] _; vm_compute; discriminate.
  - exists dm. split; [exact Hrun|]. split; [exact Hheroes|].
    exact (Hlook "hero_a").
Defined.

(** ** The user interface *)

Lemma ascii_compare_trans_le a b c :
  Ascii.compare a b <> Gt -> Ascii.compare b c <> Gt ->
  Ascii.compare a c <> Gt.
Proof.
  unfold Ascii.compare. rewrite !N.compare_gt_iff. lia.
Qed.

Lemma string_leb_trans s1 s2 s3 :
  String.leb s1 s2 = true -> String.leb s2 s3 = true ->
  String.leb s1 s3 = true.
Proof.
  unfold String.leb. revert s2 s3.
  induction s1 as [|a r1 IH]; intros [|b r2] [|c r3]; cbn;
    try reflexivity; try discriminate.
  unfold Ascii.compare.
  destruct (N.compare_spec (N_of_ascii a) (N_of_ascii b)) as [Hab|Hab|Hab];
    destruct (N.compare_spec (N_of_ascii b) (N_of_ascii c)) as [Hbc|Hbc|Hbc];
    try discriminate;
    destruct (N.compare_spec (N_of_ascii a) (N_of_ascii c)) as [Hac|Hac|Hac];
    try reflexivity; try lia.
  apply IH.
Qed.

Lemma string_leb_refl s : String.leb s s = true.
Proof. now destruct (String.leb_total s s). Qed.

Lemma string_ltb_leb a b :
  String.ltb a b = true <-> String.leb a b = true /\ a <> b.
Proof.
  unfold String.ltb, String.leb.
  destruct (String.compare a b) eqn:E.
  - apply String.compare_eq_iff in E. split; [discriminate|].
    intros [_ H]. contradiction.
  - split; [|reflexivity]. intros _. split; [reflexivity|].
    intros ->. pose proof (String.compare_antisym b b) as H.
    rewrite E in H. discriminate H.
  - split; [discriminate | intros [H _]; discriminate].
Qed.

Lemma insert_sorted_perm x xs : Permutation (insert_sorted x xs) (x :: xs).
Proof.
  induction xs as [|y rest IH]; cbn; [reflexivity|].
  destruct (String.leb x y); [reflexivity|].
  rewrite IH. apply perm_swap.
Qed.

Lemma sorted_perm xs : Permutation (sorted xs) xs.
Proof.
  induction xs as [|x rest IH]; cbn; [reflexivity|].
  rewrite insert_sorted_perm. now constructor.
Qed.

Lemma insert_sorted_ordered x xs :
  StronglySorted (fun a b => String.leb a b = true) xs ->
  StronglySorted (fun a b => String.leb a b = true) (insert_sorted x xs).
Proof.
  induction xs as [|y rest IH]; intros Hs; cbn.
  - repeat constructor.
  - apply StronglySorted_inv in Hs as [Hrest Hall].
    destruct (String.leb x y) eqn:Exy.
    + constructor; [now constructor|]. constructor; [exact Exy|].
      rewrite Forall_forall in *. intros z Hz.
      apply (string_leb_trans _ y); auto.
    + constructor; [now apply IH|].
      rewrite Forall_forall in *. intros z Hz.
      apply (Permutation_in _ (insert_sorted_perm x rest)) in Hz.
      destruct Hz as [<-|Hz]; [|now apply Hall].
      destruct (String.leb_total x y) as [H|H]; [congruence | exact H].
Qed.

Lemma sorted_ordered xs :
  StronglySorted (fun a b => String.leb a b = true) (sorted xs).
Proof.
  induction xs as [|x rest IH]; cbn; [constructor|].
  now apply insert_sorted_ordered.
Qed.

Lemma ordered_unique xs ys :
  StronglySorted (fun a b => String.leb a b = true) xs ->
  StronglySorted (fun a b => String.leb a b = true) ys ->
  Permutation xs ys -> xs = ys.
Proof.
  revert ys. induction xs as [|x rest IH]; intros ys Hxs Hys Hperm.
  - apply Permutation_nil in Hperm. now subst.
  - destruct ys as [|y rest'].
    + apply Permutation_sym, Permutation_nil in Hperm. discriminate.
    + apply StronglySorted_inv in Hxs as [Hrest Hx].
      apply StronglySorted_inv in Hys as [Hrest' Hy].
      rewrite Forall_forall in Hx, Hy.
      assert (Heq : x = y).
      { assert (Hxin : In x (y :: rest'))
          by (apply (Permutation_in _ Hperm); now left).
        assert (Hyin : In y (x :: rest))
          by (apply (Permutation_in _ (Permutation_sym Hperm)); now left).
        destruct Hxin as [->|Hxin]; [reflexivity|].
        destruct Hyin as [->|Hyin]; [reflexivity|].
        apply String.leb_antisym; auto. }
      subst y. f_equal. apply IH; try assumption.
      now apply Permutation_cons_inv in Hperm.
Qed.

Lemma sorted_permutation xs ys : Permutation xs ys -> sorted xs = sorted ys.
Proof.
  intros Hperm. apply ordered_unique; try apply sorted_ordered.
  rewrite !sorted_perm. exact Hperm.
Qed.

Lemma sorted_of_ordered xs :
  StronglySorted (fun a b => String.leb a b = true) xs -> sorted xs = xs.
Proof.
  intros Hs. apply ordered_unique;
    [apply sorted_ordered | exact Hs | apply sorted_perm].
Qed.

Lemma increasing_ordered_NoDup xs :
  increasing xs
  <-> StronglySorted (fun a b => String.leb a b = true) xs /\ NoDup xs.
Proof.
  unfold increasing. induction xs as [|x rest IH].
  - split; [intros _; split; constructor | intros _; constructor].
  - split.
    + intros Hs. apply StronglySorted_inv in Hs as [Hrest Hx].
      apply IH in Hrest as [Hord Hnd]. rewrite Forall_forall in Hx.
      split.
      * constructor; [exact Hord|]. rewrite Forall_forall. intros z Hz.
        now apply string_ltb_leb, Hx.
      * constructor; [|exact Hnd]. intros Hin.
        apply Hx, string_ltb_leb in Hin. now destruct Hin.
    + intros [Hord Hnd]. apply StronglySorted_inv in Hord as [Hrest Hx].
      inversion Hnd as [|? ? Hnotin Hnd']; subst.
      rewrite Forall_forall in Hx.
      constructor; [apply IH; now split|].
      rewrite Forall_forall. intros z Hz. apply string_ltb_leb.
      split; [now apply Hx | intros ->; contradiction].
Qed.

Lemma increasing_filter (f : string -> bool) xs :
  increasing xs -> increasing (filter f xs).
Proof.
  unfold increasing. induction xs as [|x rest IH]; intros Hs; cbn.
  - constructor.
  - apply StronglySorted_inv in Hs as [Hrest Hx].
    destruct (f x); [|now apply IH].
    constructor; [now apply IH|].
    rewrite Forall_forall in *. intros z Hz.
    apply filter_In in Hz as [Hz _]. now apply Hx.
Qed.

Lemma selected_enemies_increasing entries :
  increasing (selected_enemies entries).
Proof.
  unfold selected_enemies. apply increasing_ordered_NoDup. split.
  - apply sorted_ordered.
  - apply (Permutation_NoDup (Permutation_sym (sorted_perm _))).
    apply NoDup_nodup.
Qed.

Lemma selected_enemies_In entries h :
  In h (selected_enemies entries) <-> In h entries /\ h <> "".
Proof.
  unfold selected_enemies, distinct. split.
  - intros Hin. apply (Permutation_in _ (sorted_perm _)) in Hin.
    apply nodup_In, filter_In in Hin as [Hin Hne]. split; [exact Hin|].
    intros ->. discriminate.
  - intros [Hin Hne].
    apply (Permutation_in _ (Permutation_sym (sorted_perm _))).
    apply nodup_In, filter_In. split; [exact Hin|].
    destruct (String.eqb_spec h ""); [contradiction | reflexivity].
Qed.

Lemma ordered_filter (f : string -> bool) xs :
  StronglySorted (fun a b => String.leb a b = true) xs ->
  StronglySorted (fun a b => String.leb a b = true) (filter f xs).
Proof.
  induction xs as [|x rest IH]; intros Hs; cbn.
  - constructor.
  - apply StronglySorted_inv in Hs as [Hrest Hx].
    destruct (f x); [|now apply IH].
    constructor; [now apply IH|].
    rewrite Forall_forall in *. intros z Hz.
    apply filter_In in Hz as [Hz _]. now apply Hx.
Qed.

Lemma update_result lower show_all w :
  _update_autocomplete_list lower show_all w
  = let hits :=
      if show_all then _completion_list w
      else if negb (String.eqb (lower (entry_text w)) "")
           then filter (fun item => startswith (lower item)
                                      (lower (entry_text w)))
                  (_completion_list w)
           else [] in
    mk_AutocompleteCombobox (entry_text w) (_completion_list w) hits
      (_hit_index w) (position w) (selection_callback w)
      (match hits with [] => None | _ :: _ => Some hits end).
Proof.
  destruct w as [text completion hits index pos callback box].
  unfold _update_autocomplete_list, set_hits, set_listbox. cbn.
  destruct show_all; cbn.
  - now destruct completion.
  - destruct (String.eqb (lower text) ""); cbn; [reflexivity|].
    now destruct (filter _ completion).
Qed.

Lemma update_keeps_invariant lower completion show_all w :
  combobox_invariant completion w ->
  combobox_invariant completion (_update_autocomplete_list lower show_all w).
Proof.
  intros (Hlist & Hpos & Hin & Hord & Hbox).
  rewrite update_result. cbv zeta.
  set (hits := if show_all then _ else _).
  assert (Hhits : (forall h, In h hits -> In h completion)
                  /\ StronglySorted (fun a b => String.leb a b = true) hits).
  { subst hits. rewrite Hlist. destruct show_all.
    - split; [|apply sorted_ordered].
      intros h Hh. apply (Permutation_in _ (sorted_perm _) Hh).
    - destruct (negb _).
      + split; [|apply ordered_filter, sorted_ordered].
        intros h Hh. apply filter_In in Hh as [Hh _].
        apply (Permutation_in _ (sorted_perm _) Hh).
      + split; [intros h [] | constructor]. }
  destruct Hhits as [Hsub Hsorted].
  unfold combobox_invariant. cbn.
  repeat (split; [assumption|]).
  destruct hits; [exact I | split; [reflexivity | discriminate]].
Qed.

Lemma step_keeps_invariant lower completion e w :
  combobox_invariant completion w ->
  combobox_invariant completion (combobox_step lower e w).
Proof.
  intros Hinv. destruct e as [|keysym|text|sel| |target]; cbn [combobox_step].
  - unfold handle_focus_in. destruct (String.eqb (entry_text w) "");
      [now apply update_keeps_invariant | exact Hinv].
  - unfold handle_keyrelease. cbv zeta.
    match goal with
    | |- combobox_invariant _ (if _ then _ ?w' else ?w') =>
        assert (Hw' : combobox_invariant completion w')
    end.
    { destruct Hinv as (Hlist & Hpos & Hin & Hord & Hbox).
      destruct (String.eqb keysym "BackSpace"), (String.eqb keysym "Left"),
        (String.eqb keysym "Right");
        repeat match goal with
               | |- context [(0 <? ?z)%Z] =>
                   let E := fresh "E" in
                   destruct (0 <? z)%Z eqn:E;
                   [apply Z.ltb_lt in E | apply Z.ltb_ge in E]
               end;
        cbn in *; repeat split; auto;
        try (unfold set_position; cbn; lia). }
    destruct (_ || _); [now apply update_keeps_invariant | exact Hw'].
  - destruct Hinv as (Hlist & Hpos & Hin & Hord & Hbox).
    repeat split; auto.
  - destruct Hinv as (Hlist & Hpos & Hin & Hord & Hbox).
    unfold _on_listbox_select.
    destruct (_listbox w) as [items|] eqn:Ebox; cbn;
      [destruct sel as [i|]; cbn|];
      repeat split; auto; rewrite ?Ebox; auto.
  - now apply update_keeps_invariant.
  - destruct Hinv as (Hlist & Hpos & Hin & Hord & Hbox).
    unfold _on_parent_click.
    destruct (_listbox w) as [items|] eqn:Ebox; [destruct target|];
      cbn; repeat split; auto; rewrite ?Ebox; auto.
Qed.

(** X11. [run_analysis] calls the queries only with a chosen hero that is
    not empty and a list of opponents that is not empty, strictly
    increasing (so without repetitions), free of empty names, no longer than
    the list of entries, and made of exactly the non-empty entries; it calls
    none of them when the hero is empty or every entry is. *)
Theorem run_analysis_passes_clean_opponents
    (your_hero : string) (entries : list string) :
  match run_analysis_queries your_hero entries with
  | Some (hero, enemy_heroes) =>
      hero = your_hero /\ hero <> ""
      /\ enemy_heroes <> []
      /\ increasing enemy_heroes
      /\ NoDup enemy_heroes
      /\ (forall h, In h enemy_heroes <-> In h entries /\ h <> "")
      /\ List.length enemy_heroes <= List.length entries
  | None => your_hero = "" \/ forall h, In h entries -> h = ""
  end.
Proof.
  unfold run_analysis_queries. cbv zeta.
  pose proof (selected_enemies_increasing entries) as Hinc.
  pose proof (selected_enemies_In entries) as Hin.
  destruct (String.eqb_spec your_hero "") as [->|Hhero]; cbn [orb].
  - now left.
  - destruct (selected_enemies entries) as [|e rest] eqn:Esel.
    + right. intros h Hh. destruct (string_dec h "") as [->|Hne];
        [reflexivity|]. exfalso. apply (proj2 (Hin h)). now split.
    + pose proof (proj2 (proj1 (increasing_ordered_NoDup _) Hinc)) as Hnd.
      repeat split; try assumption; try discriminate;
        try (now apply Hin); try (intros H; now apply Hin).
      apply NoDup_incl_length; [exact Hnd|].
      intros h Hh. now apply Hin.
Qed.

(** X12. The opponents [run_analysis] draws after "Recommended against" are
    the value list of the item as [get_item_suggestions] returned it: for
    the list of opponents [run_analysis] passes, every value list is already
    sorted and without repetitions, so [sorted(list(set(heroes)))] gives it
    back, in whatever order the set is iterated. *)
Theorem drawn_opponents_are_the_listed_ones
    (lower : string -> string) (p : process)
    (your_hero : string) (entries : list string)
    (hero : string) (enemy_heroes : list string)
    (d : list (string * list string)) :
  run_analysis_queries your_hero entries = Some (hero, enemy_heroes) ->
  fst (get_item_suggestions lower enemy_heroes p) = Ok d ->
  forall item heroes,
    In (item, heroes) d ->
    unique_heroes heroes = heroes
    /\ forall iteration,
         Permutation iteration (distinct heroes) -> sorted iteration = heroes.
Proof.
  intros Hsel Hrun item heroes Hentry.
  assert (Henemies : enemy_heroes = selected_enemies entries).
  { unfold run_analysis_queries in Hsel. cbv zeta in Hsel.
    destruct (_ || _); [discriminate | now injection Hsel]. }
  pose proof (selected_enemies_increasing entries) as Hinc.
  rewrite <- Henemies in Hinc.
  rewrite get_item_suggestions_run in Hrun. cbn [fst] in Hrun.
  pose proof (dict_get_In d item heroes
                (suggestions_keys_NoDup _ _ _ _ Hrun) Hentry) as Hget.
  pose proof (rfold_suggestions_values _ _ _ _ _ item Hrun) as Hvalues.
  change (countered_by [] item) with (@nil string) in Hvalues.
  unfold countered_by in Hvalues at 1. rewrite Hget in Hvalues.
  rewrite add_all_NoDup_input in Hvalues
    by (apply NoDup_filter; now apply increasing_ordered_NoDup).
  assert (Hheroes : increasing heroes)
    by (rewrite Hvalues; now apply increasing_filter).
  apply increasing_ordered_NoDup in Hheroes as [Hord Hnd].
  assert (Hdistinct : distinct heroes = heroes)
    by (now apply nodup_fixed_point).
  split.
  - unfold unique_heroes. rewrite Hdistinct. now apply sorted_of_ordered.
  - intros iteration Hperm. rewrite Hdistinct in Hperm.
    rewrite (sorted_permutation _ _ Hperm). now apply sorted_of_ordered.
Qed.

Lemma drawn_opponents_are_the_listed_ones_witness :
  run_analysis_queries "Hero A" ["Hero B"; ""; "Hero A"; "Hero B"; ""]
  = Some ("Hero A", ["Hero A"; "Hero B"])
  /\ unique_heroes ["Hero B"] = ["Hero B"].
Proof.
  assert (Hsel :
    run_analysis_queries "Hero A" ["Hero B"; ""; "Hero A"; "Hero B"; ""]
    = Some ("Hero A", ["Hero A"; "Hero B"])) by reflexivity.
  split; [exact Hsel|].
  assert (Hrun :
    fst (get_item_suggestions ascii_lower ["Hero A"; "Hero B"]
           example_process)
    = Ok [("Black King Bar", ["Hero A"]); ("Lotus Orb", ["Hero B"])])
    by (vm_compute; reflexivity).
  refine (proj1 (drawn_opponents_are_the_listed_ones ascii_lower
                   example_process _ _ _ _ _ Hsel Hrun "Lotus Orb"
                   ["Hero B"] _)).
  right. now left.
Defined.

(** X13. Whatever the user does with the entry (focus, key releases, typing,
    selecting from the dropdown, the arrow button, clicks on the window),
    the widget keeps its invariant: the completion list is the sorted list
    it was built from, [position] is never negative, the hits are sorted
    completions, and a dropdown that is shown holds exactly the hits and is
    never empty. *)
Theorem combobox_keeps_its_invariant
    (lower : string -> string) (completion_list : list string)
    (events : list combobox_event) :
  combobox_invariant completion_list
    (combobox_run lower events (AutocompleteCombobox_init completion_list)).
Proof.
  unfold combobox_run.
  assert (Hinit : combobox_invariant completion_list
                    (AutocompleteCombobox_init completion_list)).
  { unfold combobox_invariant, AutocompleteCombobox_init. cbn.
    repeat split; try lia; try (intros h []). constructor. }
  revert Hinit. generalize (AutocompleteCombobox_init completion_list).
  induction events as [|e rest IH]; intros w Hw; cbn [fold_left].
  - exact Hw.
  - apply IH. now apply step_keeps_invariant.
Qed.

(** X14. After a key release of a printable key or of BackSpace, the hits
    are the completions whose lower-cased name starts with the lower-cased
    text of the entry, in the order of the completion list, and the dropdown
    is shown exactly when there are hits; for an empty text there are none.
    Selecting row [i] of that dropdown puts the [i]-th hit in the entry,
    closes the dropdown and passes the hit to the callback when one is set:
    what lands in the entry is a completion that starts with what was
    typed, letter case aside. *)
Theorem typed_prefix_selects_completion
    (lower : string -> string) (w : AutocompleteCombobox)
    (text keysym : string) (i : nat) :
  String.length keysym = 1 \/ keysym = "BackSpace" ->
  let typed := handle_keyrelease lower keysym (set_entry_text w text) in
  let hits :=
    filter (fun item => startswith (lower item) (lower text))
      (_completion_list w) in
  (lower text = "" -> _hits typed = [] /\ _listbox typed = None)
  /\ (lower text <> "" ->
      _hits typed = hits
      /\ _listbox typed = match hits with [] => None | _ :: _ => Some hits end
      /\ (i < List.length hits ->
          let selected := _on_listbox_select (Some i) typed in
          entry_text (fst selected) = nth i hits ""
          /\ In (nth i hits "") (_completion_list w)
          /\ startswith (lower (nth i hits "")) (lower text) = true
          /\ _listbox (fst selected) = None
          /\ snd selected
             = if selection_callback w then Some (nth i hits "") else None)).
Proof.
  intros Hkey. cbv zeta.
  assert (Hupdate :
    handle_keyrelease lower keysym (set_entry_text w text)
    = let hits :=
        if negb (String.eqb (lower text) "")
        then filter (fun item => startswith (lower item) (lower text))
               (_completion_list w)
        else [] in
      mk_AutocompleteCombobox text (_completion_list w) hits (_hit_index w)
        (position (handle_keyrelease lower keysym (set_entry_text w text)))
        (selection_callback w)
        (match hits with [] => None | _ :: _ => Some hits end)).
  { unfold handle_keyrelease. cbv zeta.
    assert (Hcond : (String.length keysym =? 1)%nat
                    || String.eqb keysym "BackSpace" = true).
    { destruct Hkey as [H| ->]; [rewrite H | rewrite String.eqb_refl];
        [reflexivity | apply orb_true_r]. }
    rewrite Hcond, !update_result. cbv zeta.
    destruct w as [t c h idx pos cb box]. cbn.
    destruct (String.eqb keysym "BackSpace"), (String.eqb keysym "Left"),
      (String.eqb keysym "Right"); cbn;
      repeat match goal with
             | |- context [(0 <? ?z)%Z] => destruct (0 <? z)%Z; cbn
             end;
      reflexivity. }
  rewrite Hupdate. cbv zeta. clear Hupdate. split.
  - intros ->. cbn. now split.
  - intros Hne. destruct (String.eqb_spec (lower text) "") as [E|_];
      [contradiction|].
    cbn [negb _hits _listbox].
    set (hits := filter _ (_completion_list w)).
    split; [reflexivity|]. split; [reflexivity|].
    intros Hi.
    assert (Hnth : In (nth i hits "") hits) by now apply nth_In.
    unfold _on_listbox_select.
    destruct hits as [|x rest] eqn:Ehits; [cbn in Hi; lia|].
    cbn [_listbox set_listbox set_entry_text entry_text selection_callback
         fst snd].
    rewrite <- Ehits in Hnth.
    apply filter_In in Hnth. rewrite Ehits in Hnth.
    destruct Hnth as [Hin Hstart].
    repeat split; assumption || reflexivity.
Qed.

Lemma typed_prefix_selects_completion_witness :
  entry_text
    (fst (_on_listbox_select (Some 1)
            (handle_keyrelease ascii_lower "h"
               (set_entry_text
                  (AutocompleteCombobox_init ["Hero B"; "Axe"; "Hero A"])
                  "h"))))
  = "Hero B".
Proof.
  destruct (typed_prefix_selects_completion ascii_lower
              (AutocompleteCombobox_init ["Hero B"; "Axe"; "Hero A"])
              "h" "h" 1 (or_introl eq_refl)) as [_ Htyped].
  destruct Htyped as [_ [_ Hselect]]; [discriminate|].
  destruct Hselect as [Hentry _]; [apply Nat.ltb_lt; reflexivity|].
  rewrite Hentry. reflexivity.
Defined.





(** X16. The sections "How to Counter ..." are drawn in alphabetical order
    of the opponents: for the list of opponents [run_analysis] passes, the
    keys of the mapping [get_counter_tips] returns, which [run_analysis]
    draws in their order, are strictly increasing, and they are exactly the
    passed opponents that have a counter-tips value. *)
Theorem counter_tip_sections_are_alphabetical
    (p : process) (your_hero : string) (entries : list string)
    (hero : string) (enemy_heroes : list string)
    (d : list (string * pyval)) :
  run_analysis_queries your_hero entries = Some (hero, enemy_heroes) ->
  fst (get_counter_tips enemy_heroes p) = Ok d ->
  increasing (dict_keys d)
  /\ dict_keys d = filter (offers_counter_tips (data_manager p)) enemy_heroes.
Proof.
  intros Hsel Hrun.
  assert (Henemies : enemy_heroes = selected_enemies entries).
  { unfold run_analysis_queries in Hsel. cbv zeta in Hsel.
    destruct (_ || _); [discriminate | now injection Hsel]. }
  pose proof (selected_enemies_increasing entries) as Hinc.
  rewrite <- Henemies in Hinc.
  rewrite get_counter_tips_run in Hrun. cbn [fst] in Hrun.
  pose proof (rfold_counter_tips_key_order _ _ _ _ Hrun) as Hkeys.
  change (dict_keys (@nil (string * pyval))) with (@nil string) in Hkeys.
  rewrite add_all_NoDup_input in Hkeys
    by (apply NoDup_filter; now apply increasing_ordered_NoDup).
  split; [|exact Hkeys].
  rewrite Hkeys. now apply increasing_filter.
Qed.

Lemma counter_tip_sections_are_alphabetical_witness :
  run_analysis_queries "Hero A" ["Hero B"; "Hero E"; "Hero A"; ""; "Hero B"]
  = Some ("Hero A", ["Hero A"; "Hero B"; "Hero E"])
  /\ increasing ["Hero A"; "Hero B"].
Proof.
  assert (Hsel :
    run_analysis_queries "Hero A"
      ["Hero B"; "Hero E"; "Hero A"; ""; "Hero B"]
    = Some ("Hero A", ["Hero A"; "Hero B"; "Hero E"])) by reflexivity.
  split; [exact Hsel|].
  assert (Hrun :
    fst (get_counter_tips ["Hero A"; "Hero B"; "Hero E"] example_process)
    = Ok [("Hero A",
           PList [PStr
                    "Buy a Black King Bar to counter Hero A's magic burst"]);
          ("Hero B",
           PList [PStr "A Lotus Orb reflects the hook";
                  PStr "Keep the lotus orb ready"])])
    by (vm_compute; reflexivity).
  exact (proj1 (counter_tip_sections_are_alphabetical example_process
                  _ _ _ _ _ Hsel Hrun)).
Defined.
